(* ===== verification/_CoqProject ===== *)
-Q . S2P
Prelude.v
PyStr.v
PyDict.v
Frame.v
ExactMatch.v
Abbrev.v
Normalizer.v
Engine.v
Adapter.v
Cascade.v
Outcome.v
Machine.v
Samples.v
Correct.v
Scenarios.v
