(* ===== verification/Prelude.v ===== *)
(** * Verification of the MetaHarmonizer ontology-mapping cascade

    The program under verification is [src/Engine/ontology_mapping_engine.py]:
    the class [OntoMapEngine], which resolves free-text clinical terms
    (queries) against an ontology (corpus) by a three-stage cascade.

    The constructor validates the configuration and, for a retrieval
    strategy, normalises the reference table.  [run] matches the queries
    exactly against the corpus (stage 1), hands the remaining queries to a
    matcher (stage 2) after expanding abbreviations, re-runs the queries the
    matcher scored below a threshold with a second matcher (stage 3) and
    concatenates the tables of the stages.

    ** The program's parts and where they are modelled

    - Python and library values.  [PyStr.v]: [str.strip] and [str.lower].
      [PyDict.v]: insertion-ordered dictionaries ([dict.get], item
      assignment, [dict.fromkeys], [dict(zip ...)], comprehensions), as
      association lists without repeated keys, with the finite map each
      stands for.  [Frame.v]: the pandas operations the engine calls, on
      tables that are a list of column names and a list of rows, a row a
      finite map ([gmap]) from column names to values.
    - [_exact_matching] and the table and the remaining queries [run]
      derives from it (lines 145-155, 249-265): [ExactMatch.v], with
      NumPy's [setdiff1d].
    - [_map_shortname_to_fullname] (lines 157-180): [Abbrev.v].
    - [_normalize_df] (lines 102-143): [Normalizer.v].
    - [__init__] (lines 31-100): [Engine.v], the record [OntoMapEngine] of
      the object's fields and the function [init].
    - [_om_model_from_strategy] (lines 182-234): [Adapter.v].
    - [run] (lines 236-417): [Cascade.v].  Stage 2 and stage 3 are the same
      code on different arguments, the function [matcher_stage]; [stage3]
      is the part of [run] after stage 2.
    - [Outcome.v] describes the exits of [run] uniformly and says when it
      succeeds; [Machine.v] is the control flow as a state machine;
      [Correct.v] holds the properties of the cascade; [Samples.v] and
      [Scenarios.v] hold concrete collaborators and runs.

    ** What is a parameter

    The engine's collaborators are outside the program and are parameters
    of the model, as type classes; every theorem holds for all instances
    unless it states a hypothesis on them.

    - [Backend] ([Adapter.v]): [get_match_results] of the four matcher
      classes, any function from the constructed matcher and its arguments
      to a table or an error.
    - [AbbrevSource] ([Abbrev.v]): what [pd.read_csv] finds at the path of
      the abbreviation table, the rows of the file or nothing.
    - [PandasNumeric] ([Frame.v]): the parser behind [pd.to_numeric] and
      the printer behind [astype(str)].

    ** What the theorems show

    - Strings and dictionaries: [strip] is characterised by its contract;
      the normalised key is idempotent; a dictionary refines a finite map.
    - Stage 1: which queries match, what their rows hold, and that
      [setdiff1d] is the sorted list of the stored queries that are no
      stored match.
    - The resolver, the normalizer and the constructor: the result on every
      branch, each error with its message and the order of the checks, the
      shape of a normalised table and the row of the input every row of it
      comes from, idempotence for string keys and its failure for keys that
      differ and print alike, the invariant [valid_engine] of constructed
      engines.
    - The cascade ([Correct.v]): coverage, stage exclusivity, exact-match
      correctness, escalation, the exits without stage 3, degradation,
      the number of rows, success for backends whose tables can be joined,
      the errors of stage 2; the cells of a stage row (the matcher's cells
      pass through the join unchanged); the assembled table (the invariant
      [wf_frame] of tables is preserved from the backend's tables to the
      final table, whose columns are those of the stage tables that were
      made).  [Cascade.v] characterises the re-keyed curation map the
      matcher is given.
    - Where the cascade departs from its specification, as theorems for
      every engine and backend ([Correct.v]): a query that is no exact
      match has one row however often it is given; the left join gives a
      query one row for every matcher row that answers its expansion, so
      queries with one expansion multiply each other's rows; a query that
      ends in a NUL character has no row of its own.
    - The machine ([Machine.v]): its states are those of the
      specification, it computes [run], and no reachable state loses or
      invents a query.
    - [Scenarios.v]: the theorems applied to the sample collaborators, and
      the runs that show each departure.

    ** Bounds and conventions

    - A Python exception is a value [Err e] of [res]; [ValueError] carries
      the message of the source, [KeyError] the missing column,
      [BackendError] whatever a matcher raises.
    - Strings are [string] of the Standard Library, one [ascii] per code
      point, read as Latin-1: code points of 256 and above are outside the
      model.  White space and capitals are those of Python below 256.
    - Numbers in cells are rationals ([Qc]); an integer and a float of the
      same value are one number; infinities and NaN as a number are outside
      the model (a null cell is [None]).
    - The abbreviation table is a list of pairs of strings; a file without
      the columns [code] and [name] is outside the model.
    - No definition needs fuel: every function is structurally recursive,
      so the examples evaluate by [vm_compute]; the machine stops by its
      rank.

    ** What is not modelled

    Logging ([CustomLogger], every [self._logger] call) has no effect on the
    result.  The matcher classes and the reading of files are parameters
    (above).  Column types ([dtype]) and the index of a table are not
    represented: [ignore_index=True] and [.copy()] have no counterpart, and
    the errors pandas raises on account of a column type or of a repeated
    column label are absent ([Frame.v] lists them: the join of the queries
    with a matcher table keyed by numbers is the one a well-formed matcher
    table can meet).  A left join is modelled for tables that share no
    column but the key, which is the only case [run] produces.

    This file is the shared prelude: the error type and its monad, the
    tactics and the hint database of the development, and the list lemmas
    several components use. *)

From stdpp Require Export prelude strings.
From stdpp Require Import sorting.
From Stdlib Require Export Ascii.

(** ** Errors as values *)

Inductive error : Type :=
  | ValueError (msg : string)
  | KeyError (key : string)
  | BackendError (msg : string).

Inductive res (A : Type) : Type :=
  | Ok (a : A)
  | Err (e : error).

Arguments Ok {A} a.
Arguments Err {A} e.

#[export] Instance error_eq_dec : EqDecision error.
Proof. solve_decision. Defined.

#[export] Instance res_eq_dec `{EqDecision A} : EqDecision (res A).
Proof. solve_decision. Defined.

#[export] Instance res_ret : MRet res := @Ok.

#[export] Instance res_bind : MBind res := λ A B f m,
  match m with
  | Ok a => f a
  | Err e => Err e
  end.

#[export] Instance res_fmap : FMap res := λ A B f m,
  match m with
  | Ok a => Ok (f a)
  | Err e => Err e
  end.

Definition is_ok {A} (m : res A) : bool :=
  match m with
  | Ok _ => true
  | Err _ => false
  end.

(** ** Hint database and tactics *)

Create HintDb onto discriminated.
Create Rewrite HintDb onto.

(** [res_inv] turns hypotheses [m ≫= f = Ok b] into the two runs they stand
    for, and discards impossible ones. *)
Lemma res_bind_ok {A B} (f : A → res B) (m : res A) (b : B) :
  m ≫= f = Ok b ↔ ∃ a, m = Ok a ∧ f a = Ok b.
Proof. destruct m; naive_solver. Qed.

Lemma res_bind_err {A B} (f : A → res B) (m : res A) (e : error) :
  m ≫= f = Err e ↔ m = Err e ∨ ∃ a, m = Ok a ∧ f a = Err e.
Proof. destruct m; naive_solver. Qed.

Lemma res_fmap_ok {A B} (f : A → B) (m : res A) (b : B) :
  f <$> m = Ok b ↔ ∃ a, m = Ok a ∧ b = f a.
Proof. destruct m; naive_solver. Qed.

Ltac res_inv :=
  repeat match goal with
  | H : _ ≫= _ = Ok _ |- _ => apply res_bind_ok in H as (? & ? & ?)
  | H : _ <$> _ = Ok _ |- _ => apply res_fmap_ok in H as (? & ? & ?)
  | H : Ok _ = Ok _ |- _ => injection H as H
  | H : Err _ = Ok _ |- _ => discriminate H
  | H : Ok _ = Err _ |- _ => discriminate H
  end; simplify_eq/=.

(** [by_compute] proves a decidable proposition about concrete values by
    evaluating its decision procedure. *)
Ltac by_compute := apply (bool_decide_unpack _); vm_compute; exact I.

(** ** Lists *)

Section list_facts.
Context {A : Type}.
Implicit Types l k : list A.

Lemma filter_nil_iff (P : A → Prop) `{∀ x, Decision (P x)} l :
  filter P l = [] ↔ Forall (λ x, ¬ P x) l.
Proof.
  induction l as [|x l IH]; [by rewrite filter_nil|].
  rewrite filter_cons, Forall_cons. case_decide; naive_solver.
Qed.

Lemma filter_all (P : A → Prop) `{∀ x, Decision (P x)} l :
  Forall P l → filter P l = l.
Proof.
  induction 1 as [|x l ?? IH]; [done|].
  by rewrite filter_cons_True, IH.
Qed.

Lemma filter_none (P : A → Prop) `{∀ x, Decision (P x)} l :
  Forall (λ x, ¬ P x) l → filter P l = [].
Proof. by rewrite filter_nil_iff. Qed.

Lemma StronglySorted_filter (R : relation A) (P : A → Prop)
    `{∀ x, Decision (P x)} l :
  StronglySorted R l → StronglySorted R (filter P l).
Proof.
  induction 1 as [|x l ? IH Hx]; [constructor|].
  rewrite filter_cons. case_decide; [|done].
  constructor; [done|]. apply Forall_forall.
  intros y [_ ?]%list_elem_of_filter. by eapply Forall_forall in Hx.
Qed.

Lemma StronglySorted_strict_NoDup (R : relation A) l :
  StronglySorted (strict R) l → NoDup l.
Proof.
  induction 1 as [|x l ? IH Hx]; constructor; [|done].
  intros Hin. eapply Forall_forall in Hx as [? ?]; done.
Qed.

(** A strictly sorted list is determined by its elements. *)
Lemma StronglySorted_strict_unique (R : relation A) `{!Transitive R} l k :
  StronglySorted (strict R) l → StronglySorted (strict R) k →
  (∀ x, x ∈ l ↔ x ∈ k) → l = k.
Proof.
  intros Hl Hk Heq. apply (StronglySorted_unique_strong (strict R)); [|done..|].
  - intros x y _ _ [? ?] [? ?]. done.
  - apply NoDup_Permutation; eauto using StronglySorted_strict_NoDup.
Qed.

Lemma mapM_res_Ok {B} (f : A → res B) (g : A → B) l :
  (∀ x, x ∈ l → f x = Ok (g x)) → mapM f l = Ok (g <$> l).
Proof.
  induction l as [|x l IH]; intros Hf; simpl; [done|].
  rewrite (Hf x) by left. simpl. rewrite IH; [done|].
  intros y ?. apply Hf. by right.
Qed.

Lemma zip_fmap_r {B} (g : A → B) l : zip l (g <$> l) = (λ x, (x, g x)) <$> l.
Proof. induction l; csimpl; by f_equal. Qed.

Lemma elem_of_replicate_inv (x y : A) n : x ∈ replicate n y → x = y.
Proof. by intros [-> _]%elem_of_replicate. Qed.

Lemma omap_const {B} (f : A → option B) (y : B) l :
  (∀ x, x ∈ l → f x = Some y) → omap f l = replicate (length l) y.
Proof.
  induction l as [|x l IH]; intros Hf; csimpl; [done|].
  rewrite (Hf x) by left. f_equal. apply IH. intros z ?. apply Hf. by right.
Qed.

(** Repeating every element at least once changes no membership, and
    repeating every element once changes nothing. *)
Lemma elem_of_bind_replicate (n : A → nat) x l :
  (∀ y, y ∈ l → 0 < n y) → x ∈ l ≫= (λ y, replicate (n y) y) ↔ x ∈ l.
Proof.
  intros Hn. rewrite list_elem_of_bind. split.
  - by intros (y & ->%elem_of_replicate_inv & ?).
  - intros Hx. exists x. split; [|done]. apply elem_of_replicate.
    split; [done|]. specialize (Hn x Hx). lia.
Qed.

Lemma bind_replicate_once (n : A → nat) l :
  (∀ y, y ∈ l → n y = 1) → l ≫= (λ y, replicate (n y) y) = l.
Proof.
  induction l as [|x l IH]; intros Hn; csimpl; [done|].
  rewrite (Hn x) by left. simpl. f_equal. apply IH. intros y ?. apply Hn. by right.
Qed.

Lemma filter_fmap {B} (f : A → B) (P : B → Prop) `{∀ y, Decision (P y)} l :
  filter P (f <$> l) = f <$> filter (λ x, P (f x)) l.
Proof.
  induction l as [|x l IH]; [done|]. csimpl. rewrite !filter_cons.
  case_decide; csimpl; by rewrite IH.
Qed.

(** Among elements with distinct images at most one has a given image. *)
Lemma length_filter_NoDup_fmap {B} `{EqDecision B} (f : A → B) (y : B) l :
  NoDup (f <$> l) → length (filter (λ x, f x = y) l) ≤ 1.
Proof.
  induction l as [|x l IH]; csimpl; [lia|]. intros [Hx Hnd]%NoDup_cons.
  rewrite filter_cons. case_decide as Hy; [|auto]. simpl.
  rewrite filter_none; [simpl; lia|]. apply Forall_forall. intros z Hz Hfz.
  apply Hx, list_elem_of_fmap. exists z. split; [congruence|done].
Qed.

Lemma filter_ext_elem_of (P Q : A → Prop)
    `{∀ x, Decision (P x), ∀ x, Decision (Q x)} l :
  (∀ x, x ∈ l → P x ↔ Q x) → filter P l = filter Q l.
Proof.
  induction l as [|x l IH]; intros HPQ; [done|].
  rewrite !filter_cons, IH by (intros y ?; apply HPQ; by right).
  pose proof (HPQ x (list_elem_of_here _ _)). by repeat case_decide; naive_solver.
Qed.

Lemma omap_filter_sublist {B} (f : A → option B) (P : A → Prop)
    `{∀ x, Decision (P x)} l :
  omap f (filter P l) `sublist_of` omap f l.
Proof.
  induction l as [|x l IH]; [done|]. rewrite filter_cons.
  case_decide; csimpl; destruct (f x); by repeat constructor.
Qed.

Lemma omap_filter_comm {B} (f : A → option B) (P : A → Prop) (Q : B → Prop)
    `{∀ x, Decision (P x), ∀ y, Decision (Q y)} l :
  (∀ x y, f x = Some y → P x ↔ Q y) →
  omap f (filter P l) = filter Q (omap f l).
Proof.
  intros HPQ. induction l as [|x l IH]; [done|]. rewrite filter_cons. csimpl.
  destruct (f x) as [y|] eqn:Hfx.
  - rewrite filter_cons. pose proof (HPQ x y Hfx).
    repeat case_decide; csimpl; rewrite ?Hfx; try tauto; by rewrite IH.
  - case_decide; csimpl; by rewrite ?Hfx.
Qed.

Lemma length_omap_total {B} (f : A → option B) l :
  Forall (λ x, is_Some (f x)) l → length (omap f l) = length l.
Proof.
  induction 1 as [|x l [y Hy] _ IH]; [done|]. csimpl. rewrite Hy. simpl.
  by f_equal.
Qed.

(** Taking a part without repetitions out of a list without repetitions and
    putting it back permutes the list. *)
Lemma filter_out_Permutation `{EqDecision A} (l k : list A) :
  NoDup l → NoDup k → (∀ x, x ∈ k → x ∈ l) →
  filter (λ x, x ∉ k) l ++ k ≡ₚ l.
Proof.
  intros Hl Hk Hkl. apply NoDup_Permutation; [|done|].
  - apply NoDup_app. split_and!; [by apply NoDup_filter| |done].
    by intros x [? _]%list_elem_of_filter.
  - intros x. rewrite elem_of_app, list_elem_of_filter.
    destruct (decide (x ∈ k)); naive_solver.
Qed.

Lemma length_filter_NoDup `{EqDecision A} (x : A) l :
  NoDup l → x ∈ l → length (filter (λ y, y = x) l) = 1.
Proof.
  induction 1 as [|y l Hy _ IH]; [by intros ?%elem_of_nil|].
  rewrite filter_cons. intros [->|Hx]%elem_of_cons.
  - rewrite decide_True by done. simpl. f_equal.
    rewrite filter_none; [done|]. apply Forall_forall. by intros z ? ->.
  - rewrite decide_False by (by intros <-). auto.
Qed.

(** A function is injective on a list whose images do not repeat. *)
Lemma NoDup_fmap_eq {B} (f : A → B) l x y :
  NoDup (f <$> l) → x ∈ l → y ∈ l → f x = f y → x = y.
Proof.
  induction l as [|z l IH]; csimpl; [by intros _ ?%elem_of_nil|].
  intros [Hz Hnd]%NoDup_cons [->|Hx]%elem_of_cons [->|Hy]%elem_of_cons Heq;
    [done| | |by apply IH].
  - destruct Hz. rewrite Heq. by apply list_elem_of_fmap_2.
  - destruct Hz. rewrite <-Heq. by apply list_elem_of_fmap_2.
Qed.

Lemma length_filter_two (P : A → Prop) `{∀ x, Decision (P x)} l x y :
  x ≠ y → x ∈ l → y ∈ l → P x → P y → 2 ≤ length (filter P l).
Proof.
  intros Hne Hx Hy HPx HPy.
  assert (∀ z k, z ∈ k → P z → 1 ≤ length (filter P k)) as Hpos.
  { intros z k Hz HPz. assert (z ∈ filter P k) by (by apply list_elem_of_filter).
    destruct (filter P k); [by apply elem_of_nil in H0|simpl; lia]. }
  induction l as [|z l IH]; [by apply elem_of_nil in Hx|].
  rewrite filter_cons.
  apply elem_of_cons in Hx as [->|Hx]; apply elem_of_cons in Hy as [->|Hy];
    [done|..].
  - rewrite decide_True by done. simpl. specialize (Hpos y l Hy HPy). lia.
  - rewrite decide_True by done. simpl. specialize (Hpos x l Hx HPx). lia.
  - specialize (IH Hx Hy). case_decide; simpl; lia.
Qed.

End list_facts.

#[export] Hint Resolve NoDup_nil_2 : onto.

(** ** Strings as lists of characters *)

Fixpoint chars (s : string) : list ascii :=
  match s with
  | EmptyString => []
  | String c s' => c :: chars s'
  end.

Lemma chars_inj s t : chars s = chars t → s = t.
Proof.
  revert t. induction s as [|c s IH]; intros [|d t] ?; simplify_eq/=; [done|].
  f_equal. auto.
Qed.

Lemma chars_app s t : chars (s +:+ t) = chars s ++ chars t.
Proof. induction s as [|c s IH]; [done|]. cbn. by rewrite <-IH. Qed.

Lemma string_app_inv_tail s1 s2 t : s1 +:+ t = s2 +:+ t → s1 = s2.
Proof.
  intros Heq%(f_equal chars). rewrite !chars_app in Heq.
  by apply app_inv_tail, chars_inj in Heq.
Qed.

Lemma string_app_nil_r s : s +:+ "" = s.
Proof. apply chars_inj. by rewrite chars_app, app_nil_r. Qed.

Lemma string_app_assoc s t u : (s +:+ t) +:+ u = s +:+ t +:+ u.
Proof. apply chars_inj. by rewrite !chars_app, app_assoc. Qed.

(** Two strings that end differently are different. *)
Lemma string_app_last_ne s1 s2 t1 t2 :
  length (chars t1) = length (chars t2) → t1 ≠ t2 → s1 +:+ t1 ≠ s2 +:+ t2.
Proof.
  intros Hlen Hne Heq%(f_equal chars). rewrite !chars_app in Heq.
  apply app_inj_2 in Heq as [_ ?%chars_inj]; done.
Qed.
