(* ===== verification/PyStr.v ===== *)
(** * Python strings: [strip], [lower] and the normalised key of a label

    The engine compares labels after [s.strip().lower()]
    ([_exact_matching], lines 152-155) and looks abbreviations up after
    [q.strip()] ([_map_shortname_to_fullname], line 175).  This file models
    both methods on strings whose code points are below 256: a character is
    an [ascii], read as the Latin-1 code point of the same number.

    - [isspace] is the predicate [str.strip] tests: the code points 9-13,
      28-32, 133 and 160 (the Latin-1 part of Python's [str.isspace]).
    - [lower_char] is [str.lower] on one character: A-Z and the Latin-1
      capitals 192-214 and 216-222 move up by 32, every other character is
      kept.
    - [lstrip_by], [rstrip_by] and [strip_by] drop the characters that
      satisfy a predicate from the ends; [strip] is the instance for
      [isspace].  The same functions with the predicate "is NUL" model what
      a NumPy string array does to the strings stored in it.

    The theorems: [strip] and [lower] are idempotent and commute, so the
    normalised key [norm_key] is a fixed point of itself; [strip] is
    characterised by the decomposition [blank ++ trimmed ++ blank]. *)

From S2P Require Import Prelude.

(** ** Characters *)

Definition code (c : ascii) : N := N_of_ascii c.

Definition between (lo hi n : N) : bool := (lo <=? n)%N && (n <=? hi)%N.

Definition isspace (c : ascii) : bool :=
  between 9 13 (code c) || between 28 32 (code c)
  || (code c =? 133)%N || (code c =? 160)%N.

Definition isupper (c : ascii) : bool :=
  between 65 90 (code c) || between 192 214 (code c)
  || between 216 222 (code c).

Definition lower_char (c : ascii) : ascii :=
  if isupper c then ascii_of_N (code c + 32) else c.

(** ** Strings *)

Fixpoint lower (s : string) : string :=
  match s with
  | EmptyString => EmptyString
  | String c s' => String (lower_char c) (lower s')
  end.

Section strip_by.
Context (p : ascii → bool).

Fixpoint lstrip_by (s : string) : string :=
  match s with
  | EmptyString => EmptyString
  | String c s' => if p c then lstrip_by s' else s
  end.

Fixpoint rstrip_by (s : string) : string :=
  match s with
  | EmptyString => EmptyString
  | String c s' =>
      match rstrip_by s' with
      | EmptyString => if p c then EmptyString else String c EmptyString
      | r => String c r
      end
  end.

Definition strip_by (s : string) : string := rstrip_by (lstrip_by s).

(** Every character satisfies [p]. *)
Fixpoint all_chars (s : string) : bool :=
  match s with
  | EmptyString => true
  | String c s' => p c && all_chars s'
  end.

Definition first_char (s : string) : option ascii :=
  match s with
  | EmptyString => None
  | String c _ => Some c
  end.

Fixpoint last_char (s : string) : option ascii :=
  match s with
  | EmptyString => None
  | String c EmptyString => Some c
  | String _ s' => last_char s'
  end.

(** Neither end of the string satisfies [p]. *)
Definition trimmed (s : string) : Prop :=
  (∀ c, first_char s = Some c → p c = false) ∧
  (∀ c, last_char s = Some c → p c = false).

End strip_by.

Definition strip : string → string := strip_by isspace.

Definition blank : string → bool := all_chars isspace.

(** [s.strip().lower()], the key under which labels are compared. *)
Definition norm_key (s : string) : string := lower (strip s).

(** ** Characters: the facts the string lemmas rest on *)

Ltac by_cases_on_char c :=
  destruct c as [[] [] [] [] [] [] [] []]; vm_compute; done.

Lemma lower_char_idemp c : lower_char (lower_char c) = lower_char c.
Proof. by_cases_on_char c. Qed.

Lemma isspace_lower_char c : isspace (lower_char c) = isspace c.
Proof. by_cases_on_char c. Qed.

Lemma isupper_lower_char c : isupper (lower_char c) = false.
Proof. by_cases_on_char c. Qed.

Lemma isspace_not_upper c : isspace c = true → isupper c = false.
Proof. by_cases_on_char c. Qed.

(** ** Stripping by an arbitrary predicate *)

Section strip_by_facts.
Context (p : ascii → bool).
Implicit Types s t : string.

Lemma rstrip_by_cons c s :
  rstrip_by p (String c s) =
    if decide (rstrip_by p s = EmptyString)
    then (if p c then EmptyString else String c EmptyString)
    else String c (rstrip_by p s).
Proof. simpl. by destruct (rstrip_by p s). Qed.

Lemma lstrip_by_first s c :
  first_char (lstrip_by p s) = Some c → p c = false.
Proof.
  induction s as [|a s IH]; simpl; [done|].
  destruct (p a) eqn:?; naive_solver.
Qed.

Lemma lstrip_by_idemp s : lstrip_by p (lstrip_by p s) = lstrip_by p s.
Proof.
  induction s as [|a s IH]; simpl; [done|].
  destruct (p a) eqn:Ha; [done|]. simpl. by rewrite Ha.
Qed.

Lemma lstrip_by_fixed s :
  (∀ c, first_char s = Some c → p c = false) → lstrip_by p s = s.
Proof. destruct s as [|a s]; simpl; [done|]. intros ->; done. Qed.

Lemma rstrip_by_last s c :
  last_char (rstrip_by p s) = Some c → p c = false.
Proof.
  induction s as [|a s IH]; [done|].
  rewrite rstrip_by_cons. case_decide as Hr.
  - destruct (p a) eqn:?; naive_solver.
  - destruct (rstrip_by p s) eqn:?; naive_solver.
Qed.

Lemma rstrip_by_fixed s :
  (∀ c, last_char s = Some c → p c = false) → rstrip_by p s = s.
Proof.
  induction s as [|a s IH]; [done|]. intros Hl.
  rewrite rstrip_by_cons. destruct s as [|b s].
  - simpl. by rewrite (Hl a).
  - rewrite IH by done. by rewrite decide_False.
Qed.

Lemma rstrip_by_idemp s : rstrip_by p (rstrip_by p s) = rstrip_by p s.
Proof. apply rstrip_by_fixed, rstrip_by_last. Qed.

Lemma rstrip_by_first s c :
  first_char (rstrip_by p s) = Some c → first_char s = Some c.
Proof.
  destruct s as [|a s]; [done|]. rewrite rstrip_by_cons.
  case_decide; [destruct (p a)|]; naive_solver.
Qed.

Lemma rstrip_by_nil_iff s : rstrip_by p s = EmptyString ↔ all_chars p s = true.
Proof.
  induction s as [|a s IH]; [done|]. rewrite rstrip_by_cons. simpl.
  case_decide as Hr; destruct (p a); naive_solver.
Qed.

Lemma lstrip_by_nil_iff s : lstrip_by p s = EmptyString ↔ all_chars p s = true.
Proof. induction s as [|a s IH]; simpl; [done|]. destruct (p a); naive_solver. Qed.

Lemma strip_by_trimmed s : trimmed p (strip_by p s).
Proof.
  split; intros c Hc.
  - by eapply lstrip_by_first, rstrip_by_first.
  - by eapply rstrip_by_last.
Qed.

Lemma strip_by_fixed s : trimmed p s → strip_by p s = s.
Proof.
  intros [Hf Hl]. unfold strip_by.
  by rewrite (lstrip_by_fixed s Hf), rstrip_by_fixed.
Qed.

Lemma strip_by_idemp s : strip_by p (strip_by p s) = strip_by p s.
Proof. apply strip_by_fixed, strip_by_trimmed. Qed.

Lemma lstrip_by_app_blank l s :
  all_chars p l = true → lstrip_by p (l +:+ s) = lstrip_by p s.
Proof.
  induction l as [|a l IH]; [done|]. simpl. intros [Ha Hl]%andb_prop.
  change (String a l +:+ s) with (String a (l +:+ s)). simpl.
  by rewrite Ha, IH.
Qed.

Lemma rstrip_by_app_blank s r :
  all_chars p r = true → rstrip_by p (s +:+ r) = rstrip_by p s.
Proof.
  intros Hr. induction s as [|a s IH].
  - by apply rstrip_by_nil_iff.
  - change (String a s +:+ r) with (String a (s +:+ r)).
    by rewrite !rstrip_by_cons, IH.
Qed.

Lemma lstrip_by_decompose s :
  ∃ l, s = l +:+ lstrip_by p s ∧ all_chars p l = true.
Proof.
  induction s as [|a s (l & Hs & Hl)]; [by exists EmptyString|]. simpl.
  destruct (p a) eqn:Ha; [|by exists EmptyString].
  exists (String a l). simpl. rewrite Ha. split; [|done].
  by change (String a l +:+ lstrip_by p s) with (String a (l +:+ lstrip_by p s)); f_equal.
Qed.

Lemma rstrip_by_decompose s :
  ∃ r, s = rstrip_by p s +:+ r ∧ all_chars p r = true.
Proof.
  induction s as [|a s (r & Hs & Hr)]; [by exists EmptyString|].
  rewrite rstrip_by_cons. case_decide as He.
  - rewrite He in Hs. change (EmptyString +:+ r) with r in Hs. subst r.
    destruct (p a) eqn:Ha.
    + exists (String a s). simpl. by rewrite Ha.
    + by exists s.
  - exists r. split; [|done].
    by change (String a (rstrip_by p s) +:+ r)
      with (String a (rstrip_by p s +:+ r)); f_equal.
Qed.

End strip_by_facts.

(** ** [strip] and [lower] *)

Lemma lower_idemp s : lower (lower s) = lower s.
Proof. induction s; simpl; [done|]. by rewrite lower_char_idemp; f_equal. Qed.

Lemma lower_lstrip s : lower (lstrip_by isspace s) = lstrip_by isspace (lower s).
Proof.
  induction s as [|a s IH]; simpl; [done|].
  rewrite isspace_lower_char. by destruct (isspace a).
Qed.

Lemma lower_nil_iff s : lower s = EmptyString ↔ s = EmptyString.
Proof. by destruct s. Qed.

Lemma lower_rstrip s : lower (rstrip_by isspace s) = rstrip_by isspace (lower s).
Proof.
  induction s as [|a s IH]; [done|].
  cbn [lower]. rewrite !rstrip_by_cons, <-IH, isspace_lower_char.
  destruct (decide (rstrip_by isspace s = EmptyString)) as [->|Hne].
  - by destruct (isspace a).
  - by rewrite decide_False by (by rewrite lower_nil_iff).
Qed.

Lemma lower_strip s : lower (strip s) = strip (lower s).
Proof. unfold strip, strip_by. by rewrite lower_rstrip, lower_lstrip. Qed.


(** ** Labels that compare equal *)

(** Two labels have the same key: they are equal up to case and to the white
    space around them. *)
Definition same_key : relation string := λ s t, norm_key s = norm_key t.

#[export] Instance same_key_equiv : Equivalence same_key.
Proof.
  unfold same_key. split; [by intros ?|by intros ??|by intros ??? -> ->].
Qed.

#[export] Instance same_key_dec : RelDecision same_key.
Proof. intros s t. unfold same_key. apply _. Defined.

#[export] Instance norm_key_proper : Proper (same_key ==> (=)) norm_key.
Proof. by intros s t. Qed.

Lemma same_key_strip s : same_key (strip s) s.
Proof. unfold same_key, norm_key, strip. by rewrite strip_by_idemp. Qed.

Lemma same_key_lower s : same_key (lower s) s.
Proof. unfold same_key, norm_key. by rewrite <-lower_strip, lower_idemp. Qed.

Lemma same_key_norm_key s : same_key (norm_key s) s.
Proof. unfold norm_key. by rewrite same_key_lower, same_key_strip. Qed.

(** ** The contract of [strip] and of the normalised key *)

(** C38. [strip] cuts a string into a blank prefix, the result, and a blank
    suffix, and the result starts and ends with a character that is no
    white space. *)
Theorem strip_decompose s :
  ∃ l r, s = l +:+ strip s +:+ r ∧
    blank l = true ∧ blank r = true ∧ trimmed isspace (strip s).
Proof.
  destruct (lstrip_by_decompose isspace s) as (l & Hs & Hl).
  destruct (rstrip_by_decompose isspace (lstrip_by isspace s)) as (r & Hm & Hr).
  exists l, r. split_and!; [|done..|apply strip_by_trimmed].
  by rewrite Hs at 1; rewrite Hm at 1.
Qed.

(** The decomposition determines the result: whenever [s] is a trimmed
    string [m] between two blank strings, [strip s] is [m]. *)
Theorem strip_unique s l m r :
  s = l +:+ m +:+ r → blank l = true → blank r = true →
  trimmed isspace m → strip s = m.
Proof.
  intros -> Hl Hr [Hf Hlast]. unfold strip, strip_by.
  rewrite lstrip_by_app_blank by done. destruct m as [|c m].
  - change (EmptyString +:+ r) with r.
    by rewrite (proj2 (lstrip_by_nil_iff isspace r) Hr).
  - change (String c m +:+ r) with (String c (m +:+ r)). simpl.
    rewrite (Hf c) by done.
    change (String c (m +:+ r)) with (String c m +:+ r).
    rewrite rstrip_by_app_blank by done. by apply rstrip_by_fixed.
Qed.

Lemma strip_unique_witness : strip "  Lung Cancer   " = "Lung Cancer".
Proof.
  apply (strip_unique _ "  " "Lung Cancer" "   "); [done..|].
  split; intros c [= <-]; done.
Defined.

(** The normalised key is a fixed point: normalising a key again
    changes nothing, so comparing keys compares normal forms. *)
Theorem norm_key_idemp s : norm_key (norm_key s) = norm_key s.
Proof. apply same_key_norm_key. Qed.
