(* ===== verification/PyDict.v ===== *)
(** * Python dictionaries, in insertion order

    A Python [dict] keeps its keys in the order of their first insertion,
    and the engine depends on that order in three places:
    [list(dict.fromkeys(corpus))] (line 59, the corpus without its
    repetitions), [dict(zip(codes, names))] (lines 164-166, the abbreviation
    table, where a later row overwrites an earlier one) and the
    comprehension that re-keys the curation map (lines 285-288), where two
    keys that expand to the same string collide and the later one wins.

    A dictionary is an association list without repeated keys.  [dict_set]
    is item assignment: a present key keeps its position and takes the new
    value, an absent key is appended.  [dict_of_items] builds a dictionary
    from a sequence of pairs as [dict(...)] and a comprehension do.

    The operations are defined on every association list.  On a list that
    repeats a key they are not operations of Python: [dict_get] finds the
    first entry of the key, and [dict_rekey] iterates over every entry.
    Every dictionary the engine builds satisfies [dict_wf]; the curation
    map is an argument of the constructor, and stands for a Python
    dictionary when it repeats no key.

    The theorems: the invariant (no repeated key) holds of every dictionary
    built by these operations; lookup after assignment; the dictionary
    refines the finite map [gmap] through [dict_to_map]; and
    [dedup_keep_first], the code's way of dropping repetitions, agrees with
    the reference definition [first_occurrences]. *)

From stdpp Require Import gmap.
From S2P Require Import Prelude.

Abbreviation pydict K V := (list (K * V)).

Section pydict.
Context {K V : Type} `{EqDecision K}.
Implicit Types (k : K) (v : V) (d : pydict K V) (l : list (K * V)).

(** [d.get(k)], and [d[k]] when the key is present. *)
Fixpoint dict_get k d : option V :=
  match d with
  | [] => None
  | (k', v) :: d' => if decide (k = k') then Some v else dict_get k d'
  end.

(** [k in d]. *)
Definition dict_contains k d : bool := bool_decide (is_Some (dict_get k d)).

(** [d.get(k, default)]. *)
Definition dict_get_default k (dflt : V) d : V :=
  default dflt (dict_get k d).

(** [d[k] = v]. *)
Fixpoint dict_set k v d : pydict K V :=
  match d with
  | [] => [(k, v)]
  | (k', v') :: d' =>
      if decide (k = k') then (k', v) :: d' else (k', v') :: dict_set k v d'
  end.

(** [dict(pairs)] and [{k: v for ...}]: the pairs are assigned in order. *)
Definition dict_of_items l : pydict K V :=
  foldl (λ d kv, dict_set kv.1 kv.2 d) [] l.

Definition dict_keys d : list K := d.*1.

(** The invariant of a dictionary: no key occurs twice. *)
Definition dict_wf d : Prop := NoDup (dict_keys d).

End pydict.

(** [{m[k]: v for k, v in d.items() if k in m}]: the entries of [d] whose
    key [m] knows, under the key [m] gives, assigned in the order of [d]. *)
Definition dict_rekey {K K' V} `{EqDecision K, EqDecision K'}
    (m : pydict K K') (d : pydict K V) : pydict K' V :=
  dict_of_items (omap (λ kv, k' ← dict_get kv.1 m; Some (k', kv.2)) d).

(** [d[k]] as an expression: a missing key raises [KeyError].  The keys of
    the engine's dictionaries are strings. *)
Definition dict_getitem {V} (k : string) (d : pydict string V) : res V :=
  match dict_get k d with
  | Some v => Ok v
  | None => Err (KeyError k)
  end.

(** [list(dict.fromkeys(l))]: the elements of [l] in the order of their
    first occurrence ([dict.fromkeys] assigns [None] to every key). *)
Definition dedup_keep_first `{EqDecision A} (l : list A) : list A :=
  dict_keys (dict_of_items ((λ x, (x, ())) <$> l)).

(** The reference definition: keep an element and drop its later copies. *)
Fixpoint first_occurrences `{EqDecision A} (l : list A) : list A :=
  match l with
  | [] => []
  | x :: l' => x :: filter (λ y, y ≠ x) (first_occurrences l')
  end.

(** ** Lookup and assignment *)

Section pydict_facts.
Context {K V : Type} `{EqDecision K}.
Implicit Types (k : K) (v : V) (d : pydict K V) (l : list (K * V)).

Lemma dict_get_set_eq k v d : dict_get k (dict_set k v d) = Some v.
Proof.
  induction d as [|[k' v'] d IH]; simpl; [by rewrite decide_True|].
  case_decide; simpl; [subst; by rewrite decide_True|by rewrite decide_False].
Qed.

Lemma dict_get_set_ne k k' v d :
  k ≠ k' → dict_get k' (dict_set k v d) = dict_get k' d.
Proof.
  intros Hne. induction d as [|[k0 v0] d IH]; simpl.
  - by rewrite decide_False.
  - repeat (case_decide; simplify_eq/=); congruence.
Qed.

Lemma dict_get_set k k' v d :
  dict_get k' (dict_set k v d) = if decide (k = k') then Some v else dict_get k' d.
Proof.
  case_decide; [subst; apply dict_get_set_eq|by apply dict_get_set_ne].
Qed.

Lemma dict_get_None k d : dict_get k d = None ↔ k ∉ dict_keys d.
Proof.
  unfold dict_keys. induction d as [|[k' v'] d IH]; simpl.
  - split; [intros _; apply not_elem_of_nil|done].
  - rewrite not_elem_of_cons. case_decide; naive_solver.
Qed.

Lemma dict_get_is_Some k d : is_Some (dict_get k d) ↔ k ∈ dict_keys d.
Proof.
  rewrite <-not_eq_None_Some, dict_get_None.
  destruct (decide (k ∈ dict_keys d)); naive_solver.
Qed.

Lemma dict_contains_spec k d : dict_contains k d = true ↔ k ∈ dict_keys d.
Proof. unfold dict_contains. by rewrite bool_decide_eq_true, dict_get_is_Some. Qed.

Lemma dict_get_elem_of k v d : dict_get k d = Some v → (k, v) ∈ d.
Proof.
  induction d as [|[k' v'] d IH]; simpl; [done|].
  case_decide; intros; simplify_eq; [left|right; auto].
Qed.

Lemma dict_get_wf k v d : dict_wf d → (k, v) ∈ d → dict_get k d = Some v.
Proof.
  unfold dict_wf, dict_keys. induction d as [|[k' v'] d IH]; simpl.
  - by intros _ ?%elem_of_nil.
  - intros [Hk Hd]%NoDup_cons [?|Hin]%elem_of_cons; simplify_eq.
    + by rewrite decide_True.
    + rewrite decide_False; [by apply IH|].
      intros ->. apply Hk, list_elem_of_fmap. by exists (k', v).
Qed.

Lemma dict_keys_set k v d :
  dict_keys (dict_set k v d) =
    if decide (k ∈ dict_keys d) then dict_keys d else dict_keys d ++ [k].
Proof.
  unfold dict_keys. induction d as [|[k' v'] d IH]; csimpl; [done|].
  destruct (decide (k = k')) as [->|Hne]; csimpl.
  - by rewrite decide_True by left.
  - rewrite IH. destruct (decide (k ∈ d.*1)).
    + by rewrite decide_True by (by right).
    + by rewrite decide_False by (rewrite elem_of_cons; naive_solver).
Qed.

Lemma dict_set_wf k v d : dict_wf d → dict_wf (dict_set k v d).
Proof.
  unfold dict_wf. rewrite dict_keys_set. case_decide; [done|].
  intros. apply NoDup_app. split_and!; [done| |apply NoDup_singleton].
  by intros x ? ->%list_elem_of_singleton.
Qed.

Lemma dict_set_length k v d :
  length (dict_set k v d) = if decide (k ∈ dict_keys d) then length d else S (length d).
Proof.
  rewrite <-!(length_fmap fst). fold (dict_keys d) (dict_keys (dict_set k v d)).
  rewrite dict_keys_set. case_decide; [done|]. rewrite length_app. simpl. lia.
Qed.

(** ** Dictionaries built from a sequence of pairs *)

Lemma dict_of_items_snoc l k v :
  dict_of_items (l ++ [(k, v)]) = dict_set k v (dict_of_items l).
Proof. unfold dict_of_items. by rewrite foldl_app. Qed.

Lemma dict_of_items_wf l : dict_wf (dict_of_items l).
Proof.
  induction l as [|[k v] l IH] using rev_ind; [apply NoDup_nil_2|].
  rewrite dict_of_items_snoc. by apply dict_set_wf.
Qed.

(** In [dict(pairs)] the last pair of a key gives its value. *)
Lemma dict_get_of_items k l :
  dict_get k (dict_of_items l) = dict_get k (reverse l).
Proof.
  induction l as [|[k' v] l IH] using rev_ind; [done|].
  rewrite dict_of_items_snoc, reverse_snoc, dict_get_set. simpl.
  by repeat case_decide; simplify_eq.
Qed.

(** The value of a key in [dict(pairs)] is that of the last pair with the
    key. *)
Lemma dict_get_of_items_last k l :
  dict_get k (dict_of_items l) = last (filter (λ kv, kv.1 = k) l).*2.
Proof.
  rewrite dict_get_of_items.
  induction l as [|[k' v] l IH] using rev_ind; [done|].
  rewrite reverse_snoc, filter_app, fmap_app, filter_cons, filter_nil. simpl.
  destruct (decide (k = k')) as [->|Hne].
  - rewrite decide_True by done. simpl. by rewrite last_snoc.
  - rewrite decide_False by (by intros ->). simpl. by rewrite app_nil_r.
Qed.

Lemma dict_keys_of_items_elem_of k l :
  k ∈ dict_keys (dict_of_items l) ↔ k ∈ l.*1.
Proof.
  rewrite <-!dict_get_is_Some, dict_get_of_items, !dict_get_is_Some.
  unfold dict_keys. by rewrite fmap_reverse, elem_of_reverse.
Qed.

End pydict_facts.

(** A key of the re-keyed dictionary has the value of the last entry of
    [d] whose key [m] sends to it. *)
Lemma dict_get_rekey {K K' V} `{EqDecision K, EqDecision K'}
    (m : pydict K K') (d : pydict K V) (k' : K') :
  dict_get k' (dict_rekey m d) =
    last (filter (λ kv, dict_get kv.1 m = Some k') d).*2.
Proof.
  unfold dict_rekey. rewrite dict_get_of_items_last. f_equal.
  induction d as [|[k v] d IH]; [done|].
  rewrite filter_cons. csimpl.
  destruct (dict_get k m) as [k0|] eqn:Hk; csimpl; [|done].
  rewrite filter_cons. simpl. destruct (decide (k0 = k')) as [->|Hne].
  - rewrite decide_True by done. csimpl. by rewrite IH.
  - by rewrite decide_False by congruence.
Qed.

#[export] Hint Resolve dict_of_items_wf dict_set_wf : onto.
#[export] Hint Rewrite @dict_get_set_eq @dict_keys_set : onto.

(** ** Dropping repetitions *)

Section first_occurrences.
Context `{EqDecision A}.
Implicit Types (x : A) (l : list A).

Lemma first_occurrences_elem_of x l : x ∈ first_occurrences l ↔ x ∈ l.
Proof.
  induction l as [|y l IH]; simpl; [done|].
  rewrite !elem_of_cons, list_elem_of_filter, IH.
  destruct (decide (x = y)); naive_solver.
Qed.

Lemma first_occurrences_NoDup l : NoDup (first_occurrences l).
Proof.
  induction l as [|y l IH]; simpl; [apply NoDup_nil_2|].
  apply NoDup_cons. split; [|by apply NoDup_filter].
  rewrite list_elem_of_filter. naive_solver.
Qed.

Lemma first_occurrences_filter (P : A → Prop) `{∀ x, Decision (P x)} l :
  first_occurrences (filter P l) = filter P (first_occurrences l).
Proof.
  induction l as [|y l IH]; simpl; [done|].
  rewrite !filter_cons. case_decide; simpl.
  - rewrite IH, !list_filter_filter.
    f_equal. apply list_filter_iff. naive_solver.
  - rewrite IH, list_filter_filter. apply list_filter_iff. naive_solver.
Qed.

Lemma first_occurrences_id l : NoDup l → first_occurrences l = l.
Proof.
  induction 1 as [|y l Hy ? IH]; simpl; [done|].
  rewrite IH. f_equal. apply filter_all, Forall_forall. naive_solver.
Qed.

Lemma first_occurrences_idemp l :
  first_occurrences (first_occurrences l) = first_occurrences l.
Proof. apply first_occurrences_id, first_occurrences_NoDup. Qed.

(** The keys of a dictionary after a run of assignments: the keys it had,
    then the new keys in the order of their first assignment. *)
Lemma dict_keys_foldl_set {V} (d : pydict A V) (l : list (A * V)) :
  dict_keys (foldl (λ d kv, dict_set kv.1 kv.2 d) d l) =
    dict_keys d ++ first_occurrences (filter (λ x, x ∉ dict_keys d) l.*1).
Proof.
  revert d. induction l as [|[k v] l IH]; intros d; csimpl.
  - by rewrite app_nil_r.
  - rewrite IH, dict_keys_set, filter_cons. case_decide as Hk.
    + by rewrite decide_False by naive_solver.
    + rewrite decide_True by done. simpl.
      rewrite <-first_occurrences_filter, list_filter_filter, <-app_assoc.
      do 3 f_equal. apply list_filter_iff. intros x.
      rewrite not_elem_of_app, list_elem_of_singleton. naive_solver.
Qed.

End first_occurrences.

(** ** The dictionary as a finite map *)

Section dict_to_map.
Context `{Countable K} {V : Type}.
Implicit Types (k : K) (v : V) (d : pydict K V).

(** The abstraction function: the finite map a dictionary stands for. *)
Definition dict_to_map d : gmap K V := list_to_map d.

Lemma dict_to_map_lookup d k : dict_to_map d !! k = dict_get k d.
Proof.
  unfold dict_to_map. induction d as [|[k' v'] d IH]; simpl; [done|].
  rewrite lookup_insert. by repeat case_decide; simplify_eq.
Qed.

(** Item assignment refines insertion into the finite map. *)
Theorem dict_to_map_set k v d :
  dict_to_map (dict_set k v d) = <[k:=v]> (dict_to_map d).
Proof.
  apply map_eq. intros k'.
  by rewrite lookup_insert, !dict_to_map_lookup, dict_get_set.
Qed.

(** C36. [dict(pairs)] is a dictionary (no key twice) that stands for the
    finite map in which the last pair of every key wins. *)
Theorem dict_of_items_refines (l : list (K * V)) :
  dict_wf (dict_of_items l) ∧
  dict_to_map (dict_of_items l) = list_to_map (reverse l).
Proof.
  split; [apply dict_of_items_wf|]. apply map_eq. intros k.
  rewrite dict_to_map_lookup, dict_get_of_items.
  symmetry. apply (dict_to_map_lookup (reverse l)).
Qed.

End dict_to_map.

(** [list(dict.fromkeys(l))] is the list of first occurrences of [l]. *)
Lemma dedup_keep_first_eq `{EqDecision A} (l : list A) :
  dedup_keep_first l = first_occurrences l.
Proof.
  unfold dedup_keep_first, dict_of_items. rewrite dict_keys_foldl_set. simpl.
  rewrite filter_all by (apply Forall_forall; intros; apply not_elem_of_nil).
  by rewrite <-list_fmap_compose, list_fmap_id.
Qed.

Lemma dedup_keep_first_NoDup `{EqDecision A} (l : list A) :
  NoDup (dedup_keep_first l).
Proof. rewrite dedup_keep_first_eq. apply first_occurrences_NoDup. Qed.

Lemma elem_of_dedup_keep_first `{EqDecision A} (l : list A) x :
  x ∈ dedup_keep_first l ↔ x ∈ l.
Proof. rewrite dedup_keep_first_eq. apply first_occurrences_elem_of. Qed.

Lemma dedup_keep_first_id `{EqDecision A} (l : list A) :
  NoDup l → dedup_keep_first l = l.
Proof. rewrite dedup_keep_first_eq. apply first_occurrences_id. Qed.

(** C37. Dropping repetitions through a dictionary, as the constructor does
    with the corpus, keeps exactly the elements of the list, each once, in
    the order of their first occurrences; a second pass changes nothing. *)
Theorem dedup_keep_first_sound `{EqDecision A} (l : list A) :
  NoDup (dedup_keep_first l) ∧
  (∀ x, x ∈ dedup_keep_first l ↔ x ∈ l) ∧
  dedup_keep_first l `sublist_of` l ∧
  dedup_keep_first (dedup_keep_first l) = dedup_keep_first l.
Proof.
  split_and!; [apply dedup_keep_first_NoDup|apply elem_of_dedup_keep_first| |
               apply dedup_keep_first_id, dedup_keep_first_NoDup].
  rewrite dedup_keep_first_eq. induction l as [|x l IH]; [done|]. simpl.
  constructor. etrans; [apply sublist_filter|done].
Qed.

Lemma dedup_keep_first_example :
  dedup_keep_first ["Lung Cancer"; "Breast Cancer"; "Lung Cancer"; "Glioma"]
  = ["Lung Cancer"; "Breast Cancer"; "Glioma"].
Proof. reflexivity. Qed.
