(* ===== verification/Frame.v ===== *)
(** * Tables: the part of pandas the engine uses

    Every intermediate result of [OntoMapEngine.run] is a pandas DataFrame,
    and the cascade is written as operations on columns.  This file models
    those operations; [Normalizer.v], [ExactMatch.v] and [Cascade.v] compose
    them as the source does.

    - A cell is [option value]: [None] is pandas' null (NaN or None), a
      value is a string or a number.  Numbers are rationals ([Qc]): an
      integer and the float of the same value are one number, as they are
      for pandas' comparisons; infinities are outside the model.
    - A row is a finite map from column names to values; a column a row
      does not bind is null in that row.
    - A [DataFrame] is the list of its column names and the list of its
      rows.  Its invariant [wf_frame]: no column name twice, and a row
      binds only columns of the table.

    The operations, with the pandas call each models:
    [frame_of_column] ([pd.DataFrame({c: values})]), [frame_of_pairs]
    ([pd.DataFrame] of two columns of equal length), [assign_with]
    ([df[c] = <expression of the row>]), [series_map] and [fillna]
    ([Series.map(dict)], [Series.fillna]), [rename_column]
    ([df.rename(columns={old: new})]), [merge_left]
    ([pd.merge(left, right, on=key, how="left")]), [concat_frames]
    ([pd.concat(frames, ignore_index=True)]), [filter_rows] (boolean
    indexing), [isin], [to_numeric] ([pd.to_numeric(errors="coerce")]),
    [dropna], [drop_duplicates] and [astype_str].

    What pandas computes from the text of a number is a parameter: the
    class [PandasNumeric] gives the parser behind [pd.to_numeric] and the
    printer behind [astype(str)], and the theorems hold for every
    instance.

    Where the model is wider than pandas.  A table has no column types,
    and a row holds one cell for each label, so three errors of pandas are
    absent:

    - [merge_left]: pandas refuses to join a key column of strings with a
      key column of a numeric type (a [ValueError]); the model compares the
      cells, finds no equal pair and returns the left rows with nulls.  The
      key of [replace_df] holds strings, so a matcher whose
      [original_value] column has a numeric type makes line 300 raise,
      where the model's run succeeds.  The theorems that promise success
      ([run_degradation], [run_succeeds] in [Correct.v]) are to be read for
      matchers that key their table by strings.
    - [concat_frames] is total; pandas raises when it has to align a table
      in which a column label occurs twice.
    - [low_confidence] reads the one cell a row has under [top1_score];
      with that label twice among the columns the code raises at line 340.

    The last two need a table that is not well formed ([wf_frame]), which
    [run_assembles] excludes for matchers that return well-formed tables.
    A join of tables that share a column besides the key (pandas adds
    suffixes) is not modelled either; [run] never produces one.

    The model has one null.  [astype_str] prints it as "nan", which is
    what pandas prints for NaN; a Python [None] in a column of objects
    would print as "None".  The engine prints a null in two places: an
    [obo_id] that is null (line 127), where either text has no code and the
    extracted code is null again, and a [clean_code] that is null in a
    table normalised without the need of a code (line 140), where the model
    follows NaN. *)

From stdpp Require Import gmap.
From Stdlib Require Import QArith Qcanon.
From S2P Require Import Prelude PyDict.

(** ** Cells, rows and tables *)

Inductive value : Type :=
  | VStr (s : string)
  | VNum (q : Qc).

#[export] Instance value_eq_dec : EqDecision value.
Proof. solve_decision. Defined.

Abbreviation cell := (option value).
Abbreviation row := (gmap string value).

Record DataFrame : Type := mkDataFrame {
  df_columns : list string;
  df_rows : list row;
}.

#[export] Instance DataFrame_eq_dec : EqDecision DataFrame.
Proof. solve_decision. Defined.

(** What the text of a number means to pandas, and how a number prints. *)
Class PandasNumeric : Type := {
  str_to_num : string → option Qc;
  num_to_str : Qc → string;
}.

(** The string in a cell, when the cell holds one. *)
Definition cell_str (c : cell) : option string :=
  match c with
  | Some (VStr s) => Some s
  | _ => None
  end.

(** [row[c] = v]: a null is stored as the absence of the column. *)
Definition set_cell (c : string) (v : cell) (r : row) : row :=
  partial_alter (λ _, v) c r.

(** [df[c]], the Series of a column. *)
Definition column_values (c : string) (df : DataFrame) : list cell :=
  (λ r : row, r !! c) <$> df_rows df.

(** [c in df.columns]. *)
Definition has_column (c : string) (df : DataFrame) : bool :=
  bool_decide (c ∈ df_columns df).

(** The invariant of a table. *)
Definition wf_frame (df : DataFrame) : Prop :=
  NoDup (df_columns df) ∧
  Forall (λ r : row, ∀ c, is_Some (r !! c) → c ∈ df_columns df) (df_rows df).

(** ** Construction *)

(** [pd.DataFrame({c: values})]. *)
Definition frame_of_column (c : string) (values : list cell) : DataFrame :=
  mkDataFrame [c] ((λ v, set_cell c v ∅) <$> values).

(** [pd.DataFrame({c1: xs, c2: ys})] for two lists of strings given as the
    list of their pairs. *)
Definition frame_of_pairs (c1 c2 : string) (l : list (string * string)) :
    DataFrame :=
  mkDataFrame [c1; c2]
    ((λ p, set_cell c2 (Some (VStr p.2)) (set_cell c1 (Some (VStr p.1)) ∅)) <$> l).

(** ** Column assignment *)

(** [df[c] = e], where [e] is computed row by row; a new column goes last. *)
Definition assign_with (c : string) (e : row → cell) (df : DataFrame) :
    DataFrame :=
  mkDataFrame
    (if decide (c ∈ df_columns df) then df_columns df else df_columns df ++ [c])
    ((λ r, set_cell c (e r) r) <$> df_rows df).

(** [df[c] = v] for a scalar. *)
Definition assign_const (c : string) (v : value) : DataFrame → DataFrame :=
  assign_with c (λ _, Some v).

(** [Series.map(d)] on one cell: the dictionary's value, null for a key the
    dictionary lacks and for a cell that is no string. *)
Definition series_map (d : pydict string cell) (c : cell) : cell :=
  s ← cell_str c; v ← dict_get s d; v.

(** [Series.fillna(v)] on one cell. *)
Definition fillna (v : cell) (c : cell) : cell :=
  match c with
  | Some x => Some x
  | None => v
  end.

(** ** Renaming, joining, concatenating, filtering *)

Definition rename_key (old new : string) (r : row) : row :=
  set_cell new (r !! old) (delete old r).

(** [df.rename(columns={old: new})]: nothing happens when there is no
    column [old]. *)
Definition rename_column (old new : string) (df : DataFrame) : DataFrame :=
  if decide (old ∈ df_columns df)
  then mkDataFrame
         ((λ c, if decide (c = old) then new else c) <$> df_columns df)
         (rename_key old new <$> df_rows df)
  else df.

(** The rows of [right] that join with the row [l] on the column [on]:
    equal cells, and as in pandas a null joins with a null. *)
Definition join_matches (on : string) (right : DataFrame) (l : row) : list row :=
  filter (λ r : row, r !! on = l !! on) (df_rows right).

(** One row of the left table in the result of a left join: itself when
    nothing joins with it, else one row for each row that does. *)
Definition join_row (on : string) (right : DataFrame) (l : row) : list row :=
  match join_matches on right l with
  | [] => [l]
  | ms => (λ r, l ∪ r) <$> ms
  end.

(** How often a label occurs among the columns. *)
Definition label_count (c : string) (df : DataFrame) : nat :=
  length (filter (λ c', c' = c) (df_columns df)).

(** [pd.merge(left, right, on=key, how="left")] for tables that share no
    column but the key.  A table without the key column is a [KeyError], a
    table in which the key's label occurs twice a [ValueError].  The rows
    come in the order of [left]; the columns of [left] come first. *)
Definition merge_left (left right : DataFrame) (on : string) : res DataFrame :=
  if negb (has_column on left && has_column on right) then Err (KeyError on)
  else if decide (label_count on left = 1 ∧ label_count on right = 1)
  then Ok (mkDataFrame
         (df_columns left ++ filter (λ c, c ≠ on) (df_columns right))
         (df_rows left ≫= join_row on right))
  else Err (ValueError ("The column label '" +:+ on +:+ "' is not unique.")).

(** [pd.concat(frames, ignore_index=True)]: the columns in the order of
    their first appearance, the rows one table after the other. *)
Definition concat_frames (dfs : list DataFrame) : DataFrame :=
  mkDataFrame
    (first_occurrences (dfs ≫= df_columns))
    (dfs ≫= df_rows).

(** [df[mask]] for a mask computed row by row. *)
Definition filter_rows (keep : row → bool) (df : DataFrame) : DataFrame :=
  mkDataFrame (df_columns df) (filter (λ r, keep r = true) (df_rows df)).

(** [Series.isin(values)] on one cell, for a list of strings. *)
Definition isin (values : list string) (c : cell) : bool :=
  match cell_str c with
  | Some s => bool_decide (s ∈ values)
  | None => false
  end.

(** [pd.to_numeric(errors="coerce")] on one cell: a number is itself, a
    string is what the parser reads in it, anything else is null. *)
Definition to_numeric `{PandasNumeric} (c : cell) : option Qc :=
  match c with
  | Some (VNum q) => Some q
  | Some (VStr s) => str_to_num s
  | None => None
  end.

(** ** Cleaning *)

(** The cells of a row under the columns of [subset]. *)
Definition row_key (subset : list string) (r : row) : list cell :=
  (λ c, r !! c) <$> subset.

(** [df.dropna(subset=subset)]: the rows with no null under [subset]. *)
Definition dropna (subset : list string) (df : DataFrame) : DataFrame :=
  mkDataFrame (df_columns df)
    (filter (λ r, Forall is_Some (row_key subset r)) (df_rows df)).

(** The first element of every class of elements with the same image. *)
Fixpoint first_by {A} `{EqDecision B} (f : A → B) (l : list A) : list A :=
  match l with
  | [] => []
  | x :: l' => x :: filter (λ y, f y ≠ f x) (first_by f l')
  end.

(** [df.drop_duplicates(subset=subset)]: of the rows with the same cells
    under [subset], the first is kept. *)
Definition drop_duplicates (subset : list string) (df : DataFrame) : DataFrame :=
  mkDataFrame (df_columns df) (first_by (row_key subset) (df_rows df)).

(** [str(x)] for the content of a cell, as [astype(str)] applies it: a
    string is itself, a number is printed, a null becomes the text "nan". *)
Definition astype_str `{PandasNumeric} (c : cell) : string :=
  match c with
  | Some (VStr s) => s
  | Some (VNum q) => num_to_str q
  | None => "nan"
  end.

(** [Series.unique().tolist()] for a column of strings. *)
Definition unique_strings (l : list string) : list string := first_occurrences l.

(** ** Cells and rows *)

Lemma lookup_set_cell c c' v (r : row) :
  set_cell c v r !! c' = if decide (c = c') then v else r !! c'.
Proof. unfold set_cell. by rewrite lookup_partial_alter. Qed.

Lemma lookup_set_cell_eq c v (r : row) : set_cell c v r !! c = v.
Proof. by rewrite lookup_set_cell, decide_True. Qed.

Lemma lookup_set_cell_ne c c' v (r : row) :
  c ≠ c' → set_cell c v r !! c' = r !! c'.
Proof. intros. by rewrite lookup_set_cell, decide_False. Qed.

Lemma lookup_rename_key old new c (r : row) :
  rename_key old new r !! c =
    if decide (new = c) then r !! old
    else if decide (old = c) then None else r !! c.
Proof.
  unfold rename_key. rewrite lookup_set_cell. case_decide; [done|].
  by rewrite lookup_delete.
Qed.

(** The integer 1 and the float 1.00 are one number. *)
Lemma Qc_of_Z_one : Qc_of_Z 1 = 1%Qc.
Proof. by apply Qc_is_canon. Qed.

Lemma VNum_Qc_of_Z_inj n m : VNum (Qc_of_Z n) = VNum (Qc_of_Z m) → n = m.
Proof. unfold Qc_of_Z, inject_Z. by intros [= ?]. Qed.

Lemma fillna_is_Some v c : is_Some v → is_Some (fillna v c).
Proof. by destruct c. Qed.

Lemma fillna_Some x c : fillna (Some x) c = Some (default x c).
Proof. by destruct c. Qed.

Lemma series_map_str (d : pydict string cell) s :
  series_map d (Some (VStr s)) = mjoin (dict_get s d).
Proof. unfold series_map. simpl. by destruct (dict_get s d) as [[]|]. Qed.

Lemma cell_str_Some c s : cell_str c = Some s ↔ c = Some (VStr s).
Proof. destruct c as [[]|]; naive_solver. Qed.

Lemma isin_spec values c :
  isin values c = true ↔ ∃ s, c = Some (VStr s) ∧ s ∈ values.
Proof.
  unfold isin. destruct (cell_str c) as [s|] eqn:Hc.
  - apply cell_str_Some in Hc as ->. rewrite bool_decide_eq_true. naive_solver.
  - split; [done|]. intros (s & -> & _). done.
Qed.

#[export] Hint Rewrite lookup_set_cell_eq : onto.
#[export] Hint Rewrite lookup_set_cell_ne using done : onto.

(** ** The column of a table after each operation *)

Section column_values.
Implicit Types (c on : string) (df left right : DataFrame) (r l : row).

Lemma has_column_spec c df : has_column c df = true ↔ c ∈ df_columns df.
Proof. apply bool_decide_eq_true. Qed.

Lemma column_values_length c df : length (column_values c df) = length (df_rows df).
Proof. apply length_fmap. Qed.

Lemma column_values_frame_of_column c values :
  column_values c (frame_of_column c values) = values.
Proof.
  unfold column_values, frame_of_column. simpl.
  rewrite <-list_fmap_compose. rewrite <-(list_fmap_id values) at 2.
  apply list_fmap_ext. intros _ v _. simpl. by rewrite lookup_set_cell_eq.
Qed.

Lemma column_values_frame_of_pairs_1 c1 c2 pairs :
  c1 ≠ c2 →
  column_values c1 (frame_of_pairs c1 c2 pairs) = (λ p, Some (VStr p.1)) <$> pairs.
Proof.
  intros. unfold column_values, frame_of_pairs. simpl.
  rewrite <-list_fmap_compose. apply list_fmap_ext. intros _ p _. simpl.
  by rewrite lookup_set_cell_ne, lookup_set_cell_eq.
Qed.

Lemma column_values_frame_of_pairs_2 c1 c2 pairs :
  column_values c2 (frame_of_pairs c1 c2 pairs) = (λ p, Some (VStr p.2)) <$> pairs.
Proof.
  unfold column_values, frame_of_pairs. simpl.
  rewrite <-list_fmap_compose. apply list_fmap_ext. intros _ p _. simpl.
  by rewrite lookup_set_cell_eq.
Qed.

Lemma column_values_assign_ne c c' e df :
  c ≠ c' → column_values c' (assign_with c e df) = column_values c' df.
Proof.
  intros. unfold column_values, assign_with. simpl.
  rewrite <-list_fmap_compose. apply list_fmap_ext. intros _ r _. simpl.
  by rewrite lookup_set_cell_ne.
Qed.

Lemma column_values_assign_eq c e df :
  column_values c (assign_with c e df) = e <$> df_rows df.
Proof.
  unfold column_values, assign_with. simpl.
  rewrite <-list_fmap_compose. apply list_fmap_ext. intros _ r _. simpl.
  by rewrite lookup_set_cell_eq.
Qed.

Lemma column_values_concat c dfs :
  column_values c (concat_frames dfs) = dfs ≫= column_values c.
Proof.
  unfold column_values, concat_frames. simpl.
  induction dfs as [|df dfs IH]; [done|]. csimpl. by rewrite fmap_app, IH.
Qed.

Lemma column_values_filter_rows c keep df :
  column_values c (filter_rows keep df) =
    (λ r : row, r !! c) <$> filter (λ r, keep r = true) (df_rows df).
Proof. done. Qed.

Lemma df_columns_assign_with c e df :
  df_columns (assign_with c e df) =
    if decide (c ∈ df_columns df) then df_columns df else df_columns df ++ [c].
Proof. done. Qed.

Lemma has_column_assign_with c c' e df :
  has_column c' (assign_with c e df) = bool_decide (c' = c) || has_column c' df.
Proof.
  unfold has_column. rewrite df_columns_assign_with.
  apply eq_bool_prop_intro. rewrite orb_True, !bool_decide_spec.
  case_decide; [naive_solver|].
  rewrite elem_of_app, list_elem_of_singleton. naive_solver.
Qed.

Lemma df_rows_assign_with c e df :
  df_rows (assign_with c e df) = (λ r, set_cell c (e r) r) <$> df_rows df.
Proof. done. Qed.

Lemma label_count_NoDup c df :
  NoDup (df_columns df) → c ∈ df_columns df → label_count c df = 1.
Proof. apply length_filter_NoDup. Qed.

Lemma elem_of_columns_rename old new c df :
  c ∈ df_columns (rename_column old new df) ↔
    (c = new ∧ old ∈ df_columns df) ∨ (c ≠ old ∧ c ∈ df_columns df).
Proof.
  unfold rename_column. case_decide as Hold; simpl; [|naive_solver].
  rewrite list_elem_of_fmap. split.
  - intros (c0 & -> & ?). case_decide; naive_solver.
  - intros [[-> _]|[? ?]].
    + exists old. by rewrite decide_True.
    + exists c. by rewrite decide_False.
Qed.

Lemma NoDup_columns_rename old new df :
  NoDup (df_columns df) → new ∉ df_columns df →
  NoDup (df_columns (rename_column old new df)).
Proof.
  intros Hnd Hnew. unfold rename_column. case_decide; [|done]. simpl.
  apply NoDup_fmap_2_strong; [|done]. intros c1 c2 ??.
  repeat case_decide; naive_solver.
Qed.

Lemma df_rows_rename_column old new df :
  df_rows (rename_column old new df) =
    if decide (old ∈ df_columns df) then rename_key old new <$> df_rows df
    else df_rows df.
Proof. unfold rename_column. by case_decide. Qed.

Lemma elem_of_columns_concat c dfs :
  c ∈ df_columns (concat_frames dfs) ↔ ∃ df, df ∈ dfs ∧ c ∈ df_columns df.
Proof.
  unfold concat_frames. simpl.
  rewrite first_occurrences_elem_of, list_elem_of_bind. naive_solver.
Qed.

End column_values.

(** ** The invariant is preserved *)

Section wf_frame.
Implicit Types (c on : string) (df left right : DataFrame) (r l : row).

Lemma wf_frame_row df r c :
  wf_frame df → r ∈ df_rows df → is_Some (r !! c) → c ∈ df_columns df.
Proof. intros [_ Hrows] ?. rewrite Forall_forall in Hrows. by apply Hrows. Qed.

Lemma wf_frame_of_column c values : wf_frame (frame_of_column c values).
Proof.
  split; [apply NoDup_singleton|]. simpl.
  apply Forall_fmap, Forall_true. intros v c'. simpl.
  rewrite lookup_set_cell, list_elem_of_singleton.
  case_decide; [done|]. rewrite lookup_empty. by intros [??].
Qed.

Lemma wf_frame_of_pairs c1 c2 pairs :
  c1 ≠ c2 → wf_frame (frame_of_pairs c1 c2 pairs).
Proof.
  intros. split; simpl.
  - apply NoDup_cons. rewrite list_elem_of_singleton.
    split; [done|apply NoDup_singleton].
  - apply Forall_fmap, Forall_true. intros p c. simpl.
    rewrite !lookup_set_cell, lookup_empty, !elem_of_cons.
    repeat case_decide; naive_solver.
Qed.

Lemma wf_assign_with c e df : wf_frame df → wf_frame (assign_with c e df).
Proof.
  intros [Hnd Hrows]. split; simpl.
  - case_decide; [done|]. apply NoDup_app. split_and!; [done| |apply NoDup_singleton].
    by intros x ? ->%list_elem_of_singleton.
  - apply Forall_fmap. eapply Forall_impl; [done|]. intros r Hr c'. simpl.
    rewrite lookup_set_cell. destruct (decide (c = c')) as [<-|].
    + intros _. case_decide; [done|]. apply elem_of_app. right. by left.
    + intros ?%Hr. case_decide; [done|]. apply elem_of_app. by left.
Qed.

Lemma wf_filter_rows keep df : wf_frame df → wf_frame (filter_rows keep df).
Proof.
  intros Hwf. split; [apply Hwf|]. simpl.
  apply Forall_forall. intros r [_ Hr]%list_elem_of_filter c.
  by apply wf_frame_row.
Qed.

Lemma wf_concat_frames dfs : Forall wf_frame dfs → wf_frame (concat_frames dfs).
Proof.
  intros Hall. split; [apply first_occurrences_NoDup|].
  apply Forall_forall. intros r (df & Hr & Hdf)%list_elem_of_bind c Hc.
  apply elem_of_columns_concat. exists df. split; [done|].
  rewrite Forall_forall in Hall. eapply wf_frame_row; eauto.
Qed.

Lemma wf_rename_column old new df :
  wf_frame df → new ∉ df_columns df → wf_frame (rename_column old new df).
Proof.
  intros [Hnd Hrows] Hnew. split; [by apply NoDup_columns_rename|].
  unfold rename_column. case_decide as Hold; [|done]. simpl.
  - apply Forall_fmap. eapply Forall_impl; [done|]. intros r Hr c. simpl.
    rewrite lookup_rename_key, list_elem_of_fmap. intros Hc.
    destruct (decide (new = c)) as [<-|].
    + exists old. by rewrite decide_True.
    + destruct (decide (old = c)); [by destruct Hc|].
      exists c. rewrite decide_False by done. auto.
Qed.

(** A table that has the new label already is renamed into one with the
    label twice; where the label occurs once after the renaming, the
    renamed table is well formed. *)
Lemma wf_rename_column_once old new df :
  wf_frame df → old ≠ new → label_count new (rename_column old new df) = 1 →
  wf_frame (rename_column old new df).
Proof.
  intros Hwf Hne Hcount. destruct (decide (old ∈ df_columns df)) as [Hold|Hold].
  - apply wf_rename_column; [done|]. intros Hnew.
    unfold label_count, rename_column in Hcount.
    rewrite decide_True in Hcount by done. simpl in Hcount.
    rewrite filter_fmap, length_fmap in Hcount.
    pose proof (length_filter_two
      (λ c, (if decide (c = old) then new else c) = new)
      (df_columns df) old new Hne Hold Hnew) as Htwo.
    cbv beta in Htwo. rewrite decide_True, decide_False in Htwo by done.
    specialize (Htwo eq_refl eq_refl). lia.
  - unfold rename_column. by rewrite decide_False.
Qed.

Lemma wf_merge_left left right on df :
  wf_frame left → wf_frame right →
  merge_left left right on = Ok df →
  (∀ c, c ∈ df_columns left → c ∈ df_columns right → c = on) →
  wf_frame df.
Proof.
  intros Hwl Hwr Hm Hshare. unfold merge_left in Hm.
  repeat case_match; simplify_eq. split; simpl.
  - apply NoDup_app. split_and!; [apply Hwl| |apply NoDup_filter, Hwr].
    intros c ? [? ?]%list_elem_of_filter. naive_solver.
  - apply Forall_forall. intros r (l & Hin & Hl)%list_elem_of_bind c Hc.
    rewrite elem_of_app, list_elem_of_filter.
    unfold join_row in Hin. destruct (join_matches on right l) as [|m ms] eqn:Hms.
    { apply list_elem_of_singleton in Hin as ->. eauto using wf_frame_row. }
    apply list_elem_of_fmap in Hin as (r' & -> & Hr').
    assert (r' ∈ join_matches on right l) as [Hkey Hr'']%list_elem_of_filter
      by (by rewrite Hms).
    apply lookup_union_is_Some in Hc as [?|Hc]; [eauto using wf_frame_row|].
    destruct (decide (c = on)) as [->|]; [|eauto using wf_frame_row].
    left. apply (wf_frame_row _ l); [done..|]. by rewrite <-Hkey.
Qed.

End wf_frame.

(** ** Cleaning *)

Section first_by.
Context {A : Type} `{EqDecision B} (f : A → B).
Implicit Types l : list A.

(** [first_by] keeps the elements whose image occurs for the first time. *)
Lemma fmap_first_by l : f <$> first_by f l = first_occurrences (f <$> l).
Proof.
  induction l as [|x l IH]; [done|]. csimpl.
  by rewrite <-IH, filter_fmap.
Qed.

Lemma first_by_NoDup l : NoDup (f <$> first_by f l).
Proof. rewrite fmap_first_by. apply first_occurrences_NoDup. Qed.

Lemma first_by_id l : NoDup (f <$> l) → first_by f l = l.
Proof.
  induction l as [|x l IH]; [done|]. csimpl. intros [Hx Hnd]%NoDup_cons.
  rewrite IH by done. f_equal. apply filter_all, Forall_forall.
  intros y Hy Heq. apply Hx, list_elem_of_fmap. eauto.
Qed.

Lemma elem_of_first_by l x : x ∈ first_by f l → x ∈ l.
Proof.
  induction l as [|y l IH]; [done|]. simpl.
  intros [->|[_ ?]%list_elem_of_filter]%elem_of_cons; [left|right; auto].
Qed.

Lemma first_by_sublist l : first_by f l `sublist_of` l.
Proof.
  induction l as [|x l IH]; [done|]. simpl. constructor.
  etrans; [apply sublist_filter|done].
Qed.

Lemma first_by_covers l x : x ∈ l → ∃ y, y ∈ first_by f l ∧ f y = f x.
Proof.
  intros Hx. assert (f x ∈ f <$> first_by f l) as Hfx.
  { rewrite fmap_first_by, first_occurrences_elem_of, list_elem_of_fmap. eauto. }
  apply list_elem_of_fmap in Hfx as (y & ? & ?). eauto.
Qed.

End first_by.

Section cleaning.
Implicit Types (c : string) (df : DataFrame) (r : row) (subset : list string).

Lemma set_cell_id c (v : cell) r : r !! c = v → set_cell c v r = r.
Proof. intros <-. apply partial_alter_self. Qed.

Lemma assign_with_id c e df :
  c ∈ df_columns df → (∀ r, r ∈ df_rows df → r !! c = e r) →
  assign_with c e df = df.
Proof.
  intros Hc He. unfold assign_with. rewrite decide_True by done.
  destruct df as [cols rows]. simpl in *. f_equal.
  rewrite <-(list_fmap_id rows) at 2. apply list_fmap_ext.
  intros _ r Hr%list_elem_of_lookup_2. by apply set_cell_id, He.
Qed.

Lemma elem_of_dropna subset df r :
  r ∈ df_rows (dropna subset df) ↔
    r ∈ df_rows df ∧ ∀ c, c ∈ subset → is_Some (r !! c).
Proof.
  unfold dropna, row_key. simpl.
  rewrite list_elem_of_filter, Forall_fmap, Forall_forall. naive_solver.
Qed.

Lemma dropna_id subset df :
  (∀ r c, r ∈ df_rows df → c ∈ subset → is_Some (r !! c)) →
  dropna subset df = df.
Proof.
  intros Hall. unfold dropna. destruct df as [cols rows]. simpl in *. f_equal.
  apply filter_all, Forall_forall. intros r Hr.
  apply Forall_fmap, Forall_forall. intros c Hc. by apply Hall.
Qed.

Lemma elem_of_drop_duplicates subset df r :
  r ∈ df_rows (drop_duplicates subset df) → r ∈ df_rows df.
Proof. apply elem_of_first_by. Qed.

Lemma drop_duplicates_NoDup subset df :
  NoDup (row_key subset <$> df_rows (drop_duplicates subset df)).
Proof. apply first_by_NoDup. Qed.

Lemma drop_duplicates_id subset df :
  NoDup (row_key subset <$> df_rows df) → drop_duplicates subset df = df.
Proof.
  intros Hnd. unfold drop_duplicates. destruct df as [cols rows]. simpl in *.
  f_equal. by apply first_by_id.
Qed.

End cleaning.

(** ** The left join *)

Section merge_left.
Implicit Types (c on : string) (df left right : DataFrame) (r l : row).

Lemma merge_left_Ok left right on df :
  merge_left left right on = Ok df ↔
    on ∈ df_columns left ∧ on ∈ df_columns right ∧
    label_count on left = 1 ∧ label_count on right = 1 ∧
    df = mkDataFrame
           (df_columns left ++ filter (λ c, c ≠ on) (df_columns right))
           (df_rows left ≫= join_row on right).
Proof.
  unfold merge_left.
  destruct (has_column on left) eqn:Hl, (has_column on right) eqn:Hr; simpl;
    rewrite ?has_column_spec in *;
    try (apply not_true_iff_false in Hl; rewrite has_column_spec in Hl);
    try (apply not_true_iff_false in Hr; rewrite has_column_spec in Hr);
    [case_decide|..]; naive_solver.
Qed.

Lemma merge_left_KeyError left right on :
  on ∉ df_columns right → merge_left left right on = Err (KeyError on).
Proof.
  intros Hr. unfold merge_left.
  destruct (has_column on right) eqn:E; [by apply has_column_spec in E|].
  by rewrite andb_false_r.
Qed.

(** A left row is never lost. *)
Lemma join_row_nonempty on right l : join_row on right l ≠ [].
Proof. unfold join_row. by destruct (join_matches on right l). Qed.

Lemma elem_of_join_row on right l r :
  r ∈ join_row on right l ↔
    (join_matches on right l = [] ∧ r = l) ∨
    (∃ r', r' ∈ df_rows right ∧ r' !! on = l !! on ∧ r = l ∪ r').
Proof.
  unfold join_row. destruct (join_matches on right l) as [|m ms] eqn:Hm.
  - rewrite list_elem_of_singleton. split; [auto|].
    intros [[_ ?]|(r' & Hr' & Hk & _)]; [done|].
    assert (r' ∈ join_matches on right l) as Hin by (by apply list_elem_of_filter).
    rewrite Hm in Hin. by apply elem_of_nil in Hin.
  - rewrite list_elem_of_fmap. split.
    + intros (x & -> & Hx). right. rewrite <-Hm in Hx.
      apply list_elem_of_filter in Hx as [??]. eauto.
    + intros [[? _]|(r' & ? & ? & ->)]; [done|]. exists r'. split; [done|].
      rewrite <-Hm. by apply list_elem_of_filter.
Qed.

(** The columns of the left row keep their values in every joined row. *)
Lemma join_row_lookup_left on right l r c :
  r ∈ join_row on right l → is_Some (l !! c) → r !! c = l !! c.
Proof.
  intros [[_ ->]|(r' & _ & _ & ->)]%elem_of_join_row [v Hv]; [done|].
  rewrite Hv. by apply lookup_union_Some_l.
Qed.

(** A column the left row does not bind comes from the right row, and is
    null when nothing joined. *)
Lemma join_row_lookup_right on right l r c :
  r ∈ join_row on right l → l !! c = None →
  (join_matches on right l = [] ∧ r !! c = None) ∨
  (∃ r', r' ∈ join_matches on right l ∧ r !! c = r' !! c).
Proof.
  intros [[? ->]|(r' & ? & ? & ->)]%elem_of_join_row Hc; [by left|].
  right. exists r'. split; [by apply list_elem_of_filter|].
  by rewrite lookup_union_r.
Qed.

Lemma join_row_length on right l :
  length (join_row on right l) = max 1 (length (join_matches on right l)).
Proof.
  unfold join_row. destruct (join_matches on right l); [done|].
  rewrite length_fmap. simpl. lia.
Qed.

(** The values of a column that every left row binds: each left value, once
    for each row it joins with and once when there is none. *)
Lemma column_values_merge_left left right on df c :
  merge_left left right on = Ok df →
  Forall (λ l : row, is_Some (l !! c)) (df_rows left) →
  column_values c df =
    df_rows left ≫= λ l, replicate (length (join_row on right l)) (l !! c).
Proof.
  intros (_ & _ & _ & _ & ->)%merge_left_Ok Hall. unfold column_values. simpl.
  induction Hall as [|l ls Hl _ IH]; [done|]. csimpl. rewrite fmap_app, IH.
  f_equal. apply list_eq_same_length with (length (join_row on right l)).
  - by rewrite length_replicate.
  - by rewrite length_fmap.
  - intros i x y _ [r [-> Hr]]%list_lookup_fmap_Some [-> _]%lookup_replicate.
    eapply join_row_lookup_left; [|done].
    by eapply list_elem_of_lookup_2.
Qed.

End merge_left.

#[export] Hint Resolve wf_frame_of_column wf_frame_of_pairs wf_assign_with
  wf_filter_rows wf_concat_frames wf_rename_column : onto.

#[export] Hint Rewrite column_values_frame_of_column column_values_assign_eq
  column_values_concat column_values_frame_of_pairs_2 : onto.
#[export] Hint Rewrite column_values_assign_ne column_values_frame_of_pairs_1
  using done : onto.
