(* ===== verification/ExactMatch.v ===== *)
(** * Stage 1: exact matching, and the queries it leaves over

    [_exact_matching] (lines 145-155) keeps the queries whose normalised
    key [q.strip().lower()] is the key of a corpus label.  [run] then builds
    the table of stage 1 (lines 252-262) and asks NumPy for the remaining
    queries, [np.setdiff1d(self.query, stage1_matches)] (line 265).

    - [corpus_normalized] is the Python set of the corpus keys, a [gset].
    - [exact_matching] is the list comprehension over the queries: their
      order and their repetitions are kept.
    - [exact_frame] is [exact_df]: one row for each match, its curated label
      taken from the curation map or, when the map has none, the query
      itself; [match_level] and [stage] are 1, and for [i] from 1 to [topk]
      the column [top<i>_match] repeats the curated label and
      [top<i>_score] is 1.
    - [setdiff1d] is NumPy's: both arguments are stored in string arrays
      ([np_str]: an array drops the NUL characters that end a string),
      sorted and stripped of repetitions ([np_unique]); the result is what
      is left of the first array after removing the elements of the second.

    The theorems say when a query is matched, what its row holds, and that
    [setdiff1d] returns a strictly sorted list of exactly the stored
    queries that are no stored match. *)

From stdpp Require Import gmap sorting pretty.
From Stdlib Require Import QArith Qcanon.
From S2P Require Import Prelude PyStr PyDict Frame.

(** ** The comparison *)

Definition corpus_normalized (corpus : list string) : gset string :=
  list_to_set (norm_key <$> corpus).

Definition exact_matching (query corpus : list string) : list string :=
  filter (λ q, norm_key q ∈ corpus_normalized corpus) query.

(** ** The table of stage 1 *)

(** The names [f'top{i}_match'] and [f'top{i}_score']. *)
Definition top_match (i : Z) : string := "top" +:+ pretty i +:+ "_match".
Definition top_score (i : Z) : string := "top" +:+ pretty i +:+ "_score".

(** [Series.map(cura_map).fillna(other)] for the query of a row. *)
Definition curated (cura_map : pydict string cell) (other : cell) (r : row) : cell :=
  fillna other (series_map cura_map (r !! "original_value")).

(** One turn of the loop of lines 260-262. *)
Definition add_top_columns (df : DataFrame) (i : Z) : DataFrame :=
  assign_const (top_score i) (VNum 1)
    (assign_with (top_match i) (λ r, r !! "curated_ontology") df).

Definition exact_frame (cura_map : pydict string cell) (topk : Z)
    (stage1_matches : list string) : DataFrame :=
  let df := frame_of_column "original_value" ((λ q, Some (VStr q)) <$> stage1_matches) in
  let df := assign_with "curated_ontology"
              (λ r, curated cura_map (r !! "original_value") r) df in
  let df := assign_const "match_level" (VNum 1) df in
  let df := assign_const "stage" (VNum 1) df in
  foldl add_top_columns df (seqZ 1 topk).

(** ** The remaining queries *)

Definition is_nul (c : ascii) : bool := bool_decide (c = "000"%char).

(** A string as a NumPy string array stores it. *)
Definition np_str (s : string) : string := rstrip_by is_nul s.

(** Keep the first element of every run of equal elements. *)
Fixpoint drop_repeats_after `{EqDecision A} (prev : A) (l : list A) : list A :=
  match l with
  | [] => []
  | x :: l' =>
      if decide (x = prev) then drop_repeats_after prev l'
      else x :: drop_repeats_after x l'
  end.

Definition drop_repeats `{EqDecision A} (l : list A) : list A :=
  match l with
  | [] => []
  | x :: l' => x :: drop_repeats_after x l'
  end.

(** [np.unique]: sort, then drop the repetitions, which are adjacent. *)
Definition np_unique (ar : list string) : list string :=
  drop_repeats (merge_sort String.le (np_str <$> ar)).

Definition setdiff1d (ar1 ar2 : list string) : list string :=
  filter (λ x, x ∉ np_unique ar2) (np_unique ar1).

(** The order of the result: strictly increasing code points. *)
Definition str_lt : relation string := strict String.le.

(** ** Which queries match *)

Section exact_matching.
Implicit Types (q c k : string) (query corpus : list string).

Lemma elem_of_corpus_normalized k corpus :
  k ∈ corpus_normalized corpus ↔ ∃ c, c ∈ corpus ∧ k = norm_key c.
Proof.
  unfold corpus_normalized. rewrite elem_of_list_to_set, list_elem_of_fmap.
  naive_solver.
Qed.

Lemma elem_of_exact_matching q query corpus :
  q ∈ exact_matching query corpus ↔
    q ∈ query ∧ ∃ c, c ∈ corpus ∧ norm_key q = norm_key c.
Proof.
  unfold exact_matching.
  rewrite list_elem_of_filter, elem_of_corpus_normalized. naive_solver.
Qed.

Lemma exact_matching_app query1 query2 corpus :
  exact_matching (query1 ++ query2) corpus =
    exact_matching query1 corpus ++ exact_matching query2 corpus.
Proof. apply filter_app. Qed.

Lemma exact_matching_idemp query corpus :
  exact_matching (exact_matching query corpus) corpus = exact_matching query corpus.
Proof.
  unfold exact_matching. rewrite list_filter_filter.
  apply list_filter_iff. naive_solver.
Qed.

(** Repetitions in the corpus do not matter to the comparison. *)
Lemma corpus_normalized_dedup corpus :
  corpus_normalized (dedup_keep_first corpus) = corpus_normalized corpus.
Proof.
  apply set_eq. intros k. rewrite !elem_of_corpus_normalized.
  by setoid_rewrite elem_of_dedup_keep_first.
Qed.

End exact_matching.

(** ** The names of the top-K columns *)

Lemma top_score_inj : Inj (=) (=) top_score.
Proof.
  unfold top_score.
  by intros i j ?%(inj (String.append "top"))%string_app_inv_tail%(inj pretty).
Qed.

Lemma top_match_inj : Inj (=) (=) top_match.
Proof.
  unfold top_match.
  by intros i j ?%(inj (String.append "top"))%string_app_inv_tail%(inj pretty).
Qed.

Lemma top_score_ne_match i j : top_score i ≠ top_match j.
Proof.
  unfold top_score, top_match. intros Heq%(inj (String.append "top")).
  revert Heq. by apply string_app_last_ne.
Qed.

(** A column name that is no top-K column. *)
Definition plain_name (c : string) : Prop :=
  ∀ i, c ≠ top_match i ∧ c ≠ top_score i.

Lemma plain_name_not_top c a b rest :
  c = String a (String b rest) → (a, b) ≠ ("t", "o")%char → plain_name c.
Proof. intros -> Hne i. split; intros [=]; naive_solver. Qed.

Ltac plain_name := eapply plain_name_not_top; [reflexivity|by intros [=]].

Lemma plain_original_value : plain_name "original_value".
Proof. plain_name. Qed.
Lemma plain_updated_value : plain_name "updated_value".
Proof. plain_name. Qed.
Lemma plain_curated_ontology : plain_name "curated_ontology".
Proof. plain_name. Qed.
Lemma plain_match_level : plain_name "match_level".
Proof. plain_name. Qed.
Lemma plain_stage : plain_name "stage".
Proof. plain_name. Qed.

#[export] Hint Resolve plain_original_value plain_updated_value
  plain_curated_ontology plain_match_level plain_stage : onto.

(** ** The rows of the table of stage 1 *)

(** What [add_top_columns] does to one row. *)
Definition top_row (r : row) (i : Z) : row :=
  set_cell (top_score i) (Some (VNum 1))
    (set_cell (top_match i) (r !! "curated_ontology") r).

(** The row of [exact_df] for the query [q]. *)
Definition exact_row (cura_map : pydict string cell) (topk : Z) (q : string) : row :=
  let r := set_cell "original_value" (Some (VStr q)) ∅ in
  let r := set_cell "curated_ontology" (curated cura_map (r !! "original_value") r) r in
  let r := set_cell "match_level" (Some (VNum 1)) r in
  let r := set_cell "stage" (Some (VNum 1)) r in
  foldl top_row r (seqZ 1 topk).

(** The columns of [exact_df]: the four columns of lines 253-258, then for
    every rank its match and its score. *)
Definition exact_columns (topk : Z) : list string :=
  ["original_value"; "curated_ontology"; "match_level"; "stage"] ++
  (seqZ 1 topk ≫= λ i, [top_match i; top_score i]).

Section exact_frame.
Implicit Types (q c : string) (r : row) (i : Z) (l : list Z) (df : DataFrame).
Context (cura_map : pydict string cell).

Lemma df_columns_add_top df i :
  top_match i ∉ df_columns df → top_score i ∉ df_columns df →
  df_columns (add_top_columns df i) = df_columns df ++ [top_match i; top_score i].
Proof.
  intros Hm Hs. unfold add_top_columns, assign_const.
  rewrite !df_columns_assign_with, (decide_False _ _ Hm), decide_False.
  - by rewrite <-app_assoc.
  - rewrite elem_of_app, list_elem_of_singleton.
    intros [?|?%top_score_ne_match]; done.
Qed.

Lemma df_columns_foldl_add_top df l :
  NoDup l →
  (∀ i, i ∈ l → (top_match i ∉ df_columns df) ∧ (top_score i ∉ df_columns df)) →
  df_columns (foldl add_top_columns df l) =
    df_columns df ++ (l ≫= λ i, [top_match i; top_score i]).
Proof.
  revert df. induction l as [|i l IH]; intros df Hnd Hfresh; csimpl.
  { by rewrite app_nil_r. }
  apply NoDup_cons in Hnd as [Hi Hnd].
  destruct (Hfresh i) as [Hm Hs]; [by left|].
  rewrite IH; [by rewrite df_columns_add_top, <-app_assoc by done|done|].
  intros j Hj. destruct (Hfresh j) as [? ?]; [by right|].
  rewrite df_columns_add_top, !not_elem_of_app, !not_elem_of_cons by done.
  pose proof (top_score_ne_match j i). pose proof (top_score_ne_match i j).
  split_and!; try done; try apply not_elem_of_nil.
  - by intros ->%top_match_inj.
  - by intros ->%top_score_inj.
Qed.

Lemma df_rows_foldl_add_top df l :
  df_rows (foldl add_top_columns df l) = (λ r, foldl top_row r l) <$> df_rows df.
Proof.
  revert df. induction l as [|i l IH]; intros df; simpl.
  - by rewrite list_fmap_id.
  - rewrite IH. unfold add_top_columns, assign_const.
    rewrite !df_rows_assign_with, <-!list_fmap_compose. done.
Qed.

Lemma df_rows_exact_frame topk stage1_matches :
  df_rows (exact_frame cura_map topk stage1_matches) =
    exact_row cura_map topk <$> stage1_matches.
Proof.
  unfold exact_frame. rewrite df_rows_foldl_add_top. unfold assign_const.
  rewrite !df_rows_assign_with. simpl. by rewrite <-!list_fmap_compose.
Qed.

Lemma lookup_top_row_plain r i c : plain_name c → top_row r i !! c = r !! c.
Proof.
  intros Hc. destruct (Hc i). unfold top_row.
  by rewrite !lookup_set_cell_ne.
Qed.

Lemma lookup_foldl_top_row_plain r l c :
  plain_name c → foldl top_row r l !! c = r !! c.
Proof.
  intros Hc. revert r. induction l as [|i l IH]; intros r; simpl; [done|].
  by rewrite IH, lookup_top_row_plain.
Qed.

Lemma lookup_foldl_top_row_score r l i :
  i ∈ l → foldl top_row r l !! top_score i = Some (VNum 1).
Proof.
  revert r. induction l as [|j l IH] using rev_ind; intros r.
  { by intros ?%elem_of_nil. }
  rewrite foldl_app. simpl. unfold top_row at 1.
  destruct (decide (i = j)) as [->|Hne]; [by rewrite lookup_set_cell_eq|].
  rewrite elem_of_app, list_elem_of_singleton. intros [?|?]; [|done].
  rewrite !lookup_set_cell_ne; [by apply IH| |].
  - intros ?. by apply (top_score_ne_match i j).
  - by intros ?%top_score_inj.
Qed.

Lemma lookup_foldl_top_row_match r l i :
  i ∈ l → foldl top_row r l !! top_match i = r !! "curated_ontology".
Proof.
  revert r. induction l as [|j l IH] using rev_ind; intros r.
  { by intros ?%elem_of_nil. }
  rewrite foldl_app. simpl. unfold top_row at 1.
  rewrite lookup_set_cell_ne by apply top_score_ne_match.
  destruct (decide (i = j)) as [->|Hne].
  { intros _. rewrite lookup_set_cell_eq.
    apply lookup_foldl_top_row_plain, plain_curated_ontology. }
  rewrite elem_of_app, list_elem_of_singleton. intros [?|?]; [|done].
  rewrite lookup_set_cell_ne; [by apply IH|]. by intros ?%top_match_inj.
Qed.

Lemma exact_row_original topk q :
  exact_row cura_map topk q !! "original_value" = Some (VStr q).
Proof.
  unfold exact_row. rewrite lookup_foldl_top_row_plain by auto with onto.
  by rewrite !lookup_set_cell_ne, lookup_set_cell_eq by done.
Qed.

Lemma exact_row_stage topk q :
  exact_row cura_map topk q !! "stage" = Some (VNum 1).
Proof.
  unfold exact_row. rewrite lookup_foldl_top_row_plain by auto with onto.
  by rewrite lookup_set_cell_eq.
Qed.

Lemma exact_row_match_level topk q :
  exact_row cura_map topk q !! "match_level" = Some (VNum 1).
Proof.
  unfold exact_row. rewrite lookup_foldl_top_row_plain by auto with onto.
  by rewrite lookup_set_cell_ne, lookup_set_cell_eq by done.
Qed.

(** The curated label: the curation map's entry for the query as it was
    typed, and the query itself when the map has no entry or a null one. *)
Lemma exact_row_curated topk q :
  exact_row cura_map topk q !! "curated_ontology" =
    Some (default (VStr q) (mjoin (dict_get q cura_map))).
Proof.
  unfold exact_row. rewrite lookup_foldl_top_row_plain by auto with onto.
  rewrite !lookup_set_cell_ne, lookup_set_cell_eq by done.
  unfold curated. by rewrite !lookup_set_cell_eq, fillna_Some, series_map_str.
Qed.

Lemma exact_row_top_score topk q i :
  (1 ≤ i ≤ topk)%Z → exact_row cura_map topk q !! top_score i = Some (VNum 1).
Proof.
  intros. apply lookup_foldl_top_row_score, elem_of_seqZ. lia.
Qed.

Lemma exact_row_top_match topk q i :
  (1 ≤ i ≤ topk)%Z →
  exact_row cura_map topk q !! top_match i =
    exact_row cura_map topk q !! "curated_ontology".
Proof.
  intros. rewrite exact_row_curated. unfold exact_row.
  rewrite lookup_foldl_top_row_match by (apply elem_of_seqZ; lia).
  rewrite !lookup_set_cell_ne, lookup_set_cell_eq by done.
  unfold curated. by rewrite !lookup_set_cell_eq, fillna_Some, series_map_str.
Qed.

Lemma column_values_exact_frame_original topk stage1_matches :
  column_values "original_value" (exact_frame cura_map topk stage1_matches) =
    (λ q, Some (VStr q)) <$> stage1_matches.
Proof.
  unfold column_values. rewrite df_rows_exact_frame, <-list_fmap_compose.
  apply list_fmap_ext. intros _ q _. apply exact_row_original.
Qed.

Lemma df_columns_exact_frame topk stage1_matches :
  df_columns (exact_frame cura_map topk stage1_matches) = exact_columns topk.
Proof.
  unfold exact_frame, exact_columns.
  rewrite df_columns_foldl_add_top; [done|apply NoDup_seqZ|].
  intros i _. unfold assign_const. rewrite !df_columns_assign_with. simpl.
  rewrite !not_elem_of_cons.
  destruct (plain_original_value i), (plain_curated_ontology i),
    (plain_match_level i), (plain_stage i).
  split_and!; try done; apply not_elem_of_nil.
Qed.

Lemma wf_add_top_columns df l :
  wf_frame df → wf_frame (foldl add_top_columns df l).
Proof.
  revert df. induction l as [|i l IH]; intros df ?; simpl; [done|].
  apply IH. unfold add_top_columns, assign_const. auto with onto.
Qed.

Lemma wf_exact_frame topk stage1_matches :
  wf_frame (exact_frame cura_map topk stage1_matches).
Proof.
  unfold exact_frame, assign_const. apply wf_add_top_columns. auto 6 with onto.
Qed.

End exact_frame.

#[export] Hint Resolve wf_exact_frame : onto.

(** ** NumPy's unique and set difference *)

Section drop_repeats.
Context `{EqDecision A} (R : relation A) `{!PartialOrder R}.
Implicit Types (x p : A) (l : list A).

Lemma elem_of_drop_repeats_after x p l :
  x ∈ l ↔ (x = p ∧ p ∈ l) ∨ x ∈ drop_repeats_after p l.
Proof.
  revert p. induction l as [|y l IH]; intros p; simpl.
  - rewrite !elem_of_nil. naive_solver.
  - destruct (decide (y = p)) as [->|Hne]; rewrite !elem_of_cons.
    + pose proof (IH p). naive_solver.
    + pose proof (IH y). destruct (decide (x = y)); naive_solver.
Qed.

Lemma elem_of_drop_repeats x l : x ∈ drop_repeats l ↔ x ∈ l.
Proof.
  destruct l as [|y l]; simpl; [done|].
  rewrite !elem_of_cons, (elem_of_drop_repeats_after x y l). naive_solver.
Qed.

Lemma drop_repeats_after_sorted p l :
  Forall (R p) l → StronglySorted R l →
  StronglySorted (strict R) (drop_repeats_after p l) ∧
  Forall (strict R p) (drop_repeats_after p l).
Proof.
  intros Hp Hl. revert p Hp.
  induction Hl as [|y l Hl IH Hy]; intros p Hall; simpl.
  { split; constructor. }
  apply Forall_cons in Hall as [Hpy Hp].
  case_decide as Hne; [subst; by apply IH|].
  destruct (IH y Hy) as [Hs Hall].
  assert (strict R p y) as Hlt.
  { split; [done|]. intros ?. by apply Hne, (anti_symm R). }
  split; constructor; [done..|].
  eapply Forall_impl; [done|]. intros z ?. by trans y.
Qed.

Lemma drop_repeats_sorted l :
  StronglySorted R l → StronglySorted (strict R) (drop_repeats l).
Proof.
  destruct 1 as [|x l Hl Hx]; simpl; constructor;
    by apply drop_repeats_after_sorted.
Qed.

End drop_repeats.

Section setdiff1d.
Implicit Types (x s : string) (ar : list string).

Lemma elem_of_np_unique x ar : x ∈ np_unique ar ↔ x ∈ np_str <$> ar.
Proof.
  unfold np_unique. by rewrite elem_of_drop_repeats, merge_sort_Permutation.
Qed.

Lemma np_unique_sorted ar : StronglySorted str_lt (np_unique ar).
Proof.
  apply (drop_repeats_sorted String.le), StronglySorted_merge_sort; apply _.
Qed.

Lemma elem_of_setdiff1d x ar1 ar2 :
  x ∈ setdiff1d ar1 ar2 ↔ x ∈ np_str <$> ar1 ∧ x ∉ np_str <$> ar2.
Proof.
  unfold setdiff1d. rewrite list_elem_of_filter, !elem_of_np_unique. tauto.
Qed.

Lemma setdiff1d_sorted ar1 ar2 : StronglySorted str_lt (setdiff1d ar1 ar2).
Proof. apply StronglySorted_filter, np_unique_sorted. Qed.

Lemma setdiff1d_NoDup ar1 ar2 : NoDup (setdiff1d ar1 ar2).
Proof. eapply StronglySorted_strict_NoDup, setdiff1d_sorted. Qed.

(** A string without a final NUL is stored as it is. *)
Lemma np_str_id s : last_char s ≠ Some "000"%char → np_str s = s.
Proof.
  intros Hl. apply rstrip_by_fixed. intros c Hc.
  apply bool_decide_eq_false. congruence.
Qed.

Lemma np_str_idemp s : np_str (np_str s) = np_str s.
Proof. apply rstrip_by_idemp. Qed.

End setdiff1d.

(** ** The contract of stage 1 *)

(** C27. A query is an exact match precisely when it is equal, up to case
    and surrounding white space, to a label of the corpus; matching keeps
    the order and the repetitions of the queries. *)
Theorem exact_matching_spec query corpus :
  exact_matching query corpus =
    filter (λ q, Exists (same_key q) corpus) query.
Proof.
  unfold exact_matching. apply list_filter_iff. intros q.
  by rewrite elem_of_corpus_normalized, Exists_exists.
Qed.

(** C28. Matching does not tell apart two queries with the same key. *)
Theorem exact_matching_same_key q1 q2 query corpus :
  same_key q1 q2 → q1 ∈ query → q2 ∈ query →
  q1 ∈ exact_matching query corpus ↔ q2 ∈ exact_matching query corpus.
Proof.
  intros Hk ??. rewrite !elem_of_exact_matching.
  unfold same_key in Hk. rewrite Hk. naive_solver.
Qed.

Lemma exact_matching_same_key_witness :
  "Lung Cancer" ∈ exact_matching ["Lung Cancer"; " lung cancer"] ["LUNG CANCER"]
  ↔ " lung cancer" ∈ exact_matching ["Lung Cancer"; " lung cancer"] ["LUNG CANCER"].
Proof.
  apply (exact_matching_same_key "Lung Cancer" " lung cancer");
    [reflexivity|repeat constructor..].
Defined.

(** C29. The table of stage 1 has one row for each exact match, in order,
    and the row of a match [q] holds: [q] as [original_value]; the curation
    map's label for [q], or [q] when the map has none, as
    [curated_ontology]; 1 as [match_level] and as [stage]; and for every [i]
    from 1 to [topk] the score 1 and the curated label as match. *)
Theorem exact_frame_rows cura_map topk stage1_matches :
  df_rows (exact_frame cura_map topk stage1_matches) =
    exact_row cura_map topk <$> stage1_matches ∧
  ∀ q, let r := exact_row cura_map topk q in
    r !! "original_value" = Some (VStr q) ∧
    r !! "curated_ontology" = Some (default (VStr q) (mjoin (dict_get q cura_map))) ∧
    r !! "match_level" = Some (VNum 1) ∧
    r !! "stage" = Some (VNum 1) ∧
    ∀ i, (1 ≤ i ≤ topk)%Z →
      r !! top_score i = Some (VNum 1) ∧
      r !! top_match i = r !! "curated_ontology".
Proof.
  split; [apply df_rows_exact_frame|]. intros q. simpl.
  split_and!; auto using exact_row_original, exact_row_curated,
    exact_row_match_level, exact_row_stage, exact_row_top_score,
    exact_row_top_match.
Qed.

(** C30. The remaining queries: [np.setdiff1d] returns, strictly sorted by
    code point, the stored queries that are no stored match; so it holds no
    query twice, whatever the input repeats. *)
Theorem setdiff1d_spec ar1 ar2 :
  StronglySorted str_lt (setdiff1d ar1 ar2) ∧
  ∀ x, x ∈ setdiff1d ar1 ar2 ↔ x ∈ np_str <$> ar1 ∧ x ∉ np_str <$> ar2.
Proof. split; [apply setdiff1d_sorted|]. intros x. apply elem_of_setdiff1d. Qed.

(** The result of [np.setdiff1d] is the only list with these two
    properties. *)
Theorem setdiff1d_unique ar1 ar2 l :
  StronglySorted str_lt l →
  (∀ x, x ∈ l ↔ x ∈ np_str <$> ar1 ∧ x ∉ np_str <$> ar2) →
  l = setdiff1d ar1 ar2.
Proof.
  intros Hl Hin. apply (StronglySorted_strict_unique String.le); [done|..].
  - apply setdiff1d_sorted.
  - intros x. by rewrite Hin, elem_of_setdiff1d.
Qed.

Lemma setdiff1d_unique_witness :
  ["XYZ"; "abc"] = setdiff1d ["abc"; "Lung Cancer"; "XYZ"; "abc"] ["Lung Cancer"].
Proof.
  apply (setdiff1d_unique _ _ ["XYZ"; "abc"]).
  - repeat constructor; by vm_compute.
  - intros x. rewrite <-elem_of_setdiff1d. by vm_compute.
Defined.

(** The scenario of the specification: the two spellings of "Lung Cancer"
    are exact matches and "XYZ" is left for stage 2. *)
Example exact_matching_scenario :
  let query := ["Lung Cancer"; "lung cancer"; "XYZ"] in
  let corpus := ["Lung Cancer"; "Breast Cancer"] in
  exact_matching query corpus = ["Lung Cancer"; "lung cancer"] ∧
  setdiff1d query (exact_matching query corpus) = ["XYZ"].
Proof. by vm_compute. Qed.

(** The curated label of an exact match is looked up under the query as
    typed: two spellings of one corpus label get different curated labels
    when the curation map knows only one of them. *)
Example exact_curated_by_spelling :
  let cura_map := [("Lung Cancer", Some (VStr "NCIT:C4878"))] in
  let df := exact_frame cura_map 1 (exact_matching ["Lung Cancer"; "lung cancer"] ["Lung Cancer"]) in
  column_values "original_value" df = [Some (VStr "Lung Cancer"); Some (VStr "lung cancer")] ∧
  column_values "curated_ontology" df = [Some (VStr "NCIT:C4878"); Some (VStr "lung cancer")].
Proof. by vm_compute. Qed.
