(* ===== verification/Abbrev.v ===== *)
(** * The abbreviation resolver

    [_map_shortname_to_fullname] (lines 157-180) maps every query that
    stage 1 left over to the string the matchers will see: the display name
    of the query when the query, stripped, is a short code of the table at
    [ABBR_DICT_PATH], and the stripped query otherwise.

    The table is outside the program.  [AbbrevSource] is what
    [pd.read_csv] finds there: [None] when the file does not exist (the
    [FileNotFoundError] the code catches), else the rows of the columns
    [code] and [name].  Rows are pairs of strings; a file without these
    columns or with empty cells is outside the model.

    - [short_to_name] is [dict(zip(codes, names))] over the stripped
      columns, empty when the file is missing.
    - [expand] is [short_to_name.get(q_strip, q_strip)].
    - [map_shortname_to_fullname] is the loop that fills [replaced].

    The theorems: the result has one entry for each distinct query, in the
    order of first occurrence; without the file every query is mapped to
    its stripped form; a code of the table is mapped to the name of the
    last row that gives it. *)

From S2P Require Import Prelude PyStr PyDict.

Definition ABBR_DICT_PATH : string := "data/corpus/oncotree_code_to_name.csv".

(** The file system as [pd.read_csv] sees it. *)
Class AbbrevSource : Type :=
  read_csv : string → option (list (string * string)).

Section abbrev.
Context `{AbbrevSource}.

Definition short_to_name : pydict string string :=
  match read_csv ABBR_DICT_PATH with
  | Some rows => dict_of_items ((λ p, (strip p.1, strip p.2)) <$> rows)
  | None => []
  end.

Definition expand (q : string) : string :=
  dict_get_default (strip q) (strip q) short_to_name.

Definition map_shortname_to_fullname (non_exact_list : list string) :
    pydict string string :=
  foldl (λ replaced q, dict_set q (expand q) replaced) [] non_exact_list.

(** ** Facts *)

Implicit Types (q : string) (l : list string).

Lemma map_shortname_to_fullname_items l :
  map_shortname_to_fullname l = dict_of_items ((λ q, (q, expand q)) <$> l).
Proof. unfold map_shortname_to_fullname, dict_of_items. by rewrite foldl_fmap. Qed.

Lemma map_shortname_to_fullname_wf l : dict_wf (map_shortname_to_fullname l).
Proof. rewrite map_shortname_to_fullname_items. apply dict_of_items_wf. Qed.

Lemma map_shortname_to_fullname_keys l :
  dict_keys (map_shortname_to_fullname l) = first_occurrences l.
Proof.
  rewrite map_shortname_to_fullname_items. unfold dict_of_items.
  rewrite dict_keys_foldl_set. simpl.
  rewrite filter_all by (apply Forall_forall; intros; apply not_elem_of_nil).
  by rewrite <-list_fmap_compose, list_fmap_id.
Qed.

Lemma map_shortname_to_fullname_get l q :
  dict_get q (map_shortname_to_fullname l) =
    if decide (q ∈ l) then Some (expand q) else None.
Proof.
  rewrite map_shortname_to_fullname_items, dict_get_of_items.
  rewrite <-fmap_reverse. case_decide as Hq.
  - apply elem_of_reverse in Hq. induction (reverse l) as [|x k IH]; csimpl.
    { by apply elem_of_nil in Hq. }
    case_decide; [by subst|]. apply IH. by apply elem_of_cons in Hq as [?|?].
  - apply dict_get_None. unfold dict_keys.
    by rewrite <-list_fmap_compose, list_fmap_id, elem_of_reverse.
Qed.

Lemma expand_no_file q : read_csv ABBR_DICT_PATH = None → expand q = strip q.
Proof. unfold expand, short_to_name. by intros ->. Qed.

Lemma expand_unknown q :
  strip q ∉ dict_keys short_to_name → expand q = strip q.
Proof. intros Hq%dict_get_None. unfold expand, dict_get_default. by rewrite Hq. Qed.

Lemma expand_known q name :
  dict_get (strip q) short_to_name = Some name → expand q = name.
Proof. unfold expand, dict_get_default. by intros ->. Qed.

End abbrev.

(** C31. The resolver returns a dictionary with exactly the distinct queries
    as keys, in the order of their first occurrence, each mapped to its
    expansion. *)
Theorem map_shortname_to_fullname_spec `{AbbrevSource} l :
  dict_wf (map_shortname_to_fullname l) ∧
  dict_keys (map_shortname_to_fullname l) = first_occurrences l ∧
  ∀ q, q ∈ l → dict_get q (map_shortname_to_fullname l) = Some (expand q).
Proof.
  split_and!; [apply map_shortname_to_fullname_wf|
               apply map_shortname_to_fullname_keys|].
  intros q Hq. by rewrite map_shortname_to_fullname_get, decide_True.
Qed.

(** C32. Without the abbreviation file the resolver degrades to stripping:
    no error, and every query is mapped to itself without the surrounding
    white space. *)
Theorem map_shortname_to_fullname_no_file `{AbbrevSource} l :
  read_csv ABBR_DICT_PATH = None →
  map_shortname_to_fullname l = dict_of_items ((λ q, (q, strip q)) <$> l).
Proof.
  intros Hno. rewrite map_shortname_to_fullname_items. f_equal.
  apply list_fmap_ext. intros _ q _. by rewrite expand_no_file.
Qed.

(** C33. A short code of the table expands to the stripped name of the last
    row that carries the code; white space around the query and around the
    cells of the table is ignored. *)
Theorem expand_last_row `{AbbrevSource} rows q :
  read_csv ABBR_DICT_PATH = Some rows →
  expand q =
    default (strip q)
      (dict_get (strip q) (reverse ((λ p, (strip p.1, strip p.2)) <$> rows))).
Proof.
  intros Hrows. unfold expand, dict_get_default, short_to_name.
  by rewrite Hrows, dict_get_of_items.
Qed.
