(* ===== verification/Normalizer.v ===== *)
(** * The corpus normalizer

    [_normalize_df] (lines 102-143) brings the reference table of a
    retrieval strategy into the shape stage 3 relies on:

    + without a column [official_label], the column [label] is copied
      under that name; with neither the call fails;
    + when a code is needed and there is no column [clean_code], it is
      extracted from [obo_id] with the regular expression [(C\d+)]; with
      neither the call fails;
    + rows with a null under the key columns are dropped, then rows that
      repeat the key of an earlier row, then the key columns are converted
      to strings.

    [extract_code] is [Series.str.extract(r'(C\d+)', expand=False)] on one
    string: the leftmost letter C that a digit follows, with all the digits
    that follow it.

    The theorems: the two failures and nothing else; the result has the key
    columns, holding strings only, and each of its rows comes from a row of
    the table given whose key cells ([key_cell]) are not null; a table
    whose key cells are strings is normalised to a table without repeated
    keys, and normalising it again changes nothing.  The last two need the
    hypothesis on the cells: the code drops repetitions before it converts
    to strings, so two keys that differ and print alike survive as two rows
    with one key, and the result is no fixed point
    ([normalize_df_repeated_key]). *)

From stdpp Require Import gmap.
From Stdlib Require Import QArith Qcanon.
From S2P Require Import Prelude PyStr PyDict Frame.

(** ** The regular expression *)

Definition isdigit (c : ascii) : bool := between 48 57 (code c).

Fixpoint take_digits (s : string) : string :=
  match s with
  | String c s' => if isdigit c then String c (take_digits s') else EmptyString
  | EmptyString => EmptyString
  end.

Definition starts_with_digit (s : string) : bool :=
  match s with
  | String c _ => isdigit c
  | EmptyString => false
  end.

Fixpoint extract_code (s : string) : option string :=
  match s with
  | EmptyString => None
  | String c s' =>
      if bool_decide (c = "C"%char) && starts_with_digit s'
      then Some (String c (take_digits s'))
      else extract_code s'
  end.

(** ** The function *)

Section normalize.
Context `{PandasNumeric}.

(** [df[c] = df[c].astype(str)]. *)
Definition column_to_str (c : string) (df : DataFrame) : DataFrame :=
  assign_with c (λ r, Some (VStr (astype_str (r !! c)))) df.

(** Step 1 (lines 113-120). *)
Definition official_label_fallback (df : DataFrame) : res DataFrame :=
  if has_column "official_label" df then Ok df
  else if has_column "label" df
  then Ok (assign_with "official_label" (λ r, r !! "label") df)
  else Err (ValueError "DataFrame must contain 'official_label' or 'label'").

(** Step 2 (lines 123-134). *)
Definition clean_code_fallback (need_code : bool) (df : DataFrame) : res DataFrame :=
  if negb need_code then Ok df
  else if has_column "clean_code" df then Ok df
  else if has_column "obo_id" df
  then Ok (assign_with "clean_code"
             (λ r, VStr <$> extract_code (astype_str (r !! "obo_id"))) df)
  else Err (ValueError
    "DataFrame must contain 'clean_code' or 'obo_id' for RAG/RAG_BIE strategies").

(** The key columns (line 137). *)
Definition keep_columns (need_code : bool) : list string :=
  "official_label" :: (if need_code then ["clean_code"] else []).

(** Step 3 (lines 137-141). *)
Definition basic_cleaning (need_code : bool) (df : DataFrame) : DataFrame :=
  let keep := keep_columns need_code in
  let df := drop_duplicates keep (dropna keep df) in
  let df := column_to_str "official_label" df in
  if has_column "clean_code" df then column_to_str "clean_code" df else df.

Definition normalize_df (df : DataFrame) (need_code : bool) : res DataFrame :=
  df ← official_label_fallback df;
  df ← clean_code_fallback need_code df;
  Ok (basic_cleaning need_code df).

(** ** What is promised *)

(** The names under which the normalizer finds or makes its key columns. *)
Definition key_sources : list string := ["official_label"; "label"; "clean_code"].

(** The cells a key can come from hold strings or nothing. *)
Definition string_keys (df : DataFrame) : Prop :=
  ∀ r c v, r ∈ df_rows df → c ∈ key_sources → r !! c = Some v → ∃ s, v = VStr s.

(** The shape of a normalised table: it has the key columns, and the
    columns [official_label] and [clean_code] hold strings where they
    exist. *)
Definition normalized (need_code : bool) (df : DataFrame) : Prop :=
  (∀ c, c ∈ keep_columns need_code → c ∈ df_columns df) ∧
  ∀ r c, r ∈ df_rows df → c ∈ ["official_label"; "clean_code"] →
    c ∈ df_columns df → ∃ s, r !! c = Some (VStr s).

(** The cell the normalizer reads for a key column in a row of the table
    it is given: the cell of the column, or what the fallback computes
    when the table lacks the column. *)
Definition key_cell (df : DataFrame) (c : string) (r : row) : cell :=
  if decide (c = "official_label")
  then if has_column "official_label" df
       then r !! "official_label" else r !! "label"
  else if has_column "clean_code" df
       then r !! "clean_code"
       else VStr <$> extract_code (astype_str (r !! "obo_id")).

(** What step 3 does to a row it keeps. *)
Definition str_row (has_code : bool) (r : row) : row :=
  let r := set_cell "official_label"
             (Some (VStr (astype_str (r !! "official_label")))) r in
  if has_code
  then set_cell "clean_code" (Some (VStr (astype_str (r !! "clean_code")))) r
  else r.

(** The rows step 3 keeps. *)
Definition kept_rows (need_code : bool) (df : DataFrame) : list row :=
  first_by (row_key (keep_columns need_code))
    (filter (λ r, Forall is_Some (row_key (keep_columns need_code) r))
       (df_rows df)).

Implicit Types (df : DataFrame) (r : row) (c : string) (need_code : bool).

(** ** The regular expression *)

Lemma extract_code_shape s code :
  extract_code s = Some code →
  ∃ digits, code = String "C" digits ∧ starts_with_digit digits = true.
Proof.
  induction s as [|c s IH]; [done|]. simpl.
  destruct (bool_decide (c = "C"%char)) eqn:Hc; simpl; [|done].
  apply bool_decide_eq_true in Hc as ->.
  destruct (starts_with_digit s) eqn:Hd; [|done]. intros [= <-].
  eexists. split; [done|]. destruct s as [|d s]; [done|]. simpl in *.
  by rewrite Hd.
Qed.

(** ** The three steps *)

Lemma official_label_fallback_Ok df df' :
  official_label_fallback df = Ok df' →
  "official_label" ∈ df_columns df' ∧
  (∀ c, c ≠ "official_label" → c ∈ df_columns df' ↔ c ∈ df_columns df) ∧
  (string_keys df → string_keys df').
Proof.
  unfold official_label_fallback.
  destruct (has_column "official_label" df) eqn:Hol.
  { intros [= <-]. by apply has_column_spec in Hol. }
  destruct (has_column "label" df) eqn:Hl; [|done]. intros [= <-].
  rewrite <-!has_column_spec. split_and!.
  - by rewrite has_column_assign_with, bool_decide_eq_true_2.
  - intros c ?. rewrite <-!has_column_spec, has_column_assign_with.
    by rewrite bool_decide_eq_false_2.
  - intros Hs r c v (r0 & -> & Hr0)%list_elem_of_fmap Hc.
    rewrite lookup_set_cell. case_decide; [|by apply Hs].
    apply Hs; [done|]. unfold key_sources. set_solver.
Qed.

Lemma clean_code_fallback_Ok need_code df df' :
  clean_code_fallback need_code df = Ok df' →
  (need_code = true → "clean_code" ∈ df_columns df') ∧
  (∀ c, c ≠ "clean_code" → c ∈ df_columns df' ↔ c ∈ df_columns df) ∧
  (string_keys df → string_keys df').
Proof.
  unfold clean_code_fallback. destruct need_code; simpl; [|by intros [= <-]].
  destruct (has_column "clean_code" df) eqn:Hcc.
  { intros [= <-]. by apply has_column_spec in Hcc. }
  destruct (has_column "obo_id" df) eqn:Ho; [|done]. intros [= <-].
  split_and!.
  - intros _. by rewrite <-has_column_spec, has_column_assign_with,
      bool_decide_eq_true_2.
  - intros c ?. rewrite <-!has_column_spec, has_column_assign_with.
    by rewrite bool_decide_eq_false_2.
  - intros Hs r c v (r0 & -> & Hr0)%list_elem_of_fmap Hc.
    rewrite lookup_set_cell. case_decide; [|by apply Hs].
    destruct (extract_code _); intros [= <-]. eauto.
Qed.

Lemma basic_cleaning_unfold need_code df :
  "official_label" ∈ df_columns df →
  basic_cleaning need_code df =
    mkDataFrame (df_columns df)
      (str_row (has_column "clean_code" df) <$> kept_rows need_code df).
Proof.
  intros Hol. unfold basic_cleaning.
  set (cleaned := drop_duplicates _ (dropna _ df)).
  assert (df_columns (column_to_str "official_label" cleaned) = df_columns df)
    as Hcols.
  { unfold column_to_str. rewrite df_columns_assign_with.
    by rewrite decide_True. }
  assert (has_column "clean_code" (column_to_str "official_label" cleaned) =
          has_column "clean_code" df) as ->
    by (unfold has_column; by rewrite Hcols).
  destruct (has_column "clean_code" df) eqn:Hcc.
  - unfold column_to_str at 1. unfold assign_with at 1.
    rewrite Hcols, decide_True by (by apply has_column_spec). f_equal.
    unfold column_to_str, assign_with. cbn [df_rows].
    by rewrite <-list_fmap_compose.
  - unfold column_to_str, assign_with. by rewrite decide_True.
Qed.

Lemma elem_of_kept_rows need_code df r c :
  r ∈ kept_rows need_code df → c ∈ keep_columns need_code →
  r ∈ df_rows df ∧ is_Some (r !! c).
Proof.
  intros [Hall ?]%elem_of_first_by%list_elem_of_filter Hc. split; [done|].
  unfold row_key in Hall. rewrite Forall_fmap, Forall_forall in Hall.
  by apply Hall.
Qed.

Lemma lookup_str_row has_code r c :
  str_row has_code r !! c =
    if decide (c = "official_label")
    then Some (VStr (astype_str (r !! "official_label")))
    else if has_code && bool_decide (c = "clean_code")
         then Some (VStr (astype_str (r !! "clean_code")))
         else r !! c.
Proof.
  unfold str_row. destruct has_code; simpl; rewrite !lookup_set_cell;
    repeat case_decide; simplify_eq; try done;
    by rewrite ?bool_decide_eq_true_2, ?bool_decide_eq_false_2 by done.
Qed.

(** A row whose key cells are strings keeps them. *)
Lemma str_row_id has_code r :
  (∃ s, r !! "official_label" = Some (VStr s)) →
  (has_code = true → ∃ s, r !! "clean_code" = Some (VStr s)) →
  str_row has_code r = r.
Proof.
  intros [s Hs] Hcode. unfold str_row. rewrite Hs. simpl.
  rewrite !(set_cell_id "official_label" _ r) by done.
  destruct has_code; [|done].
  destruct Hcode as [s' Hs']; [done|]. rewrite Hs'. by apply set_cell_id.
Qed.

(** The key of a row after step 3: the printed cells of the key it had. *)
Lemma row_key_str_row_print need_code df r :
  (∀ c, c ∈ keep_columns need_code → c ∈ df_columns df) →
  row_key (keep_columns need_code) (str_row (has_column "clean_code" df) r) =
    (λ v : cell, Some (VStr (astype_str v))) <$>
      row_key (keep_columns need_code) r.
Proof.
  intros Hcols. unfold row_key. rewrite <-list_fmap_compose.
  apply list_fmap_ext. intros _ c Hc%list_elem_of_lookup_2. simpl.
  rewrite lookup_str_row. case_decide as Hc1; [by subst|].
  assert (has_column "clean_code" df = true ∧ c = "clean_code") as [-> ->];
    [|done].
  rewrite has_column_spec. unfold keep_columns in *.
  destruct need_code; set_solver.
Qed.

(** A row after the two fallbacks is a row of the table given, with its
    key cells where step 3 looks for them. *)
Lemma fallback_rows df df1 df2 need_code r2 :
  official_label_fallback df = Ok df1 →
  clean_code_fallback need_code df1 = Ok df2 →
  r2 ∈ df_rows df2 →
  ∃ r, r ∈ df_rows df ∧
    (∀ c, c ∈ keep_columns need_code → r2 !! c = key_cell df c r) ∧
    (∀ c, c ∉ ["official_label"; "clean_code"] → r2 !! c = r !! c).
Proof.
  unfold official_label_fallback, clean_code_fallback, key_cell, keep_columns.
  intros H1 H2 Hr2.
  destruct (has_column "official_label" df) eqn:Hol;
    [|destruct (has_column "label" df) eqn:Hl; [|done]];
    injection H1 as <-;
    rewrite ?has_column_assign_with in H2; simpl in H2;
    (destruct need_code; simpl in H2;
     [destruct (has_column "clean_code" df) eqn:Hcc;
      [|destruct (has_column "obo_id" df) eqn:Ho; [|done]]|]);
    injection H2 as <-; simpl in Hr2;
    repeat (apply list_elem_of_fmap in Hr2 as (? & -> & Hr2));
    (eexists; split; [done|]);
    (split; intros c Hc; rewrite ?lookup_set_cell;
     repeat case_decide; set_solver).
Qed.

(** ** The whole function *)

Lemma normalize_df_inv df need_code df' :
  normalize_df df need_code = Ok df' →
  ∃ df2,
    "official_label" ∈ df_columns df2 ∧
    (need_code = true → "clean_code" ∈ df_columns df2) ∧
    (string_keys df → string_keys df2) ∧
    df' = mkDataFrame (df_columns df2)
            (str_row (has_column "clean_code" df2) <$> kept_rows need_code df2).
Proof.
  intros (df1 & (Hol & _ & Hs1)%official_label_fallback_Ok &
          (df2 & (Hcc & Hcols & Hs2)%clean_code_fallback_Ok & [= <-])%res_bind_ok)
    %res_bind_ok.
  assert ("official_label" ∈ df_columns df2) by (by apply Hcols).
  exists df2. split_and!; [done|done|auto|by apply basic_cleaning_unfold].
Qed.

Lemma keep_columns_elem_of need_code c df :
  "official_label" ∈ df_columns df →
  (need_code = true → "clean_code" ∈ df_columns df) →
  c ∈ keep_columns need_code → c ∈ df_columns df.
Proof.
  unfold keep_columns. intros ? Hcc. destruct need_code; set_solver.
Qed.

(** C25. The normalizer fails in two cases and no other: the table has
    neither [official_label] nor [label]; or a code is needed and the table
    has neither [clean_code] nor [obo_id].  The first check comes first. *)
Theorem normalize_df_Err df need_code x :
  normalize_df df need_code = Err x ↔
    (has_column "official_label" df || has_column "label" df = false ∧
     x = ValueError "DataFrame must contain 'official_label' or 'label'") ∨
    (has_column "official_label" df || has_column "label" df = true ∧
     need_code = true ∧
     has_column "clean_code" df || has_column "obo_id" df = false ∧
     x = ValueError
       "DataFrame must contain 'clean_code' or 'obo_id' for RAG/RAG_BIE strategies").
Proof.
  unfold normalize_df, official_label_fallback, clean_code_fallback.
  destruct (has_column "official_label" df) eqn:?,
    (has_column "label" df) eqn:?; simpl;
    rewrite ?has_column_assign_with; simpl;
    destruct need_code, (has_column "clean_code" df),
      (has_column "obo_id" df); simpl; naive_solver.
Qed.

Lemma normalize_df_Ok_normalized df need_code df' :
  normalize_df df need_code = Ok df' → normalized need_code df'.
Proof.
  intros (df2 & Hol & Hcc & _ & ->)%normalize_df_inv. split; simpl.
  { intros c. by apply keep_columns_elem_of. }
  intros r' c (r & -> & Hr)%list_elem_of_fmap Hc Hcol.
  rewrite lookup_str_row. apply has_column_spec in Hcol.
  case_decide; [eauto|].
  assert (c = "clean_code") as -> by set_solver.
  rewrite Hcol. simpl. eauto.
Qed.

(** The key of a kept row with string cells survives the conversion. *)
Lemma row_key_str_row need_code df r :
  "official_label" ∈ df_columns df →
  (need_code = true → "clean_code" ∈ df_columns df) →
  string_keys df → r ∈ kept_rows need_code df →
  row_key (keep_columns need_code) (str_row (has_column "clean_code" df) r) =
    row_key (keep_columns need_code) r.
Proof.
  intros Hol Hcc Hs Hr. unfold row_key. apply list_fmap_ext.
  intros _ c Hc%list_elem_of_lookup_2.
  destruct (elem_of_kept_rows _ _ _ _ Hr Hc) as [Hin [v Hv]].
  assert (∃ s, v = VStr s) as [s ->].
  { eapply Hs; [done| |done].
    unfold keep_columns, key_sources in *. destruct need_code; set_solver. }
  rewrite lookup_str_row. case_decide as Hc1; [subst; by rewrite Hv|].
  assert (c = "clean_code" ∧ need_code = true) as [-> ->].
  { unfold keep_columns in Hc. destruct need_code; set_solver. }
  apply has_column_spec in Hcc as ->; [|done]. simpl. by rewrite Hv.
Qed.

(** A table whose key cells are strings is normalised to a table without
    repeated keys. *)
Lemma normalize_df_NoDup df need_code df' :
  string_keys df → normalize_df df need_code = Ok df' →
  NoDup (row_key (keep_columns need_code) <$> df_rows df').
Proof.
  intros Hs (df2 & Hol & Hcc & Hs2 & ->)%normalize_df_inv. simpl.
  rewrite <-list_fmap_compose.
  erewrite list_fmap_ext; [apply (first_by_NoDup (row_key (keep_columns need_code)))|].
  intros _ r Hr%list_elem_of_lookup_2. simpl. apply row_key_str_row; auto.
Qed.

(** A table that has the key columns is cleaned as it is. *)
Lemma normalize_df_keyed df need_code :
  (∀ c, c ∈ keep_columns need_code → c ∈ df_columns df) →
  normalize_df df need_code =
    Ok (mkDataFrame (df_columns df)
          (str_row (has_column "clean_code" df) <$> kept_rows need_code df)).
Proof.
  intros Hcols.
  assert ("official_label" ∈ df_columns df) as Hol by (apply Hcols; left).
  unfold normalize_df, official_label_fallback, clean_code_fallback.
  apply has_column_spec in Hol as Hol'. rewrite Hol'. simpl.
  rewrite <-basic_cleaning_unfold by done.
  destruct need_code; [|done]. simpl.
  assert (has_column "clean_code" df = true) as ->; [|done].
  apply has_column_spec, Hcols. unfold keep_columns. set_solver.
Qed.

(** Normalising a normalised table without repeated keys changes nothing. *)
Lemma normalize_df_fixed df need_code :
  normalized need_code df →
  NoDup (row_key (keep_columns need_code) <$> df_rows df) →
  normalize_df df need_code = Ok df.
Proof.
  intros [Hcols Hstr] Hnd. rewrite normalize_df_keyed by done. f_equal.
  assert (kept_rows need_code df = df_rows df) as ->.
  { unfold kept_rows. rewrite filter_all; [by apply first_by_id|].
    apply Forall_forall. intros r Hr. apply Forall_fmap, Forall_forall.
    intros c Hc. assert (∃ s, r !! c = Some (VStr s)) as [s Hs];
      [|by exists (VStr s)].
    apply Hstr; [done| |by apply Hcols].
    unfold keep_columns in Hc. destruct need_code; set_solver. }
  destruct df as [cols rows]. simpl in *. f_equal.
  etrans; [|apply list_fmap_id]. apply list_fmap_ext.
  intros _ r Hr%list_elem_of_lookup_2. simpl. apply str_row_id.
  - apply Hstr; [done|set_solver|apply Hcols; left].
  - intros Hc%has_column_spec. apply Hstr; [done|set_solver|done].
Qed.

(** Every row of the result comes from a row of the table given whose key
    cells are not null, and holds their printed form. *)
Lemma normalize_df_rows df need_code df' r' :
  normalize_df df need_code = Ok df' → r' ∈ df_rows df' →
  ∃ r, r ∈ df_rows df ∧
    (∀ c, c ∈ keep_columns need_code →
       is_Some (key_cell df c r) ∧
       r' !! c = Some (VStr (astype_str (key_cell df c r)))) ∧
    (∀ c, c ∉ ["official_label"; "clean_code"] → r' !! c = r !! c).
Proof.
  intros (df1 & H1 & (df2 & H2 & [= <-])%res_bind_ok)%res_bind_ok.
  pose proof H1 as (Hol & _)%official_label_fallback_Ok.
  pose proof H2 as (Hcc & Hcols & _)%clean_code_fallback_Ok.
  assert (∀ c, c ∈ keep_columns need_code → c ∈ df_columns df2) as Hkeep.
  { intros c. apply keep_columns_elem_of; [by apply Hcols|done]. }
  rewrite basic_cleaning_unfold by (apply Hkeep; left).
  intros (r2 & -> & Hr2)%list_elem_of_fmap.
  destruct (fallback_rows _ _ _ _ r2 H1 H2) as (r & Hr & Hkeys & Hother).
  { by apply (elem_of_kept_rows need_code df2 r2 "official_label");
      [|left]. }
  exists r. split_and!; [done| |].
  - intros c Hc. rewrite <-(Hkeys c Hc).
    split; [by eapply elem_of_kept_rows|].
    pose proof (row_key_str_row_print need_code df2 r2 Hkeep) as Hkey.
    unfold row_key in Hkey. rewrite <-list_fmap_compose in Hkey.
    apply list_elem_of_lookup_1 in Hc as [i Hi].
    apply (f_equal (.!! i)) in Hkey. rewrite !list_lookup_fmap, Hi in Hkey.
    by injection Hkey.
  - intros c Hc. rewrite lookup_str_row, <-(Hother c Hc).
    rewrite decide_False, bool_decide_eq_false_2, andb_false_r; set_solver.
Qed.

(** A normalised table that the normalizer returns unchanged has no
    repeated key. *)
Lemma normalize_df_fixed_NoDup df need_code :
  normalized need_code df → normalize_df df need_code = Ok df →
  NoDup (row_key (keep_columns need_code) <$> df_rows df).
Proof.
  intros [Hcols Hstr] Hfix. rewrite normalize_df_keyed in Hfix by done.
  assert (Hrows := f_equal (λ m, match m with
                                 | Ok d => df_rows d
                                 | Err _ => []
                                 end) Hfix).
  simpl in Hrows. rewrite <-Hrows, <-list_fmap_compose.
  erewrite list_fmap_ext;
    [apply (first_by_NoDup (row_key (keep_columns need_code)))|].
  intros _ r [_ Hr]%list_elem_of_lookup_2%elem_of_first_by%list_elem_of_filter.
  unfold compose. rewrite str_row_id; [done|..].
  - apply Hstr; [done|set_solver|apply Hcols; left].
  - intros Hc%has_column_spec. apply Hstr; [done|set_solver|done].
Qed.

(** C23. What the normalizer guarantees: the table it returns has the column
    [official_label], and [clean_code] when a code is needed; in every row
    the cells of these columns are strings, none is null; it has no more
    rows than the table given; and every row of it comes from a row of the
    table given whose key cells (the cells of the key columns, or what the
    fallbacks compute for them) are not null: it holds their printed form
    under the key columns and the cells of that row elsewhere.  So a row
    with a null key cell is dropped, never kept under the text of a
    null. *)
Theorem normalize_df_normalized df need_code df' :
  normalize_df df need_code = Ok df' →
  normalized need_code df' ∧ length (df_rows df') ≤ length (df_rows df) ∧
  ∀ r', r' ∈ df_rows df' →
    ∃ r, r ∈ df_rows df ∧
      (∀ c, c ∈ keep_columns need_code →
         is_Some (key_cell df c r) ∧
         r' !! c = Some (VStr (astype_str (key_cell df c r)))) ∧
      (∀ c, c ∉ ["official_label"; "clean_code"] → r' !! c = r !! c).
Proof.
  intros Hn. split; [by eapply normalize_df_Ok_normalized|].
  split; [|intros r'; by apply normalize_df_rows].
  apply res_bind_ok in Hn as (df1 & H1 & (df2 & H2 & [= <-])%res_bind_ok).
  assert (length (df_rows df2) = length (df_rows df)) as <-.
  { unfold official_label_fallback, clean_code_fallback in *.
    repeat case_match; simplify_eq/=; by rewrite ?length_fmap. }
  unfold basic_cleaning, column_to_str, assign_with.
  case_match; simpl; rewrite !length_fmap;
    (etrans; [apply sublist_length, first_by_sublist|apply length_filter]).
Qed.

(** C24. Idempotence of normalisation, for tables whose key cells are
    strings: the result has no two rows with the same key, and normalising
    it again returns it unchanged. *)
Theorem normalize_df_idemp df need_code df' :
  string_keys df → normalize_df df need_code = Ok df' →
  NoDup (row_key (keep_columns need_code) <$> df_rows df') ∧
  normalize_df df' need_code = Ok df'.
Proof.
  intros Hs Hn.
  pose proof (normalize_df_NoDup df need_code df' Hs Hn) as Hnd.
  split; [done|]. apply normalize_df_fixed; [|done].
  by eapply normalize_df_Ok_normalized.
Qed.

(** C26. Without the hypothesis on the cells the normalizer neither removes
    every repeated key nor is idempotent: repetitions are dropped before
    the key columns are converted to strings (line 138), so when two rows
    of a table that has the key columns carry keys without nulls that
    differ and print alike (the number 1 and the string "1"), the table
    returned holds one key twice, and normalising it again does not return
    it. *)
Theorem normalize_df_repeated_key df need_code r1 r2 :
  (∀ c, c ∈ keep_columns need_code → c ∈ df_columns df) →
  r1 ∈ df_rows df → r2 ∈ df_rows df →
  Forall is_Some (row_key (keep_columns need_code) r1) →
  Forall is_Some (row_key (keep_columns need_code) r2) →
  row_key (keep_columns need_code) r1 ≠ row_key (keep_columns need_code) r2 →
  astype_str <$> row_key (keep_columns need_code) r1 =
    astype_str <$> row_key (keep_columns need_code) r2 →
  ∃ df', normalize_df df need_code = Ok df' ∧
    ¬ NoDup (row_key (keep_columns need_code) <$> df_rows df') ∧
    normalize_df df' need_code ≠ Ok df'.
Proof.
  intros Hcols Hr1 Hr2 Hs1 Hs2 Hne Hprint.
  eexists. split; [by apply normalize_df_keyed|].
  match goal with |- ¬ NoDup ?l ∧ _ => assert (¬ NoDup l) as Hdup end.
  { simpl. rewrite <-list_fmap_compose. intros Hnd.
    destruct (first_by_covers (row_key (keep_columns need_code))
                (filter (λ r, Forall is_Some (row_key (keep_columns need_code) r))
                   (df_rows df)) r1) as (y1 & Hy1 & Hk1);
      [by apply list_elem_of_filter|].
    destruct (first_by_covers (row_key (keep_columns need_code))
                (filter (λ r, Forall is_Some (row_key (keep_columns need_code) r))
                   (df_rows df)) r2) as (y2 & Hy2 & Hk2);
      [by apply list_elem_of_filter|].
    apply Hne. rewrite <-Hk1, <-Hk2. f_equal.
    apply (NoDup_fmap_eq _ _ y1 y2 Hnd); [done..|]. unfold compose.
    rewrite !row_key_str_row_print, Hk1, Hk2 by done.
    apply (f_equal (fmap (λ s, Some (VStr s)))) in Hprint.
    rewrite <-!list_fmap_compose in Hprint. exact Hprint. }
  split; [done|]. intros Hfix. apply Hdup.
  apply normalize_df_fixed_NoDup; [|done].
  eapply normalize_df_Ok_normalized. by apply normalize_df_keyed.
Qed.

End normalize.
