(* ===== verification/Engine.v ===== *)
(** * The engine: its fields and its constructor

    [OntoMapEngine.__init__] (lines 31-100) stores its arguments, drops the
    repetitions of the corpus, and validates the configuration:

    + [other_params] must have the key [test_or_prod];
    + [s2_strategy] must be ['lm'] or ['st'];
    + a stage-3 strategy, when given, must be ['rag'] or ['rag_bie'], and
      then [other_params] must hold a reference table [corpus_df], which is
      normalised at once ([Normalizer.v]) and whose distinct labels replace
      the corpus.

    The checks run in this order and the first that fails raises a
    [ValueError].  [other_params] is the keyword dictionary of the call:
    [OtherParams] has a field for each key the engine reads (lines 67-75,
    and lines 194-195 for [query_df]); a key that is absent is [None].  The
    value of [test_or_prod] is a string in the model; the engine only
    hands it on to the matcher, and a call that gives it another type is
    outside the model.

    The record [OntoMapEngine] is the object after construction.  The
    theorems give the error of every invalid configuration and the fields
    of the engine for every valid one. *)

From stdpp Require Import gmap.
From Stdlib Require Import QArith Qcanon.
From S2P Require Import Prelude PyStr PyDict Frame Normalizer.

Record OtherParams : Type := mkOtherParams {
  test_or_prod : option string;
  corpus_df : option DataFrame;
  query_df : option DataFrame;
}.

Record OntoMapEngine : Type := mkOntoMapEngine {
  method : string;
  category : string;
  query : list string;
  corpus : list string;
  topk : Z;
  s2_strategy : string;
  s3_strategy : option string;
  s3_threshold : Qc;
  cura_map : pydict string cell;
  other_params : OtherParams;
  _test_or_prod : string;
}.

(** The arguments of the constructor. *)
Record InitArgs : Type := mkInitArgs {
  arg_method : string;
  arg_category : string;
  arg_query : list string;
  arg_corpus : list string;
  arg_cura_map : pydict string cell;
  arg_topk : Z;
  arg_s2_strategy : string;
  arg_s3_strategy : option string;
  arg_s3_threshold : Qc;
  arg_other_params : OtherParams;
}.

(** The defaults of the signature (lines 37-40). *)
Definition default_topk : Z := 5.
Definition default_s2_strategy : string := "lm".
Definition default_s3_strategy : option string := None.
Definition default_s3_threshold : Qc := Q2Qc (9 # 10).

Section init.
Context `{PandasNumeric}.

(** The stage-3 part of the constructor (lines 79-90): the normalised
    reference table and the corpus derived from it. *)
Definition init_stage3 (s3 : string) (params : OtherParams) :
    res (OtherParams * list string) :=
  if negb (bool_decide (s3 ∈ ["rag"; "rag_bie"]))
  then Err (ValueError "s3_strategy must be 'rag', 'rag_bie', or None")
  else match corpus_df params with
  | None => Err (ValueError
      "corpus_df must be provided for 'rag'/'rag_bie' for running stage 3")
  | Some df =>
      df ← normalize_df df true;
      Ok (mkOtherParams (test_or_prod params) (Some df) (query_df params),
          unique_strings (astype_str <$> column_values "official_label" df))
  end.

Definition init (a : InitArgs) : res OntoMapEngine :=
  let corpus := dedup_keep_first (arg_corpus a) in
  match test_or_prod (arg_other_params a) with
  | None => Err (ValueError
      "test_or_prod value must be defined in other_params dictionary")
  | Some env =>
      if negb (bool_decide (arg_s2_strategy a ∈ ["lm"; "st"]))
      then Err (ValueError "s2_strategy must be 'lm' or 'st'")
      else
        '(params, corpus) ←
          match arg_s3_strategy a with
          | None => Ok (arg_other_params a, corpus)
          | Some s3 => init_stage3 s3 (arg_other_params a)
          end;
        Ok (mkOntoMapEngine (arg_method a) (arg_category a) (arg_query a)
              corpus (arg_topk a) (arg_s2_strategy a) (arg_s3_strategy a)
              (arg_s3_threshold a) (arg_cura_map a) params env)
  end.

(** ** The invariant of a constructed engine *)

(** What the constructor establishes: a stage-2 strategy of the two, a
    corpus without repetitions and, when stage 3 is configured, a stage-3
    strategy of the two and a normalised reference table whose labels are
    the corpus. *)
Definition valid_engine (e : OntoMapEngine) : Prop :=
  s2_strategy e ∈ ["lm"; "st"] ∧ NoDup (corpus e) ∧
  match s3_strategy e with
  | None => True
  | Some s3 =>
      s3 ∈ ["rag"; "rag_bie"] ∧
      ∃ df, corpus_df (other_params e) = Some df ∧ normalized true df ∧
        corpus e =
          unique_strings (astype_str <$> column_values "official_label" df)
  end.

(** The engine the constructor builds from checked arguments. *)
Definition engine_of (a : InitArgs) (env : string) (params : OtherParams)
    (corpus : list string) : OntoMapEngine :=
  mkOntoMapEngine (arg_method a) (arg_category a) (arg_query a) corpus
    (arg_topk a) (arg_s2_strategy a) (arg_s3_strategy a) (arg_s3_threshold a)
    (arg_cura_map a) params env.

Implicit Types (a : InitArgs) (e : OntoMapEngine) (params : OtherParams).

Lemma init_stage3_Ok s3 params params' corpus' :
  init_stage3 s3 params = Ok (params', corpus') ↔
    s3 ∈ ["rag"; "rag_bie"] ∧
    ∃ df df', corpus_df params = Some df ∧ normalize_df df true = Ok df' ∧
      params' = mkOtherParams (test_or_prod params) (Some df') (query_df params) ∧
      corpus' = unique_strings (astype_str <$> column_values "official_label" df').
Proof.
  unfold init_stage3. split.
  - case_bool_decide as Hs3; simpl; [|done].
    destruct (corpus_df params) as [df|]; [|done].
    destruct (normalize_df df true) as [df'|] eqn:Hn; simpl; [|done].
    intros [= <- <-]. eauto 10.
  - intros (Hs3 & df & df' & -> & Hn & -> & ->).
    rewrite bool_decide_eq_true_2 by done. simpl. by rewrite Hn.
Qed.

Lemma init_Ok a e :
  init a = Ok e ↔
    ∃ env, test_or_prod (arg_other_params a) = Some env ∧
      arg_s2_strategy a ∈ ["lm"; "st"] ∧
      match arg_s3_strategy a with
      | None =>
          e = engine_of a env (arg_other_params a)
                (dedup_keep_first (arg_corpus a))
      | Some s3 =>
          ∃ params corpus,
            init_stage3 s3 (arg_other_params a) = Ok (params, corpus) ∧
            e = engine_of a env params corpus
      end.
Proof.
  unfold init, engine_of. split.
  - destruct (test_or_prod (arg_other_params a)) as [env|]; [|done].
    case_bool_decide as Hs2; simpl; [|done]. intros Hi. exists env.
    split_and!; [done..|].
    destruct (arg_s3_strategy a) as [s3|]; simpl in *; [|by simplify_eq].
    destruct (init_stage3 s3 (arg_other_params a)) as [[params corpus]|];
      simplify_eq/=. eauto 10.
  - intros (env & -> & Hs2 & He). rewrite bool_decide_eq_true_2 by done. simpl.
    destruct (arg_s3_strategy a) as [s3|]; [|by subst].
    destruct He as (params & corpus & -> & ->). done.
Qed.

Lemma init_valid_engine a e : init a = Ok e → valid_engine e.
Proof.
  intros (env & _ & Hs2 & He)%init_Ok. unfold valid_engine.
  destruct (arg_s3_strategy a) as [s3|] eqn:Hs3.
  - destruct He as (params & corpus & (? & df & df' & ? & Hn & -> & ->)%init_stage3_Ok & ->).
    simpl. rewrite Hs3. split_and!; [done|apply first_occurrences_NoDup|done|].
    exists df'. split_and!; [done| |done].
    by eapply normalize_df_Ok_normalized.
  - subst e. simpl. rewrite Hs3.
    split_and!; [done|apply dedup_keep_first_NoDup|done].
Qed.

End init.

(** C20. Construction succeeds exactly on the valid configurations, and
    stores what it was given: [test_or_prod] is present, the stage-2
    strategy is ['lm'] or ['st'], and either no stage-3 strategy is given,
    and the corpus is the given corpus without its repetitions, or the
    stage-3 strategy is ['rag'] or ['rag_bie'], a reference table is given
    and can be normalised, the normalised table replaces the given one and
    its distinct labels replace the corpus. *)
Theorem init_spec `{PandasNumeric} a e :
  init a = Ok e ↔
    ∃ env, test_or_prod (arg_other_params a) = Some env ∧
      arg_s2_strategy a ∈ ["lm"; "st"] ∧
      match arg_s3_strategy a with
      | None =>
          e = engine_of a env (arg_other_params a)
                (dedup_keep_first (arg_corpus a))
      | Some s3 =>
          s3 ∈ ["rag"; "rag_bie"] ∧
          ∃ df df', corpus_df (arg_other_params a) = Some df ∧
            normalize_df df true = Ok df' ∧
            e = engine_of a env
                  (mkOtherParams (Some env) (Some df')
                     (query_df (arg_other_params a)))
                  (unique_strings
                     (astype_str <$> column_values "official_label" df'))
      end.
Proof.
  rewrite init_Ok. f_equiv. intros env.
  destruct (arg_s3_strategy a) as [s3|]; [|done]. split.
  - intros (Henv & ? & params & corpus & (? & df & df' & ? & ? & -> & ->)%init_stage3_Ok & ->).
    rewrite Henv. eauto 10.
  - intros (Henv & ? & ? & df & df' & ? & ? & ->). split_and!; [done..|].
    eexists _, _. split; [|done]. apply init_stage3_Ok. rewrite Henv. eauto 10.
Qed.

(** C22. Every engine the constructor returns is valid: its stage-2
    strategy is one of the two, its corpus has no repetition, and with a
    stage-3 strategy it holds a normalised reference table whose distinct
    labels are its corpus. *)
Theorem init_valid `{PandasNumeric} a e : init a = Ok e → valid_engine e.
Proof. apply init_valid_engine. Qed.

(** C21. The configuration errors, in the order of the checks: a missing
    [test_or_prod]; then a stage-2 strategy that is neither ['lm'] nor
    ['st']; then, with a stage-3 strategy, a strategy that is neither
    ['rag'] nor ['rag_bie'], a missing reference table, or the error of the
    normalizer. *)
Theorem init_Err `{PandasNumeric} a x :
  init a = Err x ↔
    match test_or_prod (arg_other_params a) with
    | None => x = ValueError
        "test_or_prod value must be defined in other_params dictionary"
    | Some _ =>
        if decide (arg_s2_strategy a ∈ ["lm"; "st"]) then
          match arg_s3_strategy a with
          | None => False
          | Some s3 =>
              if decide (s3 ∈ ["rag"; "rag_bie"]) then
                match corpus_df (arg_other_params a) with
                | None => x = ValueError
                    "corpus_df must be provided for 'rag'/'rag_bie' for running stage 3"
                | Some df => normalize_df df true = Err x
                end
              else x = ValueError "s3_strategy must be 'rag', 'rag_bie', or None"
          end
        else x = ValueError "s2_strategy must be 'lm' or 'st'"
    end.
Proof.
  unfold init, init_stage3.
  destruct (test_or_prod (arg_other_params a)); [|naive_solver].
  case_decide as Hs2.
  - rewrite bool_decide_eq_true_2 by done. simpl.
    destruct (arg_s3_strategy a) as [s3|]; simpl; [|done].
    case_decide as Hs3.
    + rewrite bool_decide_eq_true_2 by done. simpl.
      destruct (corpus_df (arg_other_params a)) as [df|]; simpl; [|naive_solver].
      destruct (normalize_df df true); simpl; naive_solver.
    + rewrite bool_decide_eq_false_2 by done. simpl. naive_solver.
  - rewrite bool_decide_eq_false_2 by done. simpl. naive_solver.
Qed.
