(* ===== verification/Adapter.v ===== *)
(** * The matcher adapter

    [_om_model_from_strategy] (lines 182-234) turns a strategy name into the
    matcher object of that strategy, built from the engine's fields and the
    list of queries; a name that is none of ['lm'], ['st'], ['rag'],
    ['rag_bie'] raises a [ValueError] at this point, whatever the
    constructor accepted.

    The four matcher classes are outside the program.  [OntoMapModel] is
    the constructor call: which class, with which arguments.  [Backend] is
    the one method the engine calls on the object, [get_match_results];
    it may return any table or raise.  The cascade is proved correct for
    every [Backend]; what a theorem needs of the tables a backend returns
    is stated as a hypothesis on that backend. *)

From stdpp Require Import gmap.
From Stdlib Require Import QArith Qcanon.
From S2P Require Import Prelude PyDict Frame Engine.

(** The keyword arguments every matcher class takes. *)
Record ModelArgs : Type := mkModelArgs {
  m_method : string;
  m_category : string;
  m_om_strategy : string;
  m_query : list string;
  m_corpus : list string;
  m_topk : Z;
}.

Inductive OntoMapModel : Type :=
  | OntoMapLM (args : ModelArgs) (from_tokenizer : bool)
  | OntoMapST (args : ModelArgs) (from_tokenizer : bool)
  | OntoMapRAG (args : ModelArgs) (corpus_df : option DataFrame)
  | OntoMapBIE (args : ModelArgs) (query_df corpus_df : option DataFrame).

#[export] Instance ModelArgs_eq_dec : EqDecision ModelArgs.
Proof. solve_decision. Defined.

#[export] Instance OntoMapModel_eq_dec : EqDecision OntoMapModel.
Proof. solve_decision. Defined.

(** [model.get_match_results(cura_map=..., topk=..., test_or_prod=...)]. *)
Class Backend : Type :=
  get_match_results :
    OntoMapModel → pydict string cell → Z → string → res DataFrame.

Definition model_args (e : OntoMapEngine) (strategy : string)
    (non_exact_query_list : list string) : ModelArgs :=
  mkModelArgs (method e) (category e) strategy non_exact_query_list
    (corpus e) (topk e).

Definition om_model_from_strategy (e : OntoMapEngine) (strategy : string)
    (non_exact_query_list : list string) : res OntoMapModel :=
  let query_df := query_df (other_params e) in
  let corpus_df := corpus_df (other_params e) in
  if decide (strategy = "lm")
  then Ok (OntoMapLM (model_args e "lm" non_exact_query_list) true)
  else if decide (strategy = "st")
  then Ok (OntoMapST (model_args e "st" non_exact_query_list) false)
  else if decide (strategy = "rag")
  then Ok (OntoMapRAG (model_args e "rag" non_exact_query_list) corpus_df)
  else if decide (strategy = "rag_bie")
  then Ok (OntoMapBIE (model_args e "rag_bie" non_exact_query_list)
             query_df corpus_df)
  else Err (ValueError
    ("strategy should be 'st', 'lm', 'rag', or 'rag_bie', got '"
       +:+ strategy +:+ "'")).

(** The strategies the adapter knows. *)
Definition known_strategies : list string := ["lm"; "st"; "rag"; "rag_bie"].

(** The queries a matcher object was built for. *)
Definition model_query (m : OntoMapModel) : list string :=
  match m with
  | OntoMapLM a _ | OntoMapST a _ | OntoMapRAG a _ | OntoMapBIE a _ _ => m_query a
  end.

Definition model_strategy (m : OntoMapModel) : string :=
  match m with
  | OntoMapLM a _ | OntoMapST a _ | OntoMapRAG a _ | OntoMapBIE a _ _ =>
      m_om_strategy a
  end.

Section adapter.
Implicit Types (e : OntoMapEngine) (strategy : string) (queries : list string).

Lemma om_model_from_strategy_known e strategy queries :
  strategy ∈ known_strategies →
  ∃ m, om_model_from_strategy e strategy queries = Ok m ∧
       model_query m = queries ∧ model_strategy m = strategy.
Proof.
  unfold known_strategies, om_model_from_strategy.
  rewrite !elem_of_cons, elem_of_nil.
  intros [->|[->|[->|[->|[]]]]]; simpl; eauto.
Qed.

Lemma om_model_from_strategy_unknown e strategy queries :
  strategy ∉ known_strategies →
  om_model_from_strategy e strategy queries =
    Err (ValueError ("strategy should be 'st', 'lm', 'rag', or 'rag_bie', got '"
                       +:+ strategy +:+ "'")).
Proof.
  unfold known_strategies, om_model_from_strategy.
  rewrite !not_elem_of_cons. intros (? & ? & ? & ? & _).
  by rewrite !decide_False.
Qed.

End adapter.

(** C34. The adapter knows exactly the four strategy names: for each of them
    it returns a matcher built for the given queries under that name, and
    for every other name it raises the [ValueError] that quotes the
    name. *)
Theorem om_model_from_strategy_error e strategy queries :
  if decide (strategy ∈ known_strategies)
  then ∃ m, om_model_from_strategy e strategy queries = Ok m ∧
            model_query m = queries ∧ model_strategy m = strategy
  else om_model_from_strategy e strategy queries =
         Err (ValueError
           ("strategy should be 'st', 'lm', 'rag', or 'rag_bie', got '"
              +:+ strategy +:+ "'")).
Proof.
  case_decide; [by apply om_model_from_strategy_known|
                by apply om_model_from_strategy_unknown].
Qed.
