(* ===== verification/Cascade.v ===== *)
(** * The cascade: [OntoMapEngine.run]

    [run] (lines 236-417) is the controller.  It computes the exact matches
    and their table, asks NumPy for the remaining queries and returns at
    once when there are none; else it runs the stage-2 matcher on the
    remaining queries and, when a stage-3 strategy is configured and the
    stage-2 table has a column [top1_score], re-runs the queries whose score
    is below the threshold with the stage-3 matcher; the tables are
    concatenated, the stage-2 rows of the re-run queries left out.

    Stage 2 (lines 277-303) and stage 3 (lines 364-394) are the same code on
    different queries, strategy and tag; [matcher_stage] is that code:

    + resolve the abbreviations of the queries ([Abbrev.v]);
    + build [replace_df], the two-column table of the queries and their
      expansions, and re-key the curation map by the expansions;
    + build the matcher ([Adapter.v]) for the expansions and call it;
    + rename the matcher's column [original_value] to [updated_value] and
      left-join [replace_df] with it on that column;
    + set [curated_ontology] to the curation map's label of the query, or
      "Not Found", and [stage] to the tag.

    [queries_for_s3] is the selection of lines 340-344: a row is escalated
    when its [top1_score], read as a number and taken as 0 when it is null
    or no number, is below the threshold.

    An exception anywhere in [run] is the [Err] the function returns. *)

From stdpp Require Import gmap.
From Stdlib Require Import QArith Qcanon.
From S2P Require Import Prelude PyStr PyDict Frame ExactMatch Abbrev Engine Adapter.

Section cascade.
Context `{PandasNumeric, AbbrevSource, Backend}.

(** The curation map under the expanded queries (lines 285-288). *)
Definition updated_cura_map (mapping_dict : pydict string string)
    (cura_map : pydict string cell) : pydict string cell :=
  dict_rekey mapping_dict cura_map.

(** [replace_df] (lines 280-283). *)
Definition replace_frame (queries updated_queries : list string) : DataFrame :=
  frame_of_pairs "original_value" "updated_value" (zip queries updated_queries).

(** Lines 297-303: the matcher's table joined back to the queries and
    tagged. *)
Definition merge_back (cura_map : pydict string cell) (stage : Z)
    (replace_df res : DataFrame) : Prelude.res DataFrame :=
  let res := rename_column "original_value" "updated_value" res in
  res ← merge_left replace_df res "updated_value";
  let res := assign_with "curated_ontology"
               (curated cura_map (Some (VStr "Not Found"))) res in
  Ok (assign_const "stage" (VNum (Qc_of_Z stage)) res).

Definition matcher_stage (e : OntoMapEngine) (strategy : string) (stage : Z)
    (queries : list string) : res DataFrame :=
  let mapping_dict := map_shortname_to_fullname queries in
  updated_queries ← mapM (λ q, dict_getitem q mapping_dict) queries;
  let replace_df := replace_frame queries updated_queries in
  let updated_cura_map := updated_cura_map mapping_dict (cura_map e) in
  model ← om_model_from_strategy e strategy updated_queries;
  res ← get_match_results model updated_cura_map (topk e) (_test_or_prod e);
  merge_back (cura_map e) stage replace_df res.

(** [pd.to_numeric(..., errors='coerce').fillna(0) < threshold] for the
    row's [top1_score]. *)
Definition low_confidence (threshold : Qc) (r : row) : bool :=
  bool_decide (default 0 (to_numeric (r !! "top1_score")) < threshold)%Qc.

(** [s2_res.loc[low_confidence_mask, 'original_value'].tolist()]. *)
Definition queries_for_s3 (threshold : Qc) (s2_res : DataFrame) : list string :=
  omap (λ r : row, cell_str (r !! "original_value"))
    (filter (λ r, low_confidence threshold r = true) (df_rows s2_res)).

(** [s2_res[~s2_res['original_value'].isin(queries_for_s3)]]. *)
Definition drop_escalated (escalated : list string) (s2_res : DataFrame) : DataFrame :=
  filter_rows (λ r, negb (isin escalated (r !! "original_value"))) s2_res.

(** The optional stage 3 (lines 308-417), given the tables of the first
    two stages. *)
Definition stage3 (e : OntoMapEngine) (exact_df s2_res : DataFrame) : res DataFrame :=
  match s3_strategy e with
  | None => Ok (concat_frames [exact_df; s2_res])
  | Some s3 =>
      if negb (has_column "top1_score" s2_res)
      then Ok (concat_frames [exact_df; s2_res])
      else
        let queries_for_s3 := queries_for_s3 (s3_threshold e) s2_res in
        if decide (queries_for_s3 = [])
        then Ok (concat_frames [exact_df; s2_res])
        else
          s3_res ← matcher_stage e s3 3 queries_for_s3;
          let s2_res_filtered := drop_escalated queries_for_s3 s2_res in
          Ok (concat_frames [exact_df; s2_res_filtered; s3_res])
  end.

Definition run (e : OntoMapEngine) : res DataFrame :=
  let exact_matches := exact_matching (query e) (corpus e) in
  let stage1_matches := exact_matches in
  let exact_df := exact_frame (cura_map e) (topk e) stage1_matches in
  let non_exact_matches_ls := setdiff1d (query e) stage1_matches in
  if decide (non_exact_matches_ls = [])
  then Ok exact_df
  else
    s2_res ← matcher_stage e (s2_strategy e) 2 non_exact_matches_ls;
    stage3 e exact_df s2_res.

(** ** The rows of a matcher stage *)

(** The row of [replace_df] for a query. *)
Definition query_row (q : string) : row :=
  set_cell "updated_value" (Some (VStr (expand q)))
    (set_cell "original_value" (Some (VStr q)) ∅).

(** What lines 301-303 do to one row of the join. *)
Definition tag_row (cura_map : pydict string cell) (stage : Z) (r : row) : row :=
  set_cell "stage" (Some (VNum (Qc_of_Z stage)))
    (set_cell "curated_ontology" (curated cura_map (Some (VStr "Not Found")) r) r).

(** The matcher's table with its key column renamed. *)
Definition keyed (raw : DataFrame) : DataFrame :=
  rename_column "original_value" "updated_value" raw.

(** The rows of the stage for one query: the rows of the matcher's table
    that carry the query's expansion, joined and tagged; one row with no
    matcher column when the matcher returned none for it. *)
Definition rows_of_query (cura_map : pydict string cell) (stage : Z)
    (raw : DataFrame) (q : string) : list row :=
  tag_row cura_map stage <$> join_row "updated_value" (keyed raw) (query_row q).

(** The rows of a stage over its queries. *)
Definition stage_rows (cura_map : pydict string cell) (stage : Z)
    (raw : DataFrame) (queries : list string) : list row :=
  queries ≫= rows_of_query cura_map stage raw.

(** The queries of a list of rows: their [original_value], one for each row
    that has one. *)
Definition originals (rows : list row) : list string :=
  omap (λ r : row, cell_str (r !! "original_value")) rows.

(** The names the engine itself gives to columns of a stage table. *)
Definition engine_columns : list string :=
  ["original_value"; "updated_value"; "stage"; "curated_ontology"].

(** A backend's table as the engine needs it: a column [original_value]
    and no column twice, none of them called [updated_value]. *)
Definition keyed_table (raw : DataFrame) : Prop :=
  "original_value" ∈ df_columns raw ∧ ("updated_value" ∉ df_columns raw) ∧
  NoDup (df_columns raw).

Section matcher_stage.
Implicit Types (e : OntoMapEngine) (q strategy : string) (stage : Z)
  (queries : list string) (raw df : DataFrame) (r : row)
  (cm : pydict string cell).

Lemma updated_queries_Ok queries :
  mapM (λ q, dict_getitem q (map_shortname_to_fullname queries)) queries =
    Ok (expand <$> queries).
Proof.
  apply mapM_res_Ok. intros q Hq. unfold dict_getitem.
  by rewrite map_shortname_to_fullname_get, decide_True.
Qed.

(** C17. The curation map the matcher is given (lines 285-288): an
    expansion has the curated label of the last entry of the curation map
    whose key is a query of the stage with that expansion, and no label when
    there is none.  Curated queries that are not queries of the stage are
    dropped, and of two curated queries with one expansion the later one
    decides. *)
Theorem updated_cura_map_spec queries cm u :
  dict_get u (updated_cura_map (map_shortname_to_fullname queries) cm) =
    last (filter (λ kv, kv.1 ∈ queries ∧ expand kv.1 = u) cm).*2.
Proof.
  unfold updated_cura_map. rewrite dict_get_rekey. do 2 f_equal.
  apply list_filter_iff. intros [k v]. simpl.
  rewrite map_shortname_to_fullname_get. case_decide; naive_solver.
Qed.

Lemma matcher_stage_unfold e strategy stage queries :
  matcher_stage e strategy stage queries =
    model ← om_model_from_strategy e strategy (expand <$> queries);
    raw ← get_match_results model
            (updated_cura_map (map_shortname_to_fullname queries) (cura_map e))
            (topk e) (_test_or_prod e);
    merge_back (cura_map e) stage
      (replace_frame queries (expand <$> queries)) raw.
Proof. unfold matcher_stage. by rewrite updated_queries_Ok. Qed.

Lemma df_rows_replace_frame queries :
  df_rows (replace_frame queries (expand <$> queries)) = query_row <$> queries.
Proof.
  unfold replace_frame, frame_of_pairs. simpl.
  by rewrite zip_fmap_r, <-list_fmap_compose.
Qed.

Lemma merge_back_inv cm stage replace_df raw df :
  merge_back cm stage replace_df raw = Ok df ↔
  ∃ joined, merge_left replace_df (keyed raw) "updated_value" = Ok joined ∧
    df = assign_const "stage" (VNum (Qc_of_Z stage))
           (assign_with "curated_ontology"
              (curated cm (Some (VStr "Not Found"))) joined).
Proof.
  unfold merge_back, keyed.
  destruct (merge_left replace_df _ "updated_value"); naive_solver.
Qed.

Lemma merge_back_Ok cm stage queries raw df :
  merge_back cm stage (replace_frame queries (expand <$> queries)) raw = Ok df →
  "updated_value" ∈ df_columns (keyed raw) ∧
  label_count "updated_value" (keyed raw) = 1 ∧
  df_rows df = queries ≫= rows_of_query cm stage raw.
Proof.
  intros (joined & (_ & ? & _ & ? & ->)%merge_left_Ok & ->)%merge_back_inv.
  split_and!; [done..|]. cbn [df_rows assign_const assign_with].
  rewrite df_rows_replace_frame, <-list_fmap_compose, list_fmap_bind.
  induction queries as [|q queries IH]; [done|]. csimpl.
  by rewrite fmap_app, IH.
Qed.

(** *** The cells of a stage row *)

Lemma lookup_query_row q c :
  query_row q !! c =
    if decide (c = "updated_value") then Some (VStr (expand q))
    else if decide (c = "original_value") then Some (VStr q) else None.
Proof.
  unfold query_row. rewrite !lookup_set_cell, lookup_empty.
  repeat case_decide; naive_solver.
Qed.

Lemma lookup_tag_row cm stage r c :
  tag_row cm stage r !! c =
    if decide (c = "stage") then Some (VNum (Qc_of_Z stage))
    else if decide (c = "curated_ontology")
         then curated cm (Some (VStr "Not Found")) r
         else r !! c.
Proof.
  unfold tag_row. rewrite !lookup_set_cell. repeat case_decide; naive_solver.
Qed.

Lemma curated_not_found cm r q :
  r !! "original_value" = Some (VStr q) →
  curated cm (Some (VStr "Not Found")) r =
    Some (default (VStr "Not Found") (mjoin (dict_get q cm))).
Proof. intros Hq. unfold curated. by rewrite Hq, series_map_str, fillna_Some. Qed.

(** A joined row keeps the two cells of the query's row. *)
Lemma join_query_row raw q j :
  j ∈ join_row "updated_value" (keyed raw) (query_row q) →
  j !! "original_value" = Some (VStr q) ∧
  j !! "updated_value" = Some (VStr (expand q)).
Proof.
  intros Hj. split.
  - erewrite join_row_lookup_left by (done || by rewrite lookup_query_row).
    by rewrite lookup_query_row.
  - erewrite join_row_lookup_left by (done || by rewrite lookup_query_row).
    by rewrite lookup_query_row.
Qed.

Lemma rows_of_query_cells cm stage raw q r :
  r ∈ rows_of_query cm stage raw q →
  r !! "original_value" = Some (VStr q) ∧
  r !! "updated_value" = Some (VStr (expand q)) ∧
  r !! "stage" = Some (VNum (Qc_of_Z stage)) ∧
  r !! "curated_ontology" =
    Some (default (VStr "Not Found") (mjoin (dict_get q cm))).
Proof.
  intros (j & -> & [Hq Hu]%join_query_row)%list_elem_of_fmap.
  rewrite !lookup_tag_row. simpl. by rewrite (curated_not_found _ _ q).
Qed.

(** The other cells come from the matcher's row, and are null when the
    matcher has no row for the expansion. *)
Lemma rows_of_query_matcher cm stage raw q r c :
  r ∈ rows_of_query cm stage raw q →
  c ∉ ["original_value"; "updated_value"; "stage"; "curated_ontology"] →
  (join_matches "updated_value" (keyed raw) (query_row q) = [] ∧ r !! c = None) ∨
  (∃ a, a ∈ df_rows (keyed raw) ∧
        a !! "updated_value" = Some (VStr (expand q)) ∧ r !! c = a !! c).
Proof.
  intros (j & -> & Hj)%list_elem_of_fmap Hc.
  rewrite !not_elem_of_cons in Hc. destruct Hc as (? & ? & ? & ? & _).
  rewrite lookup_tag_row, !decide_False by done.
  eapply join_row_lookup_right in Hj as [[? ->]|(a & Ha & ->)];
    [by left| |by rewrite lookup_query_row, !decide_False].
  right. apply list_elem_of_filter in Ha as [Ha ?].
  rewrite lookup_query_row in Ha. eauto.
Qed.

(** The same in terms of the matcher's own table, when it has the column
    [original_value]: the cell of a row that answers the query's expansion,
    a null when no row does. *)
Lemma rows_of_query_raw cm stage raw q r c :
  "original_value" ∈ df_columns raw →
  r ∈ rows_of_query cm stage raw q → c ∉ engine_columns →
  ((∀ a, a ∈ df_rows raw → a !! "original_value" ≠ Some (VStr (expand q))) ∧
   r !! c = None) ∨
  (∃ a, a ∈ df_rows raw ∧
        a !! "original_value" = Some (VStr (expand q)) ∧ r !! c = a !! c).
Proof.
  intros Hov Hr Hc. pose proof Hc as Hc'. unfold engine_columns in Hc'.
  rewrite !not_elem_of_cons in Hc'. destruct Hc' as (? & ? & _).
  assert (∀ a, rename_key "original_value" "updated_value" a !! "updated_value"
               = a !! "original_value") as Hkey
    by (intros a; by rewrite lookup_rename_key, decide_True).
  destruct (rows_of_query_matcher _ _ _ _ _ c Hr Hc)
    as [[Hnone ->]|(a' & Ha' & Hu & ->)];
    unfold keyed, join_matches in *;
    rewrite df_rows_rename_column, decide_True in * by done.
  - left. split; [|done]. intros a Ha Hq.
    eapply (filter_nil_not_elem_of _ _ _ Hnone), list_elem_of_fmap_2, Ha.
    by rewrite Hkey, lookup_query_row, decide_True.
  - right. apply list_elem_of_fmap in Ha' as (a & -> & Ha). exists a.
    rewrite Hkey in Hu. rewrite lookup_rename_key, !decide_False by done.
    done.
Qed.

(** The number of rows of a query: one for each row of the matcher's table
    that answers its expansion, one when none does. *)
Lemma rows_of_query_length cm stage raw q :
  "original_value" ∈ df_columns raw →
  length (rows_of_query cm stage raw q) =
    max 1 (length (filter (λ a : row,
                     a !! "original_value" = Some (VStr (expand q)))
             (df_rows raw))).
Proof.
  intros Hov. unfold rows_of_query. rewrite length_fmap, join_row_length.
  unfold join_matches, keyed. rewrite df_rows_rename_column, decide_True by done.
  rewrite filter_fmap, length_fmap. do 3 f_equal. apply list_filter_iff.
  intros r. by rewrite lookup_rename_key, decide_True, lookup_query_row.
Qed.

(** The rows of a stage that name a query: the rows of the query, as
    often as the query is among the queries of the stage. *)
Lemma length_stage_rows_of cm stage raw queries q :
  length (filter (λ r : row, r !! "original_value" = Some (VStr q))
            (stage_rows cm stage raw queries)) =
    length (filter (λ x, x = q) queries) *
    length (rows_of_query cm stage raw q).
Proof.
  unfold stage_rows. induction queries as [|q' queries IH]; [done|]. csimpl.
  rewrite filter_app, length_app, IH, filter_cons.
  destruct (decide (q' = q)) as [->|Hne].
  - rewrite filter_all; [simpl; lia|].
    apply Forall_forall. by intros r (? & _)%rows_of_query_cells.
  - rewrite filter_none; [simpl; lia|].
    apply Forall_forall. intros r (Hq & _)%rows_of_query_cells.
    rewrite Hq. congruence.
Qed.

Lemma rows_of_query_nonempty cm stage raw q : rows_of_query cm stage raw q ≠ [].
Proof.
  unfold rows_of_query. intros Hnil%fmap_nil_inv. by eapply join_row_nonempty.
Qed.

(** *** The queries of a stage table *)

Lemma originals_app rows1 rows2 :
  originals (rows1 ++ rows2) = originals rows1 ++ originals rows2.
Proof. apply omap_app. Qed.

Lemma elem_of_originals q (rows : list row) :
  q ∈ originals rows ↔ ∃ r, r ∈ rows ∧ r !! "original_value" = Some (VStr q).
Proof.
  unfold originals. rewrite list_elem_of_omap.
  by setoid_rewrite cell_str_Some.
Qed.

(** Every query of the stage, as often as it has rows. *)
Lemma originals_stage_rows cm stage raw queries :
  originals (stage_rows cm stage raw queries) =
    queries ≫= λ q, replicate (length (rows_of_query cm stage raw q)) q.
Proof.
  unfold stage_rows. induction queries as [|q queries IH]; [done|]. csimpl.
  rewrite originals_app, IH. f_equal. apply omap_const.
  intros r (Hq & _)%rows_of_query_cells. by rewrite Hq.
Qed.

Lemma elem_of_originals_stage_rows cm stage raw queries q :
  q ∈ originals (stage_rows cm stage raw queries) ↔ q ∈ queries.
Proof.
  rewrite originals_stage_rows. apply elem_of_bind_replicate.
  intros q' _. pose proof (rows_of_query_nonempty cm stage raw q').
  destruct (rows_of_query cm stage raw q'); simpl; [done|lia].
Qed.

Lemma elem_of_stage_rows cm stage raw queries r :
  r ∈ stage_rows cm stage raw queries ↔
    ∃ q, q ∈ queries ∧ r ∈ rows_of_query cm stage raw q.
Proof. unfold stage_rows. rewrite list_elem_of_bind. naive_solver. Qed.

(** *** When a stage succeeds, and with what *)

(** The columns of a stage table: the four of the engine and those of the
    matcher's table. *)
Lemma merge_back_all_columns cm stage queries raw df c :
  merge_back cm stage (replace_frame queries (expand <$> queries)) raw = Ok df →
  c ∈ df_columns df ↔ c ∈ engine_columns ∨ c ∈ df_columns raw.
Proof.
  intros (joined & (_ & _ & _ & _ & ->)%merge_left_Ok & ->)%merge_back_inv.
  etrans; [symmetry; apply has_column_spec|].
  unfold assign_const. rewrite !has_column_assign_with, !orb_true_iff.
  rewrite !bool_decide_eq_true, has_column_spec. simpl.
  unfold engine_columns, keyed.
  rewrite !elem_of_cons, elem_of_nil, list_elem_of_filter, elem_of_columns_rename.
  destruct (decide (c = "original_value")), (decide (c = "updated_value"));
    tauto.
Qed.

Lemma merge_back_columns cm stage queries raw df c :
  merge_back cm stage (replace_frame queries (expand <$> queries)) raw = Ok df →
  c ∉ engine_columns → c ∈ df_columns df ↔ c ∈ df_columns raw.
Proof. intros Hm%(merge_back_all_columns _ _ _ _ _ c) Hc. tauto. Qed.

(** The table of a stage is well formed when the matcher's table is: the
    join fails on a matcher table that has both key columns. *)
Lemma wf_merge_back cm stage queries raw df :
  wf_frame raw →
  merge_back cm stage (replace_frame queries (expand <$> queries)) raw = Ok df →
  wf_frame df.
Proof.
  intros Hraw (joined & Hjoin & ->)%merge_back_inv.
  apply wf_assign_with, wf_assign_with.
  pose proof Hjoin as (_ & _ & _ & Hcount & _)%merge_left_Ok.
  apply (wf_merge_left (replace_frame queries (expand <$> queries))
           (keyed raw) "updated_value");
    [|by apply wf_rename_column_once|done|].
  - by apply wf_frame_of_pairs.
  - intros c Hc [[-> _]|[Hne Hin]]%elem_of_columns_rename; [done|].
    unfold replace_frame in Hc. simpl in Hc. set_solver.
Qed.

Lemma merge_back_keyed cm stage queries raw :
  keyed_table raw →
  ∃ df, merge_back cm stage (replace_frame queries (expand <$> queries)) raw = Ok df.
Proof.
  intros (Hov & Huv & Hnd). eexists. apply merge_back_inv.
  eexists. split; [|done]. apply merge_left_Ok.
  assert ("updated_value" ∈ df_columns (keyed raw))
    by (apply elem_of_columns_rename; by left).
  split_and!; [set_solver|done|done| |done].
  apply label_count_NoDup; [|done]. by apply NoDup_columns_rename.
Qed.

End matcher_stage.

End cascade.
