(* ===== verification/Outcome.v ===== *)
(** * The outcomes of [run]

    [run] (lines 236-417) has four exits: after stage 1 when no query is
    left (line 272), after stage 2 when stage 3 is disabled (line 318), when
    the stage-2 table has no column [top1_score] (line 331) or when no row
    is below the threshold (line 361), and after stage 3 (line 417).  This
    file describes them uniformly.

    - [remaining] is the list of line 265, [exact_rows] the rows of
      [exact_df].
    - [ask] is the part of a matcher stage that can fail: building the
      matcher and calling it.
    - [escalation] is the list of queries stage 3 is run on, empty on the
      three exits after stage 2.

    [stage3_unfold] and [run_Ok_cascade] say that in every case the final
    table holds the rows of stage 1, then the stage-2 rows of the queries
    that are not escalated, then the stage-3 rows of the escalated queries.
    The theorems of [Correct.v] are read off this shape.  [run_total] and
    the error lemmas say when [run] succeeds and which error it raises;
    [run_wf] and [run_columns_cascade] carry the invariant of a table and
    the columns of the stage tables to the final table. *)

From stdpp Require Import gmap.
From Stdlib Require Import QArith Qcanon.
From S2P Require Import Prelude PyStr PyDict Frame ExactMatch Abbrev Engine Adapter Cascade.

Section outcome.
Context `{PandasNumeric, AbbrevSource, Backend}.

Definition exact_matches (e : OntoMapEngine) : list string :=
  exact_matching (query e) (corpus e).

Definition exact_rows (e : OntoMapEngine) : list row :=
  exact_row (cura_map e) (topk e) <$> exact_matches e.

Definition remaining (e : OntoMapEngine) : list string :=
  setdiff1d (query e) (exact_matches e).

(** The matcher of a stage, built and called. *)
Definition ask (e : OntoMapEngine) (strategy : string) (queries : list string) :
    res DataFrame :=
  model ← om_model_from_strategy e strategy (expand <$> queries);
  get_match_results model
    (updated_cura_map (map_shortname_to_fullname queries) (cura_map e))
    (topk e) (_test_or_prod e).

(** The queries stage 3 is run on. *)
Definition escalation (e : OntoMapEngine) (s2_res : DataFrame) : list string :=
  match s3_strategy e with
  | None => []
  | Some _ =>
      if has_column "top1_score" s2_res
      then queries_for_s3 (s3_threshold e) s2_res else []
  end.

(** The stage-2 table of an engine whose stage 2 did not run. *)
Definition no_stage2 : DataFrame := mkDataFrame [] [].

(** The strategy name stage 3 hands to the adapter. *)
Definition s3_name (e : OntoMapEngine) : string := default "" (s3_strategy e).

(** The shape of a successful run: the stage-2 table [s2_res] made from
    the answer [raw2] of the stage-2 matcher, the answer [raw3] of the
    stage-3 matcher, and the final table [df]. *)
Record cascade_of (e : OntoMapEngine) (s2_res raw2 raw3 df : DataFrame) : Prop := {
  cascade_s2_rows :
    df_rows s2_res = stage_rows (cura_map e) 2 raw2 (remaining e);
  cascade_s2_stage :
    remaining e ≠ [] →
    matcher_stage e (s2_strategy e) 2 (remaining e) = Ok s2_res;
  cascade_s2_ask :
    remaining e ≠ [] → ask e (s2_strategy e) (remaining e) = Ok raw2;
  cascade_s2_columns c :
    remaining e ≠ [] → c ∉ engine_columns →
    c ∈ df_columns s2_res ↔ c ∈ df_columns raw2;
  cascade_s2_none : remaining e = [] → s2_res = no_stage2;
  cascade_s3_ask :
    escalation e s2_res ≠ [] →
    ask e (s3_name e) (escalation e s2_res) = Ok raw3;
  cascade_rows :
    df_rows df =
      exact_rows e ++
      df_rows (drop_escalated (escalation e s2_res) s2_res) ++
      stage_rows (cura_map e) 3 raw3 (escalation e s2_res);
}.

(** A matcher table with a column [original_value] in which no cell occurs
    twice: every query is answered at most once. *)
Definition answers_once (raw : DataFrame) : Prop :=
  "original_value" ∈ df_columns raw ∧
  NoDup (column_values "original_value" raw).

(** A backend all of whose tables answer once. *)
Definition single_answer_backend : Prop :=
  ∀ model cm k env raw,
    get_match_results model cm k env = Ok raw → answers_once raw.

(** A backend that answers every call with a table the engine can join. *)
Definition keyed_backend : Prop :=
  ∀ model cm k env, ∃ raw,
    get_match_results model cm k env = Ok raw ∧ keyed_table raw.

(** A backend all of whose tables are well formed. *)
Definition wf_backend : Prop :=
  ∀ model cm k env raw,
    get_match_results model cm k env = Ok raw → wf_frame raw.

Implicit Types (e : OntoMapEngine) (q strategy : string) (stage : Z)
  (queries : list string) (raw df s2_res exact_df : DataFrame) (r : row).

(** ** A matcher stage *)

Lemma matcher_stage_ask e strategy stage queries :
  matcher_stage e strategy stage queries =
    raw ← ask e strategy queries;
    merge_back (cura_map e) stage (replace_frame queries (expand <$> queries)) raw.
Proof.
  rewrite matcher_stage_unfold. unfold ask.
  by destruct (om_model_from_strategy e strategy (expand <$> queries)).
Qed.

Lemma matcher_stage_Ok e strategy stage queries df :
  matcher_stage e strategy stage queries = Ok df →
  ∃ raw, ask e strategy queries = Ok raw ∧
    df_rows df = stage_rows (cura_map e) stage raw queries ∧
    ∀ c, c ∉ engine_columns → c ∈ df_columns df ↔ c ∈ df_columns raw.
Proof.
  rewrite matcher_stage_ask. intros (raw & Hask & Hm)%res_bind_ok.
  exists raw. split_and!; [done| |].
  - by apply merge_back_Ok in Hm as (_ & _ & ?).
  - intros c Hc. by eapply merge_back_columns.
Qed.

Lemma matcher_stage_total e strategy stage queries raw :
  ask e strategy queries = Ok raw → keyed_table raw →
  ∃ df, matcher_stage e strategy stage queries = Ok df.
Proof.
  intros Hask Hraw. rewrite matcher_stage_ask, Hask. by apply merge_back_keyed.
Qed.

Lemma matcher_stage_Err e strategy stage queries x :
  ask e strategy queries = Err x →
  matcher_stage e strategy stage queries = Err x.
Proof. intros Hask. by rewrite matcher_stage_ask, Hask. Qed.

Lemma ask_unknown e strategy queries :
  strategy ∉ known_strategies →
  ask e strategy queries =
    Err (ValueError ("strategy should be 'st', 'lm', 'rag', or 'rag_bie', got '"
                       +:+ strategy +:+ "'")).
Proof. intros ?. unfold ask. by rewrite om_model_from_strategy_unknown. Qed.

Lemma ask_known e strategy queries :
  strategy ∈ known_strategies →
  ∃ model, model_query model = expand <$> queries ∧
    model_strategy model = strategy ∧
    ask e strategy queries =
      get_match_results model
        (updated_cura_map (map_shortname_to_fullname queries) (cura_map e))
        (topk e) (_test_or_prod e).
Proof.
  intros (m & Hm & ? & ?)%(om_model_from_strategy_known e _ (expand <$> queries)).
  exists m. unfold ask. by rewrite Hm.
Qed.

(** ** Escalation *)

Lemma elem_of_queries_for_s3 threshold s2_res q :
  q ∈ queries_for_s3 threshold s2_res ↔
    ∃ r, r ∈ df_rows s2_res ∧ low_confidence threshold r = true ∧
         r !! "original_value" = Some (VStr q).
Proof.
  unfold queries_for_s3. rewrite list_elem_of_omap.
  setoid_rewrite list_elem_of_filter. setoid_rewrite cell_str_Some.
  naive_solver.
Qed.

Lemma escalation_subseteq e s2_res q :
  q ∈ escalation e s2_res → q ∈ originals (df_rows s2_res).
Proof.
  unfold escalation. destruct (s3_strategy e); [|by intros ?%elem_of_nil].
  destruct (has_column _ _); [|by intros ?%elem_of_nil].
  rewrite elem_of_queries_for_s3, elem_of_originals. naive_solver.
Qed.

Lemma escalation_no_stage2 e : escalation e no_stage2 = [].
Proof. unfold escalation. by destruct (s3_strategy e). Qed.

Lemma escalation_disabled e s2_res :
  s3_strategy e = None → escalation e s2_res = [].
Proof. unfold escalation. by intros ->. Qed.

Lemma escalation_unscored e s2_res :
  "top1_score" ∉ df_columns s2_res → escalation e s2_res = [].
Proof.
  intros Hc. unfold escalation. destruct (s3_strategy e); [|done].
  destruct (has_column _ _) eqn:E; [|done]. by apply has_column_spec in E.
Qed.

Lemma escalation_enabled e s2_res s3 :
  s3_strategy e = Some s3 → "top1_score" ∈ df_columns s2_res →
  escalation e s2_res = queries_for_s3 (s3_threshold e) s2_res.
Proof.
  intros Hs3 Hc%has_column_spec. unfold escalation. by rewrite Hs3, Hc.
Qed.

Lemma drop_escalated_nil s2_res : df_rows (drop_escalated [] s2_res) = df_rows s2_res.
Proof.
  unfold drop_escalated, filter_rows, isin. simpl. apply filter_all, Forall_true.
  intros r. by destruct (cell_str _).
Qed.

Lemma elem_of_drop_escalated escalated s2_res r :
  r ∈ df_rows (drop_escalated escalated s2_res) ↔
    r ∈ df_rows s2_res ∧
    ∀ q, r !! "original_value" = Some (VStr q) → q ∉ escalated.
Proof.
  unfold drop_escalated, filter_rows. simpl.
  rewrite list_elem_of_filter, negb_true_iff, <-not_true_iff_false, isin_spec.
  naive_solver.
Qed.

Lemma originals_drop_escalated escalated s2_res :
  originals (df_rows (drop_escalated escalated s2_res)) =
    filter (λ q, q ∉ escalated) (originals (df_rows s2_res)).
Proof.
  unfold drop_escalated, filter_rows, originals, isin. simpl.
  apply omap_filter_comm. intros r q ->.
  by rewrite negb_true_iff, bool_decide_eq_false.
Qed.

Lemma escalation_sublist e s2_res :
  escalation e s2_res `sublist_of` originals (df_rows s2_res).
Proof.
  unfold escalation. destruct (s3_strategy e); [|apply sublist_nil_l].
  destruct (has_column _ _); [|apply sublist_nil_l]. apply omap_filter_sublist.
Qed.

(** ** Backends that answer once *)

Lemma rows_of_query_once cm stage raw q :
  answers_once raw → length (rows_of_query cm stage raw q) = 1.
Proof.
  intros [Hov Hnd]. unfold rows_of_query. rewrite length_fmap, join_row_length.
  assert (length (join_matches "updated_value" (keyed raw) (query_row q)) ≤ 1);
    [|lia].
  unfold join_matches, keyed. rewrite df_rows_rename_column, decide_True by done.
  rewrite filter_fmap, length_fmap.
  rewrite (list_filter_iff _
             (λ r : row, r !! "original_value" = Some (VStr (expand q)))).
  - by apply (length_filter_NoDup_fmap (λ r : row, r !! "original_value")).
  - intros r. by rewrite lookup_rename_key, decide_True, lookup_query_row.
Qed.

Lemma originals_stage_rows_once cm stage raw queries :
  answers_once raw → originals (stage_rows cm stage raw queries) = queries.
Proof.
  intros Hraw. rewrite originals_stage_rows. apply bind_replicate_once.
  intros q _. by apply rows_of_query_once.
Qed.

Lemma ask_once e strategy queries raw :
  single_answer_backend → ask e strategy queries = Ok raw → answers_once raw.
Proof.
  intros Hb (model & _ & Hraw)%res_bind_ok. by eapply Hb.
Qed.

(** ** The exits of [run] *)

Lemma stage3_unfold e exact_df s2_res :
  stage3 e exact_df s2_res =
    if decide (escalation e s2_res = [])
    then Ok (concat_frames [exact_df; s2_res])
    else
      s3_res ← matcher_stage e (s3_name e) 3 (escalation e s2_res);
      Ok (concat_frames
            [exact_df; drop_escalated (escalation e s2_res) s2_res; s3_res]).
Proof.
  unfold stage3, escalation, s3_name. destruct (s3_strategy e) as [s3|]; [|done].
  destruct (has_column "top1_score" s2_res); simpl; [|done]. by case_decide.
Qed.

Lemma run_unfold e :
  run e =
    let exact_df := exact_frame (cura_map e) (topk e) (exact_matches e) in
    if decide (remaining e = []) then Ok exact_df
    else s2_res ← matcher_stage e (s2_strategy e) 2 (remaining e);
         stage3 e exact_df s2_res.
Proof. done. Qed.

Lemma stage3_rows e exact_df s2_res df :
  stage3 e exact_df s2_res = Ok df →
  ∃ raw3,
    (escalation e s2_res ≠ [] →
       ask e (s3_name e) (escalation e s2_res) = Ok raw3) ∧
    df_rows df =
      df_rows exact_df ++
      df_rows (drop_escalated (escalation e s2_res) s2_res) ++
      stage_rows (cura_map e) 3 raw3 (escalation e s2_res).
Proof.
  rewrite stage3_unfold. case_decide as Hesc.
  - intros [= <-]. exists no_stage2. split; [done|].
    rewrite Hesc, drop_escalated_nil. simpl. by rewrite !app_nil_r.
  - intros (s3_res & (raw3 & ? & Hrows & _)%matcher_stage_Ok & [= <-])%res_bind_ok.
    exists raw3. split; [done|]. simpl. by rewrite Hrows, app_nil_r.
Qed.

Lemma run_Ok_cascade e df :
  run e = Ok df → ∃ s2_res raw2 raw3, cascade_of e s2_res raw2 raw3 df.
Proof.
  rewrite run_unfold. simpl. case_decide as Hrest.
  - intros [= <-]. exists no_stage2, no_stage2, no_stage2.
    split; rewrite ?escalation_no_stage2, ?Hrest; try done.
    rewrite df_rows_exact_frame. simpl. by rewrite app_nil_r.
  - intros (s2_res & Hs2 & Hs3)%res_bind_ok.
    pose proof Hs2 as (raw2 & ? & ? & ?)%matcher_stage_Ok.
    apply stage3_rows in Hs3 as (raw3 & ? & Hrows).
    exists s2_res, raw2, raw3. split; try done; [auto|].
    by rewrite Hrows, df_rows_exact_frame.
Qed.

(** ** Success and failure *)

Lemma ask_keyed e strategy queries :
  keyed_backend → strategy ∈ known_strategies →
  ∃ raw, ask e strategy queries = Ok raw ∧ keyed_table raw.
Proof.
  intros Hb (model & _ & _ & ->)%(ask_known e _ queries). apply Hb.
Qed.

Lemma stage3_total e exact_df s2_res :
  keyed_backend → s3_name e ∈ known_strategies →
  ∃ df, stage3 e exact_df s2_res = Ok df.
Proof.
  intros Hb Hs3. rewrite stage3_unfold. case_decide; [by eexists|].
  destruct (ask_keyed e (s3_name e) (escalation e s2_res)) as (raw & Hask & ?);
    [done..|].
  destruct (matcher_stage_total e _ 3 _ raw Hask) as [s3_res ->]; [done|].
  by eexists.
Qed.

Lemma stage3_disabled e exact_df s2_res :
  s3_strategy e = None →
  stage3 e exact_df s2_res = Ok (concat_frames [exact_df; s2_res]).
Proof. intros Hs3. unfold stage3. by rewrite Hs3. Qed.

Lemma run_total e :
  keyed_backend → s2_strategy e ∈ known_strategies →
  (∀ s3, s3_strategy e = Some s3 → s3 ∈ known_strategies) →
  ∃ df, run e = Ok df.
Proof.
  intros Hb Hs2 Hs3. rewrite run_unfold. simpl. case_decide; [by eexists|].
  destruct (ask_keyed e (s2_strategy e) (remaining e)) as (raw & Hask & ?);
    [done..|].
  destruct (matcher_stage_total e _ 2 _ raw Hask) as [s2_res ->]; [done|].
  simpl. destruct (s3_strategy e) as [s3|] eqn:Hs; [|by rewrite stage3_disabled; eauto].
  apply stage3_total; [done|]. unfold s3_name. rewrite Hs. by apply Hs3.
Qed.

(** ** The table of a run: its invariant and its columns *)

Lemma matcher_stage_inv e strategy stage queries df :
  matcher_stage e strategy stage queries = Ok df →
  ∃ raw, ask e strategy queries = Ok raw ∧
    merge_back (cura_map e) stage
      (replace_frame queries (expand <$> queries)) raw = Ok df.
Proof. rewrite matcher_stage_ask. by intros ?%res_bind_ok. Qed.

Lemma ask_wf e strategy queries raw :
  wf_backend → ask e strategy queries = Ok raw → wf_frame raw.
Proof. intros Hb (model & _ & Hraw)%res_bind_ok. by eapply Hb. Qed.

Lemma matcher_stage_wf e strategy stage queries df :
  wf_backend → matcher_stage e strategy stage queries = Ok df → wf_frame df.
Proof.
  intros Hb (raw & ?%ask_wf & ?)%matcher_stage_inv; [|done].
  by eapply wf_merge_back.
Qed.

Lemma stage3_wf e exact_df s2_res df :
  wf_backend → wf_frame exact_df → wf_frame s2_res →
  stage3 e exact_df s2_res = Ok df → wf_frame df.
Proof.
  intros Hb ??. rewrite stage3_unfold. case_decide.
  - intros [= <-]. apply wf_concat_frames.
    by repeat first [apply Forall_nil_2|apply Forall_cons_2].
  - intros (s3_res & ?%matcher_stage_wf & [= <-])%res_bind_ok; [|done].
    apply wf_concat_frames.
    repeat first [apply Forall_nil_2|apply Forall_cons_2];
      [done|by apply wf_filter_rows|done].
Qed.

Lemma run_wf e df : wf_backend → run e = Ok df → wf_frame df.
Proof.
  intros Hb. rewrite run_unfold. simpl. case_decide.
  - intros [= <-]. apply wf_exact_frame.
  - intros (s2_res & ?%matcher_stage_wf & ?%stage3_wf)%res_bind_ok;
      auto with onto.
Qed.

Lemma matcher_stage_columns e strategy stage queries df raw c :
  matcher_stage e strategy stage queries = Ok df →
  ask e strategy queries = Ok raw →
  c ∈ df_columns df ↔ c ∈ engine_columns ∨ c ∈ df_columns raw.
Proof.
  intros (raw' & Hask & Hm)%matcher_stage_inv Hraw.
  rewrite Hask in Hraw. injection Hraw as <-.
  by eapply merge_back_all_columns.
Qed.

Lemma stage3_columns e exact_df s2_res raw3 df c :
  stage3 e exact_df s2_res = Ok df →
  (escalation e s2_res ≠ [] →
   ask e (s3_name e) (escalation e s2_res) = Ok raw3) →
  c ∈ df_columns df ↔
    c ∈ df_columns exact_df ∨ c ∈ df_columns s2_res ∨
    (escalation e s2_res ≠ [] ∧ (c ∈ engine_columns ∨ c ∈ df_columns raw3)).
Proof.
  rewrite stage3_unfold. case_decide as Hesc.
  - intros [= <-] _. rewrite elem_of_columns_concat. set_solver.
  - intros (s3_res & Hs3 & [= <-])%res_bind_ok Hask.
    pose proof (matcher_stage_columns _ _ _ _ _ _ c Hs3 (Hask Hesc)).
    rewrite elem_of_columns_concat. set_solver.
Qed.

(** The columns of the final table are those of the stage tables that
    were made. *)
Lemma run_columns_cascade e s2_res raw2 raw3 df c :
  run e = Ok df → cascade_of e s2_res raw2 raw3 df →
  c ∈ df_columns df ↔
    c ∈ exact_columns (topk e) ∨
    (remaining e ≠ [] ∧ (c ∈ engine_columns ∨ c ∈ df_columns raw2)) ∨
    (escalation e s2_res ≠ [] ∧ (c ∈ engine_columns ∨ c ∈ df_columns raw3)).
Proof.
  intros Hrun Hc. revert Hrun. rewrite run_unfold. simpl.
  case_decide as Hrest.
  - intros [= <-]. rewrite df_columns_exact_frame.
    rewrite (cascade_s2_none _ _ _ _ _ Hc Hrest), escalation_no_stage2. tauto.
  - rewrite (cascade_s2_stage _ _ _ _ _ Hc Hrest). simpl. intros Hs3.
    rewrite (stage3_columns _ _ _ raw3 _ _ Hs3 (cascade_s3_ask _ _ _ _ _ Hc)).
    rewrite df_columns_exact_frame.
    rewrite (matcher_stage_columns _ _ _ _ _ raw2 c
               (cascade_s2_stage _ _ _ _ _ Hc Hrest)
               (cascade_s2_ask _ _ _ _ _ Hc Hrest)).
    tauto.
Qed.

(** ** The queries of the stages *)

Lemma elem_of_exact_matches e q :
  q ∈ exact_matches e ↔ q ∈ query e ∧ Exists (same_key q) (corpus e).
Proof.
  unfold exact_matches. rewrite elem_of_exact_matching, Exists_exists.
  unfold same_key. naive_solver.
Qed.

Lemma elem_of_remaining e q :
  q ∈ remaining e ↔
    q ∈ np_str <$> query e ∧ q ∉ np_str <$> exact_matches e.
Proof. apply elem_of_setdiff1d. Qed.

(** No query is both matched exactly and left over. *)
Lemma remaining_not_exact e q : q ∈ remaining e → q ∉ exact_matches e.
Proof.
  intros [(q' & -> & _)%list_elem_of_fmap Hq]%elem_of_remaining Hex.
  apply Hq, list_elem_of_fmap. exists (np_str q'). by rewrite np_str_idemp.
Qed.

(** For queries that no NumPy array shortens, the exact matches and the
    remaining queries are the queries. *)
Lemma exact_or_remaining e q :
  Forall (λ q, np_str q = q) (query e) →
  q ∈ query e ↔ q ∈ exact_matches e ∨ q ∈ remaining e.
Proof.
  rewrite Forall_forall. intros Hnp. rewrite elem_of_remaining. split.
  - intros Hq. destruct (decide (q ∈ exact_matches e)) as [|Hne]; [by left|].
    right. split.
    + apply list_elem_of_fmap. exists q. by rewrite Hnp.
    + intros (x & -> & Hx)%list_elem_of_fmap. apply Hne.
      rewrite Hnp; [done|]. by apply elem_of_exact_matches in Hx as [? _].
  - intros [[? _]%elem_of_exact_matches|[(x & -> & Hx)%list_elem_of_fmap _]];
      [done|]. by rewrite Hnp.
Qed.

Lemma originals_exact_rows e : originals (exact_rows e) = exact_matches e.
Proof.
  unfold exact_rows, originals.
  induction (exact_matches e) as [|q l IH]; [done|]. csimpl.
  by rewrite exact_row_original, IH.
Qed.

(** When no query ends in a NUL character and no query that is no exact
    match is given twice, the exact matches and the remaining queries are
    the queries, each as often as it is given. *)
Lemma remaining_Permutation e :
  Forall (λ q, np_str q = q) (query e) →
  NoDup (filter (λ q, q ∉ exact_matches e) (query e)) →
  exact_matches e ++ remaining e ≡ₚ query e.
Proof.
  intros Hnp Hnd.
  trans (exact_matches e ++ filter (λ q, q ∉ exact_matches e) (query e)).
  - f_equiv. apply NoDup_Permutation; [apply setdiff1d_NoDup|done|].
    intros q. rewrite list_elem_of_filter, (exact_or_remaining e q Hnp).
    pose proof (remaining_not_exact e q). tauto.
  - unfold exact_matches at 1, exact_matching.
    rewrite (filter_ext_elem_of (λ q, q ∉ exact_matches e)
               (λ q, ¬ norm_key q ∈ corpus_normalized (corpus e))).
    + apply filter_app_complement.
    + intros q Hq. unfold exact_matches, exact_matching.
      rewrite list_elem_of_filter. tauto.
Qed.

Lemma run_exact_only e :
  remaining e = [] →
  run e = Ok (exact_frame (cura_map e) (topk e) (exact_matches e)).
Proof. intros Hrest. rewrite run_unfold. simpl. by rewrite decide_True. Qed.

Lemma run_stage2_Err e x :
  remaining e ≠ [] → ask e (s2_strategy e) (remaining e) = Err x →
  run e = Err x.
Proof.
  intros Hrest Hask. rewrite run_unfold. simpl. rewrite decide_False by done.
  by rewrite (matcher_stage_Err _ _ _ _ x).
Qed.

End outcome.
