(* ===== verification/Machine.v ===== *)
(** * The cascade as a state machine

    The control flow of the constructor and of [run] (lines 31-100 and
    236-417) is a machine with the states

    [INIT → STAGE1 → STAGE2 → (STAGE3 | DONE)]

    and a state [FAILED] for an exception.  A state holds what the code has
    computed when it reaches that point: [STAGE1] the engine, [STAGE2] also
    the table of stage 1 and the remaining queries, [STAGE3] also the table
    of stage 2, [DONE] the table [run] returns.

    The states are cut where the specification of the controller cuts
    them.  [INIT] is the constructor.  [STAGE1] is lines 249-272: the exact
    matches, the remaining queries, and the return when none remains.
    [STAGE2] is lines 276-331: the matcher stage, and the two returns that
    skip stage 3 (no stage-3 strategy, line 308; no column [top1_score],
    line 324).  [STAGE3] is lines 335-417: the selection of the queries
    below the threshold, the return when there is none (line 350), the
    second matcher stage and the final concatenation.

    - [step] is the transition relation, one rule for each branch of the
      code; [next] is the same as a function.
    - [rank] bounds the steps left; every step lowers it, so the machine
      stops after at most four steps ([machine_stops]).  The code has no
      loop: this is a property of the model's shape only.
    - [machine_refines_run]: from [STAGE1 e] the machine ends in
      [DONE df] exactly when [run e] returns [df], and in [FAILED x]
      exactly when [run e] raises [x].
    - [accounted] is the list of the queries a state holds, in its tables
      and in its list of pending queries; no step from [STAGE2] on loses or
      invents a query ([step_accounted]), so every reachable state accounts
      for exactly the exact matches and the remaining queries
      ([reachable_accounted]). *)

From stdpp Require Import gmap relations.
From Stdlib Require Import QArith Qcanon.
From S2P Require Import Prelude PyStr PyDict Frame ExactMatch Abbrev Normalizer.
From S2P Require Import Engine Adapter Cascade Outcome.

Inductive state : Type :=
  | INIT (a : InitArgs)
  | STAGE1 (e : OntoMapEngine)
  | STAGE2 (e : OntoMapEngine) (exact_df : DataFrame) (rest : list string)
  | STAGE3 (e : OntoMapEngine) (exact_df s2_res : DataFrame)
  | DONE (df : DataFrame)
  | FAILED (x : error).

(** The steps a state has left, at most. *)
Definition rank (s : state) : nat :=
  match s with
  | INIT _ => 4
  | STAGE1 _ => 3
  | STAGE2 _ _ _ => 2
  | STAGE3 _ _ _ => 1
  | DONE _ | FAILED _ => 0
  end.

(** The queries a state holds. *)
Definition accounted (s : state) : list string :=
  match s with
  | STAGE2 _ exact_df rest => originals (df_rows exact_df) ++ rest
  | STAGE3 _ exact_df s2_res =>
      originals (df_rows exact_df) ++ originals (df_rows s2_res)
  | DONE df => originals (df_rows df)
  | INIT _ | STAGE1 _ | FAILED _ => []
  end.

Definition failed (s : state) : Prop :=
  match s with
  | FAILED _ => True
  | _ => False
  end.

(** The state a result stands for. *)
Definition outcome (m : res DataFrame) : state :=
  match m with
  | Ok df => DONE df
  | Err x => FAILED x
  end.

Section machine.
Context `{PandasNumeric, AbbrevSource, Backend}.

Definition exact_table (e : OntoMapEngine) : DataFrame :=
  exact_frame (cura_map e) (topk e) (exact_matches e).

Definition next (s : state) : option state :=
  match s with
  | INIT a =>
      Some match init a with
           | Ok e => STAGE1 e
           | Err x => FAILED x
           end
  | STAGE1 e =>
      Some (if decide (remaining e = []) then DONE (exact_table e)
            else STAGE2 e (exact_table e) (remaining e))
  | STAGE2 e exact_df rest =>
      Some match matcher_stage e (s2_strategy e) 2 rest with
           | Err x => FAILED x
           | Ok s2_res =>
               match s3_strategy e with
               | None => DONE (concat_frames [exact_df; s2_res])
               | Some _ =>
                   if negb (has_column "top1_score" s2_res)
                   then DONE (concat_frames [exact_df; s2_res])
                   else STAGE3 e exact_df s2_res
               end
           end
  | STAGE3 e exact_df s2_res =>
      let queries_for_s3 := queries_for_s3 (s3_threshold e) s2_res in
      Some (if decide (queries_for_s3 = [])
            then DONE (concat_frames [exact_df; s2_res])
            else
              match matcher_stage e (s3_name e) 3 queries_for_s3 with
              | Err x => FAILED x
              | Ok s3_res =>
                  DONE (concat_frames
                          [exact_df; drop_escalated queries_for_s3 s2_res;
                           s3_res])
              end)
  | DONE _ | FAILED _ => None
  end.

Inductive step : relation state :=
  | step_init a e : init a = Ok e → step (INIT a) (STAGE1 e)
  | step_init_failed a x : init a = Err x → step (INIT a) (FAILED x)
  | step_exact_only e :
      remaining e = [] → step (STAGE1 e) (DONE (exact_table e))
  | step_stage1 e :
      remaining e ≠ [] →
      step (STAGE1 e) (STAGE2 e (exact_table e) (remaining e))
  | step_stage2_failed e exact_df rest x :
      matcher_stage e (s2_strategy e) 2 rest = Err x →
      step (STAGE2 e exact_df rest) (FAILED x)
  | step_stage2_disabled e exact_df rest s2_res :
      matcher_stage e (s2_strategy e) 2 rest = Ok s2_res →
      s3_strategy e = None →
      step (STAGE2 e exact_df rest) (DONE (concat_frames [exact_df; s2_res]))
  | step_stage2_unscored e exact_df rest s2_res s3 :
      matcher_stage e (s2_strategy e) 2 rest = Ok s2_res →
      s3_strategy e = Some s3 →
      has_column "top1_score" s2_res = false →
      step (STAGE2 e exact_df rest) (DONE (concat_frames [exact_df; s2_res]))
  | step_stage2 e exact_df rest s2_res s3 :
      matcher_stage e (s2_strategy e) 2 rest = Ok s2_res →
      s3_strategy e = Some s3 →
      has_column "top1_score" s2_res = true →
      step (STAGE2 e exact_df rest) (STAGE3 e exact_df s2_res)
  | step_stage3_confident e exact_df s2_res :
      queries_for_s3 (s3_threshold e) s2_res = [] →
      step (STAGE3 e exact_df s2_res)
        (DONE (concat_frames [exact_df; s2_res]))
  | step_stage3_failed e exact_df s2_res x :
      queries_for_s3 (s3_threshold e) s2_res ≠ [] →
      matcher_stage e (s3_name e) 3
        (queries_for_s3 (s3_threshold e) s2_res) = Err x →
      step (STAGE3 e exact_df s2_res) (FAILED x)
  | step_stage3 e exact_df s2_res s3_res :
      queries_for_s3 (s3_threshold e) s2_res ≠ [] →
      matcher_stage e (s3_name e) 3
        (queries_for_s3 (s3_threshold e) s2_res) = Ok s3_res →
      step (STAGE3 e exact_df s2_res)
        (DONE (concat_frames
                 [exact_df;
                  drop_escalated (queries_for_s3 (s3_threshold e) s2_res) s2_res;
                  s3_res])).

(** [n] steps of the machine, fewer when it stops before. *)
Fixpoint exec (n : nat) (s : state) : state :=
  match n with
  | 0 => s
  | S n' =>
      match next s with
      | Some s' => exec n' s'
      | None => s
      end
  end.

Implicit Types (s : state) (e : OntoMapEngine) (a : InitArgs).

(** ** The relation and the function *)

Lemma step_next s s' : step s s' ↔ next s = Some s'.
Proof.
  split.
  - destruct 1; simpl; f_equal;
      repeat match goal with H : ?x = _ |- context [?x] => rewrite H end;
      simpl; by rewrite ?decide_True, ?decide_False by done.
  - destruct s; simpl; intros [= <-]; repeat case_match;
      try match goal with
          | H : negb _ = true |- _ => apply negb_true_iff in H
          | H : negb _ = false |- _ => apply negb_false_iff in H
          end;
      by eauto using step.
Qed.

Lemma step_deterministic s s1 s2 : step s s1 → step s s2 → s1 = s2.
Proof. rewrite !step_next. congruence. Qed.

Lemma step_rank s s' : step s s' → rank s' < rank s.
Proof. destruct 1; simpl; lia. Qed.

Lemma next_None s : next s = None ↔ rank s = 0.
Proof. by destruct s. Qed.

Lemma exec_rtc n s : rtc step s (exec n s).
Proof.
  revert s. induction n as [|n IH]; intros s; simpl; [done|].
  destruct (next s) as [s'|] eqn:Hs; [|done].
  eapply rtc_l; [by apply step_next|done].
Qed.

Lemma exec_rank n s : rank s ≤ n → rank (exec n s) = 0.
Proof.
  revert s. induction n as [|n IH]; intros s Hs; simpl; [lia|].
  destruct (next s) as [s'|] eqn:Hn; [|by apply next_None].
  apply IH. apply step_next, step_rank in Hn. lia.
Qed.

(** A run of the machine that has stopped is the run [exec] computes. *)
Lemma rtc_final_exec n s s' :
  rtc step s s' → rank s' = 0 → rank s ≤ n → s' = exec n s.
Proof.
  intros Hrtc Hfin. revert n. induction Hrtc as [s|s s1 s2 Hstep _ IH]; intros n Hn.
  - destruct n; [done|]. simpl. by apply next_None in Hfin as ->.
  - pose proof (step_rank _ _ Hstep). destruct n; [lia|]. simpl.
    apply step_next in Hstep as ->. apply IH; [done|lia].
Qed.

(** ** The machine and [run] *)

Lemma exec_run e : exec 3 (STAGE1 e) = outcome (run e).
Proof.
  rewrite run_unfold. simpl. unfold exact_table.
  case_decide; simpl; [done|].
  destruct (matcher_stage e (s2_strategy e) 2 (remaining e)) as [s2_res|];
    simpl; [|done].
  unfold stage3. destruct (s3_strategy e) as [s3|] eqn:Hs3; simpl; [|done].
  destruct (has_column "top1_score" s2_res); simpl; [|done].
  case_decide; simpl; [done|]. unfold s3_name. rewrite Hs3. simpl.
  by destruct (matcher_stage e s3 3 (queries_for_s3 (s3_threshold e) s2_res)).
Qed.

(** ** The queries of a state *)

Lemma matcher_stage_originals e strategy stage queries df q :
  matcher_stage e strategy stage queries = Ok df →
  q ∈ originals (df_rows df) ↔ q ∈ queries.
Proof.
  intros (raw & _ & -> & _)%matcher_stage_Ok.
  apply elem_of_originals_stage_rows.
Qed.

Lemma elem_of_originals_concat dfs q :
  q ∈ originals (df_rows (concat_frames dfs)) ↔
    ∃ df, df ∈ dfs ∧ q ∈ originals (df_rows df).
Proof.
  unfold concat_frames. simpl. rewrite elem_of_originals.
  setoid_rewrite list_elem_of_bind. setoid_rewrite elem_of_originals.
  naive_solver.
Qed.

(** The queries of the stage-2 table are those whose rows stay and those
    that are escalated. *)
Lemma elem_of_escalated_split threshold s2_res q :
  q ∈ originals (df_rows
        (drop_escalated (queries_for_s3 threshold s2_res) s2_res)) ∨
    q ∈ queries_for_s3 threshold s2_res ↔
  q ∈ originals (df_rows s2_res).
Proof.
  rewrite originals_drop_escalated, list_elem_of_filter.
  assert (q ∈ queries_for_s3 threshold s2_res → q ∈ originals (df_rows s2_res)).
  { rewrite elem_of_queries_for_s3, elem_of_originals. naive_solver. }
  destruct (decide (q ∈ queries_for_s3 threshold s2_res)); tauto.
Qed.

Lemma rtc_rank s s' : rtc step s s' → rank s' ≤ rank s.
Proof.
  induction 1 as [|s s1 s2 Hstep%step_rank _ IH]; [done|]. lia.
Qed.

Lemma rtc_same_rank s s' : rtc step s s' → rank s' = rank s → s' = s.
Proof.
  destruct 1 as [|s s1 s2 Hstep%step_rank Hrtc%rtc_rank]; [done|]. lia.
Qed.

(** The queries of two tables, concatenated. *)
Lemma elem_of_originals_concat2 df1 df2 q :
  q ∈ originals (df_rows (concat_frames [df1; df2])) ↔
    q ∈ originals (df_rows df1) ∨ q ∈ originals (df_rows df2).
Proof. rewrite elem_of_originals_concat. set_solver. Qed.

(** No step after stage 1 loses or invents a query. *)
Lemma step_accounted s s' q :
  step s s' → rank s ≤ 2 → ¬ failed s' →
  q ∈ accounted s' ↔ q ∈ accounted s.
Proof.
  destruct 1 as [| | | |
                 |e exact_df rest s2_res Hs2 _
                 |e exact_df rest s2_res s3 Hs2 _ _
                 |e exact_df rest s2_res s3 Hs2 _ _
                 |e exact_df s2_res _
                 |
                 |e exact_df s2_res s3_res _ Hs3];
    cbn [accounted rank failed]; try lia; try tauto; intros _ _;
    rewrite ?elem_of_originals_concat2, ?elem_of_app;
    rewrite ?(matcher_stage_originals _ _ _ _ _ q Hs2); try done.
  rewrite <-(elem_of_escalated_split (s3_threshold e) s2_res q).
  rewrite <-(matcher_stage_originals _ _ _ _ _ q Hs3).
  rewrite elem_of_originals_concat. set_solver.
Qed.

Lemma reachable_accounts e s q :
  rtc step (STAGE1 e) s → rank s ≤ 2 → ¬ failed s →
  q ∈ accounted s ↔ q ∈ exact_matches e ∨ q ∈ remaining e.
Proof.
  intros Hrtc. pattern s. revert s Hrtc. apply rtc_ind_r; [simpl; lia|].
  intros s1 s2 Hrtc Hstep IH Hrank Hfail.
  destruct (decide (rank s1 ≤ 2)) as [Hs1|Hs1].
  - rewrite (step_accounted _ _ q Hstep Hs1 Hfail). apply IH; [done|].
    by destruct Hstep.
  - pose proof (rtc_rank _ _ Hrtc). simpl in *.
    assert (s1 = STAGE1 e) as -> by (apply rtc_same_rank; [done|simpl; lia]).
    inversion Hstep as [| |? Hrest|? Hrest| | | | | | |]; subst; simpl;
      unfold exact_table; rewrite df_rows_exact_frame;
      fold (exact_rows e); rewrite originals_exact_rows.
    + rewrite Hrest. set_solver.
    + by rewrite elem_of_app.
Qed.

End machine.

(** The machine stops: from every state it reaches a state without a
    successor in at most four steps, and no sequence of steps from a state
    is longer than the rank of the state. *)
Lemma machine_stops `{PandasNumeric, AbbrevSource, Backend} s :
  next (exec 4 s) = None ∧ ∀ n s', nsteps step n s s' → n ≤ rank s.
Proof.
  split; [apply next_None, exec_rank; destruct s; simpl; lia|].
  intros n s' Hn. induction Hn as [|n s1 s2 s3 Hstep%step_rank _ IH]; lia.
Qed.

(** C8. The machine is [run]: started on an engine it stops in [DONE df]
    exactly when [run] returns the table [df] and in [FAILED x] exactly
    when [run] raises [x]; started on the arguments of the constructor it
    stops in [DONE df] exactly when the constructor returns an engine on
    which [run] returns [df]. *)
Theorem machine_refines_run `{PandasNumeric, AbbrevSource, Backend} e a df x :
  (rtc step (STAGE1 e) (DONE df) ↔ run e = Ok df) ∧
  (rtc step (STAGE1 e) (FAILED x) ↔ run e = Err x) ∧
  (rtc step (INIT a) (DONE df) ↔ ∃ e', init a = Ok e' ∧ run e' = Ok df).
Proof.
  assert (∀ e s, rank s = 0 → rtc step (STAGE1 e) s ↔ s = outcome (run e)) as Hrun.
  { intros e' s Hs. rewrite <-exec_run. split; [|intros ->; apply exec_rtc].
    intros Hrtc. by apply rtc_final_exec. }
  split_and!.
  - rewrite Hrun by done. destruct (run e); naive_solver.
  - rewrite Hrun by done. destruct (run e); naive_solver.
  - split.
    + intros Hrtc. inversion Hrtc as [|? s1 ? Hstep Hrest]; subst.
      inversion Hstep; subst.
      * eexists. split; [done|]. apply Hrun in Hrest; [|done].
        by destruct (run _); simplify_eq/=.
      * inversion Hrest as [|? ? ? Hfailed]; subst. inversion Hfailed.
    + intros (e' & Hinit & Hdf). eapply rtc_l; [by apply step_init|].
      apply Hrun; [done|]. by rewrite Hdf.
Qed.

(** C9. No query is lost or invented between the states: every state the
    machine reaches after stage 1 without failing accounts, in its tables
    and its pending list together, for exactly the exact matches and the
    queries NumPy left for stage 2. *)
Theorem reachable_accounted `{PandasNumeric, AbbrevSource, Backend} e s q :
  rtc step (STAGE1 e) s → rank s ≤ 2 → ¬ failed s →
  q ∈ accounted s ↔ q ∈ exact_matches e ∨ q ∈ remaining e.
Proof. apply reachable_accounts. Qed.
