(* ===== verification/Samples.v ===== *)
(** * Sample collaborators

    The engine's collaborators are parameters of the model: the numeric
    conversions of pandas ([PandasNumeric]), the abbreviation file
    ([AbbrevSource]) and the matchers ([Backend]).  This file gives small
    instances of each, on which the examples of the development evaluate.
    They model no code of the repository.

    - [decimal_numeric] reads unsigned decimal numerals such as ["0.4"] and
      prints a number as the integer part of it.
    - [no_abbrev] is a file system without the abbreviation file;
      [oncotree_abbrev] one whose file has three rows.
    - [scored_backend score] answers every query of the model with one row,
      in the order of the queries; [distinct_backend score] answers every
      distinct query once; [unscored_backend] returns no score column;
      [failing_backend] raises. *)

From stdpp Require Import gmap pretty.
From Stdlib Require Import QArith Qcanon.
From S2P Require Import Prelude PyStr PyDict Frame Normalizer Abbrev Engine Adapter.

(** ** Numbers *)

Definition digit_value (c : ascii) : option Z :=
  if isdigit c then Some (Z.of_N (code c) - 48)%Z else None.

(** The digits of [s] read as a natural number, after the digits [acc]. *)
Fixpoint read_digits (acc : Z) (s : string) : option Z :=
  match s with
  | EmptyString => Some acc
  | String c s' => d ← digit_value c; read_digits (10 * acc + d) s'
  end.

Fixpoint split_at_dot (s : string) : string * option string :=
  match s with
  | EmptyString => (EmptyString, None)
  | String c s' =>
      if bool_decide (c = "."%char) then (EmptyString, Some s')
      else let '(a, b) := split_at_dot s' in (String c a, b)
  end.

Definition read_decimal (s : string) : option Qc :=
  let '(int_part, frac_part) := split_at_dot s in
  if decide (int_part = EmptyString) then None else
  n ← read_digits 0 int_part;
  match frac_part with
  | None => Some (Qc_of_Z n)
  | Some f =>
      m ← read_digits 0 f;
      Some (Qc_of_Z n + Q2Qc (m # Pos.of_nat (10 ^ String.length f)))%Qc
  end.

Definition decimal_numeric : PandasNumeric :=
  {| str_to_num := read_decimal;
     num_to_str := λ q, pretty (Qnum (this q) / Zpos (Qden (this q)))%Z |}.

(** ** The abbreviation file *)

Definition no_abbrev : AbbrevSource := λ _, None.

Definition oncotree_abbrev : AbbrevSource := λ path,
  if decide (path = ABBR_DICT_PATH)
  then Some [("LUAD", "Lung Adenocarcinoma"); (" BRCA ", "Invasive Breast Carcinoma ");
             ("LUAD", "Lung Adenocarcinoma (NOS)")]
  else None.

(** ** Matchers *)

(** The row of a matcher for one query. *)
Definition answer_row (score : string → cell) (q : string) : row :=
  set_cell "top1_score" (score q)
    (set_cell "top1_match" (Some (VStr (lower q)))
       (set_cell "original_value" (Some (VStr q)) ∅)).

Definition answer_columns : list string :=
  ["original_value"; "top1_match"; "top1_score"].

Definition scored_backend (score : string → cell) : Backend := λ m _ _ _,
  Ok (mkDataFrame answer_columns (answer_row score <$> model_query m)).

Definition distinct_backend (score : string → cell) : Backend := λ m _ _ _,
  Ok (mkDataFrame answer_columns
        (answer_row score <$> first_occurrences (model_query m))).

Definition unscored_backend : Backend := λ m _ _ _,
  Ok (frame_of_column "original_value" ((λ q, Some (VStr q)) <$> model_query m)).

Definition failing_backend : Backend := λ _ _ _ _,
  Err (BackendError "model not available").

(** A score for the examples: 0.4 for "XYZ", 0.95 for everything else. *)
Definition sample_score (q : string) : cell :=
  if decide (q = "XYZ") then Some (VStr "0.4") else Some (VNum (Q2Qc (95 # 100))).

(** ** Engines *)

Definition sample_params : OtherParams :=
  mkOtherParams (Some "test") None None.

Definition sample_table : DataFrame :=
  mkDataFrame ["label"; "obo_id"]
    [ {[ "label" := VStr "Lung Cancer"; "obo_id" := VStr "NCIT:C4878" ]};
      {[ "label" := VStr "Breast Cancer"; "obo_id" := VStr "NCIT:C4872" ]};
      {[ "label" := VStr "Lung Cancer"; "obo_id" := VStr "NCIT:C4878" ]};
      {[ "label" := VStr "Unknown" ]} ].

Definition sample_cura_map : pydict string cell :=
  [("Lung Cancer", Some (VStr "NCIT:C4878")); ("XYZ", Some (VStr "NCIT:C0000"))].

(** An engine as the constructor leaves it, without a reference table. *)
Definition sample_engine (query : list string) (s3 : option string) :
    OntoMapEngine :=
  mkOntoMapEngine "sap-bert" "disease" query ["Lung Cancer"; "Breast Cancer"]
    1 "lm" s3 default_s3_threshold sample_cura_map sample_params "test".

(** The table of a run that succeeded. *)
Definition result_of (m : res DataFrame) : DataFrame :=
  match m with
  | Ok df => df
  | Err _ => mkDataFrame [] []
  end.

(** The engine of a construction that succeeded. *)
Definition engine_of_res (m : res OntoMapEngine) : OntoMapEngine :=
  match m with
  | Ok e => e
  | Err _ => sample_engine [] None
  end.

(** The row of a table at an index. *)
Definition nth_row (df : DataFrame) (i : nat) : row :=
  default ∅ (df_rows df !! i).

Definition sample_args (query : list string) (s3 : option string) : InitArgs :=
  mkInitArgs "sap-bert" "disease" query ["Lung Cancer"; "Breast Cancer"]
    [("Lung Cancer", Some (VStr "NCIT:C4878")); ("XYZ", Some (VStr "NCIT:C0000"))]
    1 "lm" s3 default_s3_threshold
    (mkOtherParams (Some "test") (Some sample_table) None).

Lemma nth_row_elem_of df i :
  bool_decide (i < length (df_rows df)) = true → nth_row df i ∈ df_rows df.
Proof.
  intros Hi%bool_decide_eq_true. unfold nth_row.
  destruct (lookup_lt_is_Some_2 (df_rows df) i Hi) as [r Hr].
  rewrite Hr. by eapply list_elem_of_lookup_2.
Qed.
