(* ===== verification/Correct.v ===== *)
(** * Correctness of the cascade

    The properties of [run] (lines 236-417), each for every numeric
    conversion, abbreviation file and backend:

    - coverage: the queries of the final table are the queries of the
      engine;
    - stage exclusivity: the rows of one query carry one stage, which is 1
      for the exact matches, 3 for the escalated queries and 2 for the
      others;
    - exact matches: their rows are the rows of stage 1;
    - escalation: a stage-2 row is kept unless its query is escalated, and
      the rows of an escalated query are stage-3 rows; the numeric policy:
      which rows count as below the threshold;
    - degradation: without a column [top1_score] the run ends after stage
      2, whatever stage 3 is configured to be;
    - the number of rows, when the backend answers every expansion once;
      without the other conditions of that theorem: a repeated query that
      is no exact match has one row, and a query that ends in a NUL
      character has none of its own;
    - the cells of a stage row: the four cells the engine writes, and the
      cells of the matcher's row, unchanged; and the number of rows the
      join gives a query;
    - the assembled table: it is well formed when the backend's tables
      are, and its columns are those of the stage tables that were made.

    The proofs read the rows of the final table off [cascade_of]
    ([Outcome.v]).  Each theorem with a hypothesis is applied to a run of
    the sample engine ([Samples.v]). *)

From stdpp Require Import gmap.
From Stdlib Require Import QArith Qcanon.
From S2P Require Import Prelude PyStr PyDict Frame ExactMatch Abbrev Engine.
From S2P Require Import Adapter Cascade Outcome Samples.

(** The stage of a query in a run whose stage-2 table is [s2_res]. *)
Definition stage_of `{PandasNumeric} (e : OntoMapEngine) (s2_res : DataFrame)
    (q : string) : Z :=
  if decide (q ∈ exact_matches e) then 1
  else if decide (q ∈ escalation e s2_res) then 3 else 2.

Section correct.
Context `{PandasNumeric, AbbrevSource, Backend}.
Implicit Types (e : OntoMapEngine) (q : string) (r : row)
  (df s2_res : DataFrame).

(** ** The rows of the final table *)

Lemma escalation_remaining e s2_res raw2 raw3 df q :
  cascade_of e s2_res raw2 raw3 df →
  q ∈ escalation e s2_res → q ∈ remaining e.
Proof.
  intros Hc Hq%escalation_subseteq.
  rewrite (cascade_s2_rows _ _ _ _ _ Hc) in Hq.
  by apply elem_of_originals_stage_rows in Hq.
Qed.

(** A row of the final table is a row of stage 1 for an exact match, a row
    of stage 2 for a remaining query that is not escalated, or a row of
    stage 3 for an escalated query. *)
Lemma cascade_row e s2_res raw2 raw3 df r :
  cascade_of e s2_res raw2 raw3 df →
  r ∈ df_rows df ↔
    (∃ q, q ∈ exact_matches e ∧ r = exact_row (cura_map e) (topk e) q) ∨
    (∃ q, q ∈ remaining e ∧ (q ∉ escalation e s2_res) ∧
          r ∈ rows_of_query (cura_map e) 2 raw2 q) ∨
    (∃ q, q ∈ escalation e s2_res ∧ r ∈ rows_of_query (cura_map e) 3 raw3 q).
Proof.
  intros Hc. rewrite (cascade_rows _ _ _ _ _ Hc), !elem_of_app.
  unfold exact_rows. rewrite list_elem_of_fmap, elem_of_drop_escalated.
  rewrite (cascade_s2_rows _ _ _ _ _ Hc), !elem_of_stage_rows.
  assert (∀ q, r ∈ rows_of_query (cura_map e) 2 raw2 q →
            r !! "original_value" = Some (VStr q)) as Hov.
  { intros q Hr. by apply rows_of_query_cells in Hr as (? & _). }
  naive_solver.
Qed.

(** Every row names its query and carries the stage of that query. *)
Lemma cascade_row_stage e s2_res raw2 raw3 df r :
  cascade_of e s2_res raw2 raw3 df → r ∈ df_rows df →
  ∃ q, (q ∈ exact_matches e ∨ q ∈ remaining e) ∧
       r !! "original_value" = Some (VStr q) ∧
       r !! "stage" = Some (VNum (Qc_of_Z (stage_of e s2_res q))).
Proof.
  intros Hc [(q & Hq & ->)|[(q & Hq & Hesc & Hr)|(q & Hq & Hr)]]%(cascade_row _ _ _ _ _ _ Hc);
    exists q; unfold stage_of.
  - rewrite decide_True by done.
    rewrite Qc_of_Z_one.
    split_and!; [by left|apply exact_row_original|apply exact_row_stage].
  - apply rows_of_query_cells in Hr as (-> & _ & -> & _).
    rewrite decide_False by (by apply remaining_not_exact).
    rewrite decide_False by done. auto.
  - apply rows_of_query_cells in Hr as (-> & _ & -> & _).
    pose proof (escalation_remaining _ _ _ _ _ _ Hc Hq).
    rewrite decide_False by (by apply remaining_not_exact).
    rewrite decide_True by done. auto.
Qed.

(** Every exact match and every remaining query has a row. *)
Lemma cascade_has_row e s2_res raw2 raw3 df q :
  cascade_of e s2_res raw2 raw3 df →
  q ∈ exact_matches e ∨ q ∈ remaining e →
  ∃ r, r ∈ df_rows df ∧ r !! "original_value" = Some (VStr q).
Proof.
  intros Hc Hq.
  assert (∀ stage raw, ∃ r, r ∈ rows_of_query (cura_map e) stage raw q) as Hrow.
  { intros stage raw. pose proof (rows_of_query_nonempty (cura_map e) stage raw q).
    destruct (rows_of_query _ _ _ q) as [|r ?]; [done|]. exists r. by left. }
  setoid_rewrite (cascade_row _ _ _ _ _ _ Hc). destruct Hq as [Hq|Hq].
  - eexists. split; [left; eauto|]. apply exact_row_original.
  - destruct (decide (q ∈ escalation e s2_res)) as [Hesc|Hesc].
    + destruct (Hrow 3%Z raw3) as [r Hr]. exists r. split; [eauto 6|].
      by apply rows_of_query_cells in Hr as (? & _).
    + destruct (Hrow 2%Z raw2) as [r Hr]. exists r. split; [eauto 8|].
      by apply rows_of_query_cells in Hr as (? & _).
Qed.

(** The queries of the final table, whatever the queries are. *)
Lemma run_originals e df c :
  run e = Ok df →
  c ∈ column_values "original_value" df ↔
    ∃ q, (q ∈ exact_matches e ∨ q ∈ remaining e) ∧ c = Some (VStr q).
Proof.
  intros (s2_res & raw2 & raw3 & Hc)%run_Ok_cascade.
  unfold column_values. rewrite list_elem_of_fmap. split.
  - intros (r & -> & (q & ? & ? & _)%(cascade_row_stage _ _ _ _ _ _ Hc)). eauto.
  - intros (q & (r & ? & ?)%(cascade_has_row _ _ _ _ _ _ Hc) & ->). eauto.
Qed.

(** C1. Coverage: when no query ends in a NUL character, the column
    [original_value] of the table [run] returns holds exactly the queries of
    the engine: every query is the [original_value] of some row, and every
    row has a query of the engine as its [original_value], never a null or
    an expanded string. *)
Theorem run_coverage e df c :
  run e = Ok df → Forall (λ q, np_str q = q) (query e) →
  c ∈ column_values "original_value" df ↔ ∃ q, q ∈ query e ∧ c = Some (VStr q).
Proof.
  intros Hrun Hnp. rewrite (run_originals e df c Hrun).
  by setoid_rewrite (exact_or_remaining e _ Hnp).
Qed.

(** C2. Stage exclusivity: in the table [run] returns, two rows with the
    same [original_value] carry the same [stage]. *)
Theorem run_stage_exclusive e df r1 r2 :
  run e = Ok df → r1 ∈ df_rows df → r2 ∈ df_rows df →
  r1 !! "original_value" = r2 !! "original_value" →
  r1 !! "stage" = r2 !! "stage".
Proof.
  intros (s2_res & raw2 & raw3 & Hc)%run_Ok_cascade
    (q1 & _ & Hq1 & ->)%(cascade_row_stage _ _ _ _ _ _ Hc)
    (q2 & _ & Hq2 & ->)%(cascade_row_stage _ _ _ _ _ _ Hc) Heq.
  congruence.
Qed.

(** C11. The stage of a row is 1, 2 or 3, and it is 1 exactly when the
    row's query is an exact match. *)
Theorem run_stage_tag e df r :
  run e = Ok df → r ∈ df_rows df →
  ∃ q n, r !! "original_value" = Some (VStr q) ∧
         r !! "stage" = Some (VNum (Qc_of_Z n)) ∧
         n ∈ [1; 2; 3]%Z ∧ (n = 1%Z ↔ q ∈ exact_matches e).
Proof.
  intros (s2_res & raw2 & raw3 & Hc)%run_Ok_cascade
    (q & _ & Hq & Hst)%(cascade_row_stage _ _ _ _ _ _ Hc).
  exists q, (stage_of e s2_res q). split_and!; [done..| |];
    unfold stage_of; repeat case_decide; set_solver.
Qed.

(** C4. Exact-match correctness: a query whose key is the key of a corpus
    label has a row in the table [run] returns, and each of its rows is the
    row of stage 1: [match_level] and [stage] are 1, every score
    [top<i>_score] for [i] from 1 to [topk] is 1, every [top<i>_match] is
    the curated label, which is the curation map's entry for the query as
    it is spelled and the query itself when there is no entry. *)
Theorem run_exact_match e df q :
  run e = Ok df → q ∈ query e → Exists (same_key q) (corpus e) →
  (∃ r, r ∈ df_rows df ∧ r !! "original_value" = Some (VStr q)) ∧
  ∀ r, r ∈ df_rows df → r !! "original_value" = Some (VStr q) →
    r !! "match_level" = Some (VNum 1) ∧
    r !! "stage" = Some (VNum 1) ∧
    r !! "curated_ontology" =
      Some (default (VStr q) (mjoin (dict_get q (cura_map e)))) ∧
    ∀ i, (1 ≤ i ≤ topk e)%Z →
      r !! top_score i = Some (VNum 1) ∧
      r !! top_match i = r !! "curated_ontology".
Proof.
  intros (s2_res & raw2 & raw3 & Hc)%run_Ok_cascade Hq Hkey.
  assert (q ∈ exact_matches e) as Hex by (by apply elem_of_exact_matches).
  split; [by eapply cascade_has_row; eauto|]. intros r Hr Hov.
  assert (r = exact_row (cura_map e) (topk e) q) as ->.
  { apply (cascade_row _ _ _ _ _ _ Hc) in Hr
      as [(q' & _ & ->)|[(q' & Hq' & _ & Hr)|(q' & Hq' & Hr)]].
    - rewrite exact_row_original in Hov. congruence.
    - apply rows_of_query_cells in Hr as (? & _).
      apply remaining_not_exact in Hq'. congruence.
    - apply rows_of_query_cells in Hr as (? & _).
      eapply escalation_remaining, remaining_not_exact in Hq'; [|done].
      congruence. }
  split_and!; [apply exact_row_match_level|apply exact_row_stage|
               apply exact_row_curated|].
  intros i Hi. split; [by apply exact_row_top_score|by apply exact_row_top_match].
Qed.

(** ** Escalation *)

(** The stage-2 table of a run is the table its stage 2 returns. *)
Lemma cascade_s2_table e s2_res raw2 raw3 df s2 r :
  cascade_of e s2_res raw2 raw3 df →
  matcher_stage e (s2_strategy e) 2 (remaining e) = Ok s2 →
  r ∈ df_rows s2 → s2_res = s2.
Proof.
  intros Hc Hs2 Hr. destruct (decide (remaining e = [])) as [Hnil|Hrest].
  - apply matcher_stage_Ok in Hs2 as (raw & _ & Hrows & _).
    rewrite Hrows, Hnil in Hr. by apply elem_of_nil in Hr.
  - pose proof (cascade_s2_stage _ _ _ _ _ Hc Hrest). congruence.
Qed.

(** What becomes of a stage-2 row when stage 3 is configured and the
    stage-2 table has a column [top1_score]. *)
Lemma cascade_escalation e s2_res df s3 r q :
  matcher_stage e (s2_strategy e) 2 (remaining e) = Ok s2_res →
  run e = Ok df →
  s3_strategy e = Some s3 → "top1_score" ∈ df_columns s2_res →
  r ∈ df_rows s2_res → r !! "original_value" = Some (VStr q) →
  (low_confidence (s3_threshold e) r = true →
     q ∈ queries_for_s3 (s3_threshold e) s2_res) ∧
  if decide (q ∈ queries_for_s3 (s3_threshold e) s2_res)
  then (r ∉ df_rows df) ∧
       ∃ r', r' ∈ df_rows df ∧ r' !! "original_value" = Some (VStr q) ∧
             r' !! "stage" = Some (VNum (Qc_of_Z 3))
  else r ∈ df_rows df ∧ low_confidence (s3_threshold e) r = false.
Proof.
  intros Hs2 (s2 & raw2 & raw3 & Hc)%run_Ok_cascade Hs3 Hscore Hr Hov.
  assert (s2 = s2_res) as -> by eauto using cascade_s2_table.
  assert (low_confidence (s3_threshold e) r = true →
          q ∈ queries_for_s3 (s3_threshold e) s2_res) as Hlow.
  { intros ?. apply elem_of_queries_for_s3. eauto. }
  split; [done|].
  pose proof (escalation_enabled e s2_res s3 Hs3 Hscore) as Hesc.
  pose proof Hr as Hr'. rewrite (cascade_s2_rows _ _ _ _ _ Hc) in Hr'.
  apply elem_of_stage_rows in Hr' as (q' & Hq' & Hrq).
  pose proof Hrq as (? & _ & Hst & _)%rows_of_query_cells.
  assert (q' = q) as -> by congruence.
  case_decide as Hq; rewrite <-Hesc in Hq.
  - split.
    + intros (q' & _ & ? & Hst')%(cascade_row_stage _ _ _ _ _ _ Hc).
      assert (q' = q) as -> by congruence. revert Hst'. unfold stage_of.
      rewrite decide_False by (by apply remaining_not_exact).
      rewrite decide_True, Hst by done. by intros [= ?%VNum_Qc_of_Z_inj].
    + pose proof (rows_of_query_nonempty (cura_map e) 3 raw3 q).
      destruct (rows_of_query (cura_map e) 3 raw3 q) as [|r' ?] eqn:Hrows; [done|].
      assert (r' ∈ rows_of_query (cura_map e) 3 raw3 q) as Hr3
        by (rewrite Hrows; left).
      exists r'. split; [apply (cascade_row _ _ _ _ _ _ Hc); eauto 6|].
      by apply rows_of_query_cells in Hr3 as (? & _ & ? & _).
  - split; [apply (cascade_row _ _ _ _ _ _ Hc); eauto 8|].
    rewrite Hesc in Hq. apply not_true_is_false. auto.
Qed.

(** C3. Escalation: when stage 3 is configured and the stage-2 table has
    a column [top1_score], a stage-2 row is absent from the final table
    exactly when its query is escalated, that is when some stage-2 row of
    the query has a score below the threshold (a score that is null or no
    number counting as 0).  An escalated query has a row of stage 3 in the
    final table; a stage-2 row that is kept has a score that is not below
    the threshold. *)
Theorem run_escalation e s2_res df s3 r q :
  matcher_stage e (s2_strategy e) 2 (remaining e) = Ok s2_res →
  run e = Ok df →
  s3_strategy e = Some s3 → "top1_score" ∈ df_columns s2_res →
  r ∈ df_rows s2_res → r !! "original_value" = Some (VStr q) →
  (low_confidence (s3_threshold e) r = true →
     q ∈ queries_for_s3 (s3_threshold e) s2_res) ∧
  if decide (q ∈ queries_for_s3 (s3_threshold e) s2_res)
  then (r ∉ df_rows df) ∧
       ∃ r', r' ∈ df_rows df ∧ r' !! "original_value" = Some (VStr q) ∧
             r' !! "stage" = Some (VNum (Qc_of_Z 3))
  else r ∈ df_rows df ∧ low_confidence (s3_threshold e) r = false.
Proof. apply cascade_escalation. Qed.

(** C14. The numeric policy of the escalation (lines 340-342): the score of
    a stage-2 row is the number in its cell [top1_score], or the number
    the text of the cell reads as, and 0 when the cell is null or its text
    is no number.  With stage 3 configured, a row whose score is below the
    threshold is replaced: it is not in the final table, and its query has
    a row of stage 3 there.  So a row without a readable score is always
    escalated when the threshold is positive. *)
Theorem run_numeric_policy e s2_res df s3 r q :
  matcher_stage e (s2_strategy e) 2 (remaining e) = Ok s2_res →
  run e = Ok df →
  s3_strategy e = Some s3 → "top1_score" ∈ df_columns s2_res →
  r ∈ df_rows s2_res → r !! "original_value" = Some (VStr q) →
  match r !! "top1_score" with
  | Some (VNum s) => (s < s3_threshold e)%Qc
  | Some (VStr t) => (default 0 (str_to_num t) < s3_threshold e)%Qc
  | None => (0 < s3_threshold e)%Qc
  end →
  (r ∉ df_rows df) ∧
  ∃ r', r' ∈ df_rows df ∧ r' !! "original_value" = Some (VStr q) ∧
        r' !! "stage" = Some (VNum (Qc_of_Z 3)).
Proof.
  intros Hs2 Hrun Hs3 Hscore Hr Hov Hlow.
  destruct (cascade_escalation e s2_res df s3 r q) as [Hq Hif]; [done..|].
  rewrite decide_True in Hif; [done|]. apply Hq.
  unfold low_confidence, to_numeric. apply bool_decide_eq_true.
  by repeat case_match.
Qed.

(** ** The exits after stage 2 *)

(** C10. The three exits after stage 2 (lines 318, 331 and 361): when
    stage 3 is disabled, or the stage-2 table has no column [top1_score],
    or no stage-2 row is below the threshold, [run] returns the table of
    stage 1 followed by the whole table of stage 2, and the stage-3 matcher
    is not consulted. *)
Theorem run_without_stage3 e s2_res :
  remaining e ≠ [] →
  matcher_stage e (s2_strategy e) 2 (remaining e) = Ok s2_res →
  s3_strategy e = None ∨ ("top1_score" ∉ df_columns s2_res) ∨
    queries_for_s3 (s3_threshold e) s2_res = [] →
  run e = Ok (concat_frames
                [exact_frame (cura_map e) (topk e) (exact_matches e); s2_res]).
Proof.
  intros Hrest Hs2 Hcase. rewrite run_unfold. simpl.
  rewrite decide_False, Hs2 by done. simpl. rewrite stage3_unfold.
  rewrite decide_True; [done|].
  destruct Hcase as [?|[?|Hnone]];
    [by apply escalation_disabled|by apply escalation_unscored|].
  unfold escalation. by repeat case_match.
Qed.

(** C6. Degradation: when the stage-2 matcher answers with a table the
    engine can join that has no column [top1_score], [run] raises nothing
    and returns the rows of stages 1 and 2, whatever the stage-3 strategy
    and whatever the stage-3 matcher would do.  (Tables have no column
    types in the model: the matcher's [original_value] is taken to be a
    column of strings, as pandas needs it to join it with the queries.) *)
Theorem run_degradation e raw :
  remaining e ≠ [] →
  ask e (s2_strategy e) (remaining e) = Ok raw → keyed_table raw →
  "top1_score" ∉ df_columns raw →
  ∃ s2_res,
    matcher_stage e (s2_strategy e) 2 (remaining e) = Ok s2_res ∧
    df_rows s2_res = stage_rows (cura_map e) 2 raw (remaining e) ∧
    run e = Ok (concat_frames
                  [exact_frame (cura_map e) (topk e) (exact_matches e); s2_res]).
Proof.
  intros Hrest Hask Hraw Hscore.
  destruct (matcher_stage_total e _ 2 _ raw Hask Hraw) as [s2_res Hs2].
  exists s2_res. pose proof Hs2 as (raw' & Hask' & Hrows & Hcols)%matcher_stage_Ok.
  assert (raw' = raw) as -> by congruence. split_and!; [done..|].
  rewrite run_unfold. simpl. rewrite decide_False, Hs2 by done. simpl.
  rewrite stage3_unfold, decide_True; [done|]. apply escalation_unscored.
  rewrite Hcols; [done|]. unfold engine_columns. set_solver.
Qed.

(** ** The number of rows *)

(** When the backend answers every expansion at most once, the queries of
    the final table are the exact matches, as often as they are given, and
    the remaining queries, once each. *)
Lemma run_originals_once e df :
  run e = Ok df → single_answer_backend →
  originals (df_rows df) ≡ₚ exact_matches e ++ remaining e.
Proof.
  intros (s2 & raw2 & raw3 & Hc)%run_Ok_cascade Hb.
  assert (originals (df_rows s2) = remaining e) as Hs2.
  { rewrite (cascade_s2_rows _ _ _ _ _ Hc).
    destruct (decide (remaining e = [])) as [->|Hrest]; [done|].
    apply originals_stage_rows_once. eapply ask_once; [done|].
    by apply (cascade_s2_ask _ _ _ _ _ Hc). }
  assert (originals (stage_rows (cura_map e) 3 raw3 (escalation e s2)) =
          escalation e s2) as Hs3.
  { destruct (decide (escalation e s2 = [])) as [->|Hesc]; [done|].
    apply originals_stage_rows_once. eapply ask_once; [done|].
    by apply (cascade_s3_ask _ _ _ _ _ Hc). }
  rewrite (cascade_rows _ _ _ _ _ Hc), !originals_app.
  rewrite originals_drop_escalated, originals_exact_rows, Hs2, Hs3. f_equiv.
  pose proof (escalation_sublist e s2) as Hsub. rewrite Hs2 in Hsub.
  pose proof (setdiff1d_NoDup (query e) (exact_matches e)).
  apply filter_out_Permutation; [done|by eapply sublist_NoDup|].
  intros x Hx. by eapply elem_of_sublist.
Qed.

(** C5. Row count: when the backend answers every expansion at most once,
    no query ends in a NUL character and no query that is no exact match
    is given twice, the table [run] returns has one row for each query: its
    column [original_value] is a permutation of the queries, repetitions
    included, and it has as many rows as there are queries. *)
Theorem run_row_count e df :
  run e = Ok df → single_answer_backend →
  Forall (λ q, np_str q = q) (query e) →
  NoDup (filter (λ q, q ∉ exact_matches e) (query e)) →
  originals (df_rows df) ≡ₚ query e ∧ length (df_rows df) = length (query e).
Proof.
  intros Hrun Hb Hnp Hnd.
  assert (originals (df_rows df) ≡ₚ query e) as Hperm.
  { rewrite (run_originals_once e df Hrun Hb).
    apply (remaining_Permutation e Hnp Hnd). }
  split; [done|]. rewrite <-(Permutation_length Hperm). symmetry.
  apply run_Ok_cascade in Hrun as (s2 & raw2 & raw3 & Hc).
  apply length_omap_total, Forall_forall.
  intros r (q & _ & Hq & _)%(cascade_row_stage _ _ _ _ _ _ Hc).
  rewrite Hq. by eexists.
Qed.

(** C18. Repeated queries are not preserved: when the backend answers every
    expansion at most once and no query ends in a NUL character, a query
    that is no exact match has exactly one row in the table [run] returns,
    however often it is given ([np.setdiff1d] hands every remaining query
    to stage 2 once). *)
Theorem run_collapses_repeated_queries e df q :
  run e = Ok df → single_answer_backend →
  Forall (λ q, np_str q = q) (query e) →
  q ∈ query e → q ∉ exact_matches e →
  length (filter (λ x, x = q) (originals (df_rows df))) = 1.
Proof.
  intros Hrun Hb Hnp Hq Hex.
  rewrite (run_originals_once e df Hrun Hb), filter_app, length_app.
  rewrite filter_none by (apply Forall_forall; by intros x ? ->). simpl.
  apply length_filter_NoDup; [apply setdiff1d_NoDup|].
  apply (exact_or_remaining e q Hnp) in Hq. tauto.
Qed.

(** C35. A query whose stored form differs from it has no row: NumPy stores
    a string without its trailing NUL characters, so such a query, unless
    it is an exact match, is never the [original_value] of a row of the
    table [run] returns.  Its stored form has a row when no stored exact
    match is equal to it. *)
Theorem run_loses_nul_query e df q :
  run e = Ok df → np_str q ≠ q → q ∉ exact_matches e →
  (Some (VStr q) ∉ column_values "original_value" df) ∧
  (q ∈ query e → (np_str q ∉ np_str <$> exact_matches e) →
   Some (VStr (np_str q)) ∈ column_values "original_value" df).
Proof.
  intros Hrun Hnul Hex. split.
  - intros (q' & [?|Hrest] & [= <-])%(run_originals e df _ Hrun); [done|].
    apply elem_of_remaining in Hrest as [(x & -> & _)%list_elem_of_fmap _].
    by rewrite np_str_idemp in Hnul.
  - intros Hq Hne. apply (run_originals e df _ Hrun). exists (np_str q).
    split; [right|done]. apply elem_of_remaining.
    split; [by apply list_elem_of_fmap_2|done].
Qed.

(** ** Success and failure *)

Lemma valid_engine_known e :
  valid_engine e →
  s2_strategy e ∈ known_strategies ∧
  ∀ s3, s3_strategy e = Some s3 → s3 ∈ known_strategies.
Proof.
  intros (Hs2 & _ & Hs3). unfold known_strategies. split; [set_solver|].
  intros s3 Heq. rewrite Heq in Hs3. set_solver.
Qed.

(** C7. Success: on an engine the constructor returned, [run] returns a
    table whenever the backend answers every call with a table that has a
    column [original_value], no column [updated_value] and no column
    twice.  (As for degradation, the column [original_value] is taken to
    be a column of strings.) *)
Theorem run_succeeds a e :
  init a = Ok e → keyed_backend → ∃ df, run e = Ok df.
Proof.
  intros [? ?]%init_valid_engine%valid_engine_known ?. by apply run_total.
Qed.

(** C13. Errors of stage 2: when a query remains after stage 1, a stage-2
    strategy the adapter does not know makes [run] fail with the adapter's
    [ValueError], and an error of the stage-2 matcher is the error of
    [run]. *)
Theorem run_stage2_error e :
  remaining e ≠ [] →
  (s2_strategy e ∉ known_strategies →
   run e = Err (ValueError
     ("strategy should be 'st', 'lm', 'rag', or 'rag_bie', got '"
        +:+ s2_strategy e +:+ "'"))) ∧
  (∀ x, ask e (s2_strategy e) (remaining e) = Err x → run e = Err x).
Proof.
  intros Hrest. split.
  - intros Hs2. apply run_stage2_Err; [done|]. by apply ask_unknown.
  - intros x. by apply run_stage2_Err.
Qed.

(** C12. Early exit: when every query is an exact match, [run] returns the
    table of stage 1 and consults no matcher, so no strategy name and no
    backend can make it fail. *)
Theorem run_early_exit e :
  Forall (λ q, Exists (same_key q) (corpus e)) (query e) →
  run e = Ok (exact_frame (cura_map e) (topk e) (query e)).
Proof.
  rewrite Forall_forall. intros Hall.
  assert (exact_matches e = query e) as Hex.
  { apply filter_all, Forall_forall. intros q Hq.
    apply elem_of_corpus_normalized. specialize (Hall q Hq).
    apply Exists_exists in Hall as (c & ? & ?). eauto. }
  rewrite run_exact_only, Hex; [done|]. unfold remaining. rewrite Hex.
  apply filter_none, Forall_forall. by intros x Hx [].
Qed.

(** ** The cells of a matcher stage *)

(** C16. The rows of a matcher stage (lines 276-303): a row of the stage
    table names a query of the stage and its expansion, carries the stage
    and the curated label of the query as it is spelled ("Not Found"
    without one), and under every other column the cell of a row of the
    matcher's table that answers the expansion, unchanged; it is null there
    when the matcher's table has no row for the expansion. *)
Theorem matcher_stage_cells e strategy stage queries df raw r c :
  matcher_stage e strategy stage queries = Ok df →
  ask e strategy queries = Ok raw → "original_value" ∈ df_columns raw →
  r ∈ df_rows df → c ∉ engine_columns →
  ∃ q, q ∈ queries ∧
    r !! "original_value" = Some (VStr q) ∧
    r !! "updated_value" = Some (VStr (expand q)) ∧
    r !! "stage" = Some (VNum (Qc_of_Z stage)) ∧
    r !! "curated_ontology" =
      Some (default (VStr "Not Found") (mjoin (dict_get q (cura_map e)))) ∧
    (((∀ a, a ∈ df_rows raw →
            a !! "original_value" ≠ Some (VStr (expand q))) ∧
      r !! c = None) ∨
     (∃ a, a ∈ df_rows raw ∧
           a !! "original_value" = Some (VStr (expand q)) ∧ r !! c = a !! c)).
Proof.
  intros (raw' & Hask & Hrows & _)%matcher_stage_Ok Hraw Hov Hr Hc.
  rewrite Hask in Hraw. injection Hraw as ->.
  rewrite Hrows in Hr. apply elem_of_stage_rows in Hr as (q & Hq & Hr).
  exists q. pose proof (rows_of_query_cells _ _ _ _ _ Hr) as (? & ? & ? & ?).
  split_and!; [done..|]. by eapply rows_of_query_raw.
Qed.

(** C19. The number of rows of a query in the table of a matcher stage
    (the left join of line 300): for each time the query is among the
    queries of the stage, one row for every row of the matcher's table that
    answers its expansion, and one row when none does.  So two queries with
    one expansion get two rows each when the matcher answers every
    expansion it is given, and a query the matcher dropped keeps one row. *)
Theorem matcher_stage_row_count e strategy stage queries df raw q :
  matcher_stage e strategy stage queries = Ok df →
  ask e strategy queries = Ok raw → "original_value" ∈ df_columns raw →
  length (filter (λ r : row, r !! "original_value" = Some (VStr q))
            (df_rows df)) =
    length (filter (λ x, x = q) queries) *
    max 1 (length (filter (λ a : row,
                     a !! "original_value" = Some (VStr (expand q)))
             (df_rows raw))).
Proof.
  intros (raw' & Hask & -> & _)%matcher_stage_Ok Hraw Hov.
  rewrite Hask in Hraw. injection Hraw as ->.
  by rewrite length_stage_rows_of, rows_of_query_length.
Qed.

(** ** The assembled table *)

Lemma engine_columns_stage1 c topk :
  c ∈ engine_columns → c ∈ exact_columns topk ∨ c = "updated_value".
Proof. unfold engine_columns, exact_columns. rewrite elem_of_app. set_solver. Qed.

Lemma escalation_needs_remaining e s2_res raw2 raw3 df :
  cascade_of e s2_res raw2 raw3 df →
  escalation e s2_res ≠ [] → remaining e ≠ [].
Proof.
  intros Hc Hesc Hnil. destruct (escalation e s2_res) as [|q l] eqn:Heq; [done|].
  assert (q ∈ remaining e) as Hq
    by (eapply escalation_remaining; [done|rewrite Heq; left]).
  rewrite Hnil in Hq. by apply elem_of_nil in Hq.
Qed.

(** C15. The assembled table: when the tables of the backend are well
    formed, the table [run] returns is well formed (no column label twice,
    every cell of every row under one of its columns), and its columns are
    those of the stage tables that were made: the columns of stage 1
    ([original_value], [curated_ontology], [match_level], [stage] and the
    match and the score of every rank up to [topk]); with them
    [updated_value] and the columns of the stage-2 matcher when a query
    remained after stage 1; and the columns of the stage-3 matcher when a
    query was escalated. *)
Theorem run_assembles e df :
  run e = Ok df → wf_backend →
  wf_frame df ∧
  ∃ s2_res raw2 raw3,
    (remaining e ≠ [] →
       matcher_stage e (s2_strategy e) 2 (remaining e) = Ok s2_res ∧
       ask e (s2_strategy e) (remaining e) = Ok raw2) ∧
    (escalation e s2_res ≠ [] →
       ask e (s3_name e) (escalation e s2_res) = Ok raw3) ∧
    ∀ c, c ∈ df_columns df ↔
      c ∈ exact_columns (topk e) ∨
      (remaining e ≠ [] ∧ (c = "updated_value" ∨ c ∈ df_columns raw2)) ∨
      (escalation e s2_res ≠ [] ∧ c ∈ df_columns raw3).
Proof.
  intros Hrun Hb. split; [by eapply run_wf|].
  destruct (run_Ok_cascade e df Hrun) as (s2_res & raw2 & raw3 & Hc).
  exists s2_res, raw2, raw3. split_and!.
  - intros Hrest. split;
      [by apply (cascade_s2_stage _ _ _ _ _ Hc)|
       by apply (cascade_s2_ask _ _ _ _ _ Hc)].
  - apply (cascade_s3_ask _ _ _ _ _ Hc).
  - intros c. rewrite (run_columns_cascade _ _ _ _ _ c Hrun Hc).
    pose proof (engine_columns_stage1 c (topk e)).
    pose proof (escalation_needs_remaining _ _ _ _ _ Hc).
    assert (c = "updated_value" → c ∈ engine_columns)
      by (intros ->; unfold engine_columns; set_solver).
    tauto.
Qed.

End correct.

(** The sample matchers return well-formed tables. *)
Lemma scored_backend_wf score : @wf_backend (scored_backend score).
Proof.
  intros model cm k env raw [= <-]. split; [by_compute|]. simpl.
  apply Forall_fmap, Forall_true. intros q c. unfold answer_row, answer_columns.
  rewrite !lookup_set_cell, lookup_empty, !elem_of_cons.
  repeat case_decide; [auto..|by intros [??]].
Qed.

(** ** The theorems on runs of the sample engine

    Five queries: two spellings of a corpus label, a string the matcher
    scores 0.4, a short code of the abbreviation file and the name the
    code stands for.  The matcher answers every expansion it is given, so
    the code and its name have two stage-2 rows each. *)

Definition cascade_queries : list string :=
  ["Lung Cancer"; " lung cancer"; "XYZ"; "LUAD"; "Lung Adenocarcinoma (NOS)"].

Section scored.
#[local] Existing Instances decimal_numeric oncotree_abbrev.
#[local] Instance sample_backend : Backend := scored_backend sample_score.

Definition cascade_engine : OntoMapEngine :=
  sample_engine cascade_queries (Some "rag").

Definition cascade_stage2 : DataFrame :=
  result_of (matcher_stage cascade_engine "lm" 2 (remaining cascade_engine)).

Definition cascade_result : DataFrame := result_of (run cascade_engine).

Lemma cascade_run_Ok : run cascade_engine = Ok cascade_result.
Proof. by vm_compute. Qed.

Lemma cascade_stage2_Ok :
  matcher_stage cascade_engine (s2_strategy cascade_engine) 2
    (remaining cascade_engine) = Ok cascade_stage2.
Proof. by vm_compute. Qed.

Lemma run_coverage_witness :
  Some (VStr "XYZ") ∈ column_values "original_value" cascade_result ↔
  ∃ q, q ∈ cascade_queries ∧ Some (VStr "XYZ") = Some (VStr q).
Proof.
  apply (run_coverage cascade_engine); [apply cascade_run_Ok|by_compute].
Defined.

Lemma run_stage_exclusive_witness :
  nth_row cascade_result 2 !! "stage" = nth_row cascade_result 3 !! "stage".
Proof.
  apply (run_stage_exclusive cascade_engine cascade_result);
    [apply cascade_run_Ok|by apply nth_row_elem_of..|by vm_compute].
Defined.

Lemma run_stage_tag_witness :
  ∃ q n, nth_row cascade_result 6 !! "original_value" = Some (VStr q) ∧
         nth_row cascade_result 6 !! "stage" = Some (VNum (Qc_of_Z n)) ∧
         n ∈ [1; 2; 3]%Z ∧ (n = 1%Z ↔ q ∈ exact_matches cascade_engine).
Proof.
  apply (run_stage_tag cascade_engine cascade_result);
    [apply cascade_run_Ok|by apply nth_row_elem_of].
Defined.

Lemma run_exact_match_witness :
  (∃ r, r ∈ df_rows cascade_result ∧
        r !! "original_value" = Some (VStr " lung cancer")) ∧
  ∀ r, r ∈ df_rows cascade_result →
    r !! "original_value" = Some (VStr " lung cancer") →
    r !! "match_level" = Some (VNum 1) ∧
    r !! "stage" = Some (VNum 1) ∧
    r !! "curated_ontology" =
      Some (default (VStr " lung cancer")
              (mjoin (dict_get " lung cancer" sample_cura_map))) ∧
    ∀ i, (1 ≤ i ≤ 1)%Z →
      r !! top_score i = Some (VNum 1) ∧
      r !! top_match i = r !! "curated_ontology".
Proof.
  apply (run_exact_match cascade_engine cascade_result " lung cancer");
    [apply cascade_run_Ok|by_compute..].
Defined.

Lemma run_escalation_witness :
  (low_confidence default_s3_threshold (nth_row cascade_stage2 4) = true →
     "XYZ" ∈ queries_for_s3 default_s3_threshold cascade_stage2) ∧
  if decide ("XYZ" ∈ queries_for_s3 default_s3_threshold cascade_stage2)
  then (nth_row cascade_stage2 4 ∉ df_rows cascade_result) ∧
       ∃ r', r' ∈ df_rows cascade_result ∧
             r' !! "original_value" = Some (VStr "XYZ") ∧
             r' !! "stage" = Some (VNum (Qc_of_Z 3))
  else nth_row cascade_stage2 4 ∈ df_rows cascade_result ∧
       low_confidence default_s3_threshold (nth_row cascade_stage2 4) = false.
Proof.
  apply (run_escalation cascade_engine cascade_stage2 cascade_result "rag");
    [apply cascade_stage2_Ok|apply cascade_run_Ok|done|by_compute|
     by apply nth_row_elem_of|by vm_compute].
Defined.

(** The stage-2 row of "XYZ" has the score "0.4", a text, and the
    threshold is 0.9. *)
Lemma run_numeric_policy_witness :
  (nth_row cascade_stage2 4 ∉ df_rows cascade_result) ∧
  ∃ r', r' ∈ df_rows cascade_result ∧
        r' !! "original_value" = Some (VStr "XYZ") ∧
        r' !! "stage" = Some (VNum (Qc_of_Z 3)).
Proof.
  apply (run_numeric_policy cascade_engine cascade_stage2 cascade_result "rag"
           (nth_row cascade_stage2 4) "XYZ");
    [apply cascade_stage2_Ok|apply cascade_run_Ok|done|by_compute|
     by apply nth_row_elem_of|by vm_compute|by vm_compute].
Defined.

Lemma matcher_stage_cells_witness :
  let raw := result_of (ask cascade_engine "lm" (remaining cascade_engine)) in
  let r := nth_row cascade_stage2 4 in
  ∃ q, q ∈ remaining cascade_engine ∧
    r !! "original_value" = Some (VStr q) ∧
    r !! "updated_value" = Some (VStr (expand q)) ∧
    r !! "stage" = Some (VNum (Qc_of_Z 2)) ∧
    r !! "curated_ontology" =
      Some (default (VStr "Not Found") (mjoin (dict_get q sample_cura_map))) ∧
    (((∀ a, a ∈ df_rows raw →
            a !! "original_value" ≠ Some (VStr (expand q))) ∧
      r !! "top1_score" = None) ∨
     (∃ a, a ∈ df_rows raw ∧
           a !! "original_value" = Some (VStr (expand q)) ∧
           r !! "top1_score" = a !! "top1_score")).
Proof.
  apply (matcher_stage_cells cascade_engine "lm" 2 (remaining cascade_engine)
           cascade_stage2);
    [apply cascade_stage2_Ok|by vm_compute|by_compute|
     by apply nth_row_elem_of|by_compute].
Defined.

(** "LUAD" is one of the remaining queries and the matcher's table has two
    rows for its expansion, one asked for by "LUAD" and one by the name. *)
Lemma matcher_stage_row_count_witness :
  let raw := result_of (ask cascade_engine "lm" (remaining cascade_engine)) in
  length (filter (λ r : row, r !! "original_value" = Some (VStr "LUAD"))
            (df_rows cascade_stage2)) =
    length (filter (λ x, x = "LUAD") (remaining cascade_engine)) *
    max 1 (length (filter (λ a : row,
                     a !! "original_value" = Some (VStr (expand "LUAD")))
             (df_rows raw))).
Proof.
  apply (matcher_stage_row_count cascade_engine "lm" 2
           (remaining cascade_engine) cascade_stage2);
    [apply cascade_stage2_Ok|by vm_compute|by_compute].
Defined.

Lemma run_assembles_witness :
  wf_frame cascade_result ∧
  ∃ s2_res raw2 raw3,
    (remaining cascade_engine ≠ [] →
       matcher_stage cascade_engine "lm" 2 (remaining cascade_engine) = Ok s2_res ∧
       ask cascade_engine "lm" (remaining cascade_engine) = Ok raw2) ∧
    (escalation cascade_engine s2_res ≠ [] →
       ask cascade_engine "rag" (escalation cascade_engine s2_res) = Ok raw3) ∧
    ∀ c, c ∈ df_columns cascade_result ↔
      c ∈ exact_columns 1 ∨
      (remaining cascade_engine ≠ [] ∧
       (c = "updated_value" ∨ c ∈ df_columns raw2)) ∨
      (escalation cascade_engine s2_res ≠ [] ∧ c ∈ df_columns raw3).
Proof.
  apply (run_assembles cascade_engine cascade_result);
    [apply cascade_run_Ok|apply scored_backend_wf].
Defined.

End scored.

(** Stage 3 disabled. *)
Lemma run_without_stage3_witness :
  let e := sample_engine cascade_queries None in
  @run decimal_numeric oncotree_abbrev (scored_backend sample_score) e =
    Ok (concat_frames
          [exact_frame (cura_map e) (topk e) (exact_matches e);
           result_of (@matcher_stage oncotree_abbrev
                        (scored_backend sample_score) e "lm" 2 (remaining e))]).
Proof.
  apply (@run_without_stage3 decimal_numeric oncotree_abbrev
           (scored_backend sample_score) (sample_engine cascade_queries None));
    [by_compute|by vm_compute|by left].
Defined.

(** A matcher without scores, and a stage-3 strategy the adapter does not
    know. *)
Lemma run_degradation_witness :
  let e := sample_engine cascade_queries (Some "bogus") in
  let raw := result_of (@ask no_abbrev unscored_backend e "lm" (remaining e)) in
  ∃ s2_res,
    @matcher_stage no_abbrev unscored_backend e (s2_strategy e) 2 (remaining e) =
      Ok s2_res ∧
    df_rows s2_res = @stage_rows no_abbrev (cura_map e) 2 raw (remaining e) ∧
    @run decimal_numeric no_abbrev unscored_backend e =
      Ok (concat_frames
            [exact_frame (cura_map e) (topk e) (exact_matches e); s2_res]).
Proof.
  apply (@run_degradation decimal_numeric no_abbrev unscored_backend
           (sample_engine cascade_queries (Some "bogus")));
    [by_compute|by vm_compute|unfold keyed_table; by_compute|by_compute].
Defined.

(** A matcher that answers every distinct expansion once; "Lung Cancer" is
    given twice. *)
Lemma distinct_backend_once score :
  @single_answer_backend (distinct_backend score).
Proof.
  intros model cm k env raw [= <-]. split; [by_compute|].
  unfold column_values. simpl. rewrite <-list_fmap_compose.
  apply NoDup_fmap_2_strong; [|apply first_occurrences_NoDup].
  intros q1 q2 _ _. unfold answer_row. simpl.
  autorewrite with onto. by intros [= ?].
Qed.

Lemma scored_backend_keyed score : @keyed_backend (scored_backend score).
Proof.
  intros model cm k env. eexists. split; [reflexivity|].
  unfold keyed_table. simpl. by_compute.
Qed.

Lemma run_row_count_witness :
  let e := sample_engine
             ["Lung Cancer"; " lung cancer"; "Lung Cancer"; "XYZ"; "LUAD"]
             (Some "rag") in
  let df := result_of (@run decimal_numeric oncotree_abbrev
                         (distinct_backend sample_score) e) in
  originals (df_rows df) ≡ₚ query e ∧ length (df_rows df) = length (query e).
Proof.
  apply (@run_row_count decimal_numeric oncotree_abbrev
           (distinct_backend sample_score));
    [by vm_compute|apply distinct_backend_once|by_compute..].
Defined.

Lemma run_succeeds_witness :
  ∃ df, @run decimal_numeric oncotree_abbrev (scored_backend sample_score)
          (engine_of_res (@init decimal_numeric
                            (sample_args cascade_queries (Some "rag")))) = Ok df.
Proof.
  apply (@run_succeeds decimal_numeric oncotree_abbrev
           (scored_backend sample_score)
           (sample_args cascade_queries (Some "rag")));
    [by vm_compute|apply scored_backend_keyed].
Defined.

(** A stage-2 strategy the adapter does not know: the first part applies,
    and the error of the second part is the adapter's. *)
Lemma run_stage2_error_witness :
  let e := mkOntoMapEngine "sap-bert" "disease" ["XYZ"]
             ["Lung Cancer"; "Breast Cancer"] 1 "bogus" None default_s3_threshold
             sample_cura_map sample_params "test" in
  (s2_strategy e ∉ known_strategies →
   @run decimal_numeric no_abbrev failing_backend e =
     Err (ValueError
       ("strategy should be 'st', 'lm', 'rag', or 'rag_bie', got '"
          +:+ s2_strategy e +:+ "'"))) ∧
  (∀ x, @ask no_abbrev failing_backend e (s2_strategy e) (remaining e) = Err x →
        @run decimal_numeric no_abbrev failing_backend e = Err x).
Proof.
  apply (@run_stage2_error decimal_numeric no_abbrev failing_backend
           (mkOntoMapEngine "sap-bert" "disease" ["XYZ"]
              ["Lung Cancer"; "Breast Cancer"] 1 "bogus" None
              default_s3_threshold sample_cura_map sample_params "test")).
  by_compute.
Defined.

(** Only exact matches, a strategy the adapter does not know and a backend
    that raises. *)
Lemma run_early_exit_witness :
  let e := mkOntoMapEngine "sap-bert" "disease" ["Lung Cancer"; " breast CANCER "]
             ["Lung Cancer"; "Breast Cancer"] 1 "bogus" None default_s3_threshold
             sample_cura_map sample_params "test" in
  @run decimal_numeric no_abbrev failing_backend e =
    Ok (exact_frame (cura_map e) (topk e) (query e)).
Proof.
  apply (@run_early_exit decimal_numeric no_abbrev failing_backend). by_compute.
Defined.

