(* ===== verification/Scenarios.v ===== *)
(** * Scenarios
    The theorems on the resolver, the normalizer, the constructor and the
    machine applied to the sample collaborators of [Samples.v], and the
    runs behind the places where the engine departs from what one expects
    of it.  Each departure is a theorem of its component, stated for every
    engine and backend, and is applied here to a run that shows it:

    - [run_collapses_repeated_queries] ([Correct.v]): a query that is no
      exact match has one row however often it is given;
    - [matcher_stage_row_count] ([Correct.v]): two queries with one
      expansion have two rows each when the matcher answers every expansion
      it is given ([sample_joined_rows]);
    - [run_loses_nul_query] ([Correct.v]): a query that ends in a NUL
      character has no row of its own;
    - [run_escalation] ([Correct.v]): a stage-2 row with a high score is
      dropped when another row of its query has a low one
      ([sample_confident_row]);
    - [normalize_df_repeated_key] ([Normalizer.v]): a number and the string
      that prints like it survive normalisation as two rows with one key,
      and a second normalisation drops one of them;
    - [sample_updated_value]: a matcher table keyed by [updated_value] is
      joined as if it were keyed by [original_value];
    - [extract_code_only_C]: the code pattern is the letter C and digits,
      no other letter. *)

From stdpp Require Import gmap.
From Stdlib Require Import QArith Qcanon.
From S2P Require Import Prelude PyStr PyDict Frame ExactMatch Abbrev Normalizer.
From S2P Require Import Engine Adapter Cascade Outcome Machine Samples Correct.

(** The [original_value] and the [stage] of every row of a run. *)
Definition stages_of (m : res DataFrame) : list (option string * option Z) :=
  (λ r : row,
     (cell_str (r !! "original_value"),
      match r !! "stage" with
      | Some (VNum q) => Some (Qnum (this q))
      | _ => None
      end)) <$> df_rows (result_of m).

(** A matcher that answers every query twice, with the scores 0.95 and
    0.4. *)
Definition wavering_backend : Backend := λ m _ _ _,
  Ok (mkDataFrame answer_columns
        (model_query m ≫= λ q,
           [answer_row (λ _, Some (VNum (Q2Qc (95 # 100)))) q;
            answer_row (λ _, Some (VNum (Q2Qc (4 # 10)))) q])).

(** A matcher whose table names its key column [updated_value]. *)
Definition renamed_backend : Backend := λ m _ _ _,
  Ok (frame_of_column "updated_value" ((λ q, Some (VStr q)) <$> model_query m)).

(** A reference table whose labels are the number 1 and the string "1". *)
Definition mixed_table : DataFrame :=
  mkDataFrame ["official_label"]
    [ {[ "official_label" := VNum 1 ]}; {[ "official_label" := VStr "1" ]} ].

(** A string followed by a NUL character. *)
Definition with_nul (s : string) : string := s +:+ String "000" "".

(** "XYZ" is no exact match and is given twice. *)
Definition repeated_engine : OntoMapEngine :=
  sample_engine ["XYZ"; "Lung Cancer"; "XYZ"; "Lung Cancer"] None.

(** An exact match, the same with a NUL behind it, and a string that is no
    exact match with a NUL behind it. *)
Definition nul_engine : OntoMapEngine :=
  sample_engine ["Lung Cancer"; with_nul "Lung Cancer"; with_nul "XYZ"] None.

(** ** The resolver *)

Lemma map_shortname_to_fullname_no_file_witness :
  @map_shortname_to_fullname no_abbrev [" LUAD"; "XYZ "] =
    dict_of_items [(" LUAD", "LUAD"); ("XYZ ", "XYZ")].
Proof.
  apply (@map_shortname_to_fullname_no_file no_abbrev [" LUAD"; "XYZ "]).
  reflexivity.
Defined.

Lemma expand_last_row_witness :
  @expand oncotree_abbrev " LUAD " =
    default "LUAD"
      (dict_get "LUAD"
         (reverse [("LUAD", "Lung Adenocarcinoma");
                   ("BRCA", "Invasive Breast Carcinoma");
                   ("LUAD", "Lung Adenocarcinoma (NOS)")])).
Proof.
  exact (@expand_last_row oncotree_abbrev _ " LUAD " eq_refl).
Defined.

(** ** The normalizer and the constructor *)

Section decimal.
#[local] Existing Instance decimal_numeric.

(** The sample table has two rows for "Lung Cancer" and a row without an
    identifier: two rows are left. *)
Lemma normalize_df_normalized_witness :
  normalized true (result_of (normalize_df sample_table true)) ∧
  length (df_rows (result_of (normalize_df sample_table true))) ≤
    length (df_rows sample_table) ∧
  ∀ r', r' ∈ df_rows (result_of (normalize_df sample_table true)) →
    ∃ r, r ∈ df_rows sample_table ∧
      (∀ c, c ∈ keep_columns true →
         is_Some (key_cell sample_table c r) ∧
         r' !! c = Some (VStr (astype_str (key_cell sample_table c r)))) ∧
      (∀ c, c ∉ ["official_label"; "clean_code"] → r' !! c = r !! c).
Proof.
  apply (normalize_df_normalized sample_table true). by vm_compute.
Defined.

Lemma sample_table_string_keys : string_keys sample_table.
Proof.
  intros r c v Hr Hc. unfold sample_table, key_sources in *. simpl in *.
  set_unfold. destruct Hr as [->|[->|[->|[->|[]]]]];
    destruct Hc as [->|[->|[->|[]]]]; intros; simplify_map_eq; eauto.
Qed.

Lemma normalize_df_idemp_witness :
  NoDup (row_key (keep_columns true) <$>
           df_rows (result_of (normalize_df sample_table true))) ∧
  normalize_df (result_of (normalize_df sample_table true)) true =
    Ok (result_of (normalize_df sample_table true)).
Proof.
  apply (normalize_df_idemp sample_table true);
    [apply sample_table_string_keys|by vm_compute].
Defined.

(** The labels 1 and "1" are two keys with one printed form. *)
Lemma normalize_df_repeated_key_witness :
  ∃ df', normalize_df mixed_table false = Ok df' ∧
    ¬ NoDup (row_key (keep_columns false) <$> df_rows df') ∧
    normalize_df df' false ≠ Ok df'.
Proof.
  apply (normalize_df_repeated_key mixed_table false
           {[ "official_label" := VNum 1 ]} {[ "official_label" := VStr "1" ]});
    [by intros c Hc|by left|by right; left|by_compute..|by vm_compute].
Defined.

(** Both rows are kept, with the same label after conversion, and
    normalising the result again drops the second. *)
Example sample_repeated_key :
  let once := result_of (normalize_df mixed_table false) in
  let twice := result_of (normalize_df once false) in
  column_values "official_label" once = [Some (VStr "1"); Some (VStr "1")] ∧
  column_values "official_label" twice = [Some (VStr "1")].
Proof. by vm_compute. Qed.

(** The code is found only behind the letter C: an identifier with
    another letter gives a null code, which step 3 then drops. *)
Example extract_code_only_C :
  extract_code "NCIT:C156482" = Some "C156482" ∧
  extract_code "MONDO:0005061" = None ∧
  extract_code "HP:D0012" = None ∧
  extract_code "CC12C3" = Some "C12".
Proof. by vm_compute. Qed.

Lemma init_valid_witness :
  valid_engine (engine_of_res (init (sample_args ["XYZ"] (Some "rag")))).
Proof.
  apply (init_valid (sample_args ["XYZ"] (Some "rag"))). by vm_compute.
Defined.

(** ** The machine *)

Lemma reachable_accounted_witness :
  "XYZ" ∈ accounted (@exec decimal_numeric oncotree_abbrev
                       (scored_backend sample_score) 3 (STAGE1 cascade_engine)) ↔
  "XYZ" ∈ exact_matches cascade_engine ∨ "XYZ" ∈ remaining cascade_engine.
Proof.
  apply (@reachable_accounted decimal_numeric oncotree_abbrev
           (scored_backend sample_score) cascade_engine);
    [apply exec_rtc|by_compute|by vm_compute].
Defined.

(** ** Runs *)

(** "XYZ" is given twice and has one row. *)
Lemma run_collapses_repeated_queries_witness :
  length (filter (λ x, x = "XYZ")
            (originals (df_rows (result_of
               (@run decimal_numeric no_abbrev (distinct_backend sample_score)
                  repeated_engine))))) = 1.
Proof.
  apply (@run_collapses_repeated_queries decimal_numeric no_abbrev
           (distinct_backend sample_score) repeated_engine);
    [by vm_compute|apply distinct_backend_once|by_compute..].
Defined.

Example sample_repeated_queries :
  stages_of (@run decimal_numeric no_abbrev (distinct_backend sample_score)
               repeated_engine)
  = [(Some "Lung Cancer", Some 1%Z); (Some "Lung Cancer", Some 1%Z);
     (Some "XYZ", Some 2%Z)].
Proof. by vm_compute. Qed.

(** "LUAD" and the name it stands for have one expansion; a matcher that
    answers both expansions it is given returns two rows with that key, and
    the join gives each of the two queries both rows. *)
Example sample_joined_rows :
  stages_of (@run decimal_numeric oncotree_abbrev (scored_backend sample_score)
               (sample_engine ["LUAD"; "Lung Adenocarcinoma (NOS)"] None))
  = [(Some "LUAD", Some 2%Z); (Some "LUAD", Some 2%Z);
     (Some "Lung Adenocarcinoma (NOS)", Some 2%Z);
     (Some "Lung Adenocarcinoma (NOS)", Some 2%Z)].
Proof. by vm_compute. Qed.

(** "XYZ" with a NUL behind it has no row; "XYZ" has one. *)
Lemma run_loses_nul_query_witness :
  let df := result_of (@run decimal_numeric no_abbrev
                         (scored_backend sample_score) nul_engine) in
  (Some (VStr (with_nul "XYZ")) ∉ column_values "original_value" df) ∧
  (with_nul "XYZ" ∈ query nul_engine →
   (np_str (with_nul "XYZ") ∉ np_str <$> exact_matches nul_engine) →
   Some (VStr (np_str (with_nul "XYZ"))) ∈ column_values "original_value" df).
Proof.
  apply (@run_loses_nul_query decimal_numeric no_abbrev
           (scored_backend sample_score) nul_engine);
    [by vm_compute|by_compute..].
Defined.

(** "Lung Cancer" with a NUL behind it is stored as "Lung Cancer", which
    is an exact match: nothing remains of it for stage 2. *)
Example sample_nul_query :
  stages_of (@run decimal_numeric no_abbrev (scored_backend sample_score)
               nul_engine)
  = [(Some "Lung Cancer", Some 1%Z); (Some "XYZ", Some 2%Z)].
Proof. by vm_compute. Qed.

(** The matcher returns two rows for "XYZ", one with the score 0.95 and
    one with 0.4; the query is escalated, and both rows are replaced by
    rows of stage 3. *)
Example sample_confident_row :
  stages_of (@run decimal_numeric no_abbrev wavering_backend
               (sample_engine ["XYZ"] (Some "rag")))
  = [(Some "XYZ", Some 3%Z); (Some "XYZ", Some 3%Z)].
Proof. by vm_compute. Qed.

(** A matcher table without the column [original_value] is not
    rejected when it has a column [updated_value]: the rename does nothing
    and the join succeeds. *)
Example sample_updated_value :
  stages_of (@run decimal_numeric no_abbrev renamed_backend
               (sample_engine ["XYZ"] None))
  = [(Some "XYZ", Some 2%Z)].
Proof. by vm_compute. Qed.

End decimal.
